(** * Multi-technique consensus anomaly detection: a shallow embedding

    The development follows [scripts/STEP9_anomaly_detection_framework.py]
    (feature matrix, Isolation Forest, z-scores, month-over-month spikes,
    consensus, characterization) and, where the same step exists there,
    [scripts/PHASE3_STEP4_anomaly_detection.py].

    Cells of a pandas column are IEEE 754 binary64 numbers; they are
    modelled by [spec_float] with the parameters of binary64, so that
    division by zero, NaN and the infinities behave as they do in numpy. *)

From Stdlib Require Import ZArith List String Ascii Bool Lia.
From Stdlib Require Import Permutation Sorted.
From Stdlib Require Import SpecFloat.
Import ListNotations.

Local Open Scope Z_scope.

(** ** binary64 arithmetic *)

Module F64.

Definition float := spec_float.

Definition prec : Z := 53.
Definition emax : Z := 1024.

Definition nan : float := S754_nan.
Definition pinf : float := S754_infinity false.
Definition ninf : float := S754_infinity true.
Definition zero : float := S754_zero false.

Definition add : float -> float -> float := SFadd prec emax.
Definition sub : float -> float -> float := SFsub prec emax.
Definition mul : float -> float -> float := SFmul prec emax.
Definition div : float -> float -> float := SFdiv prec emax.
Definition sqrt : float -> float := SFsqrt prec emax.
Definition abs : float -> float := SFabs.

(** [x == y], [x < y], [x <= y], [x > y]: false as soon as one side is NaN. *)
Definition eqb : float -> float -> bool := SFeqb.
Definition ltb : float -> float -> bool := SFltb.
Definition leb : float -> float -> bool := SFleb.
Definition gtb (x y : float) : bool := SFltb y x.

(** int64 -> float64 conversion, rounding to nearest even. *)
Definition of_Z (z : Z) : float := binary_normalize prec emax z 0 false.

Definition is_nan (x : float) : bool :=
  match x with S754_nan => true | _ => false end.

Definition is_inf (x : float) : bool :=
  match x with S754_infinity _ => true | _ => false end.

Definition is_zero (x : float) : bool :=
  match x with S754_zero _ => true | _ => false end.

(** [np.isfinite]. *)
Definition is_finite (x : float) : bool :=
  match x with
  | S754_zero _ | S754_finite _ _ _ => true
  | _ => false
  end.

(** A number different from zero: finite non-zero or infinite, not NaN. *)
Definition is_nonzero (x : float) : bool :=
  match x with
  | S754_finite _ _ _ | S754_infinity _ => true
  | _ => false
  end.

End F64.

Abbreviation float := F64.float.

(** ** Cleaned input tables

    The three CSV files hold non-negative integer counts per
    (state, date) row; pandas reads them as int64 columns. *)

Record Date := { year : Z; month : Z; day : Z }.

Record EnrolmentRec := {
  enr_state : string;
  enr_date : Date;
  enr_age_0_5 : Z;
  enr_age_5_17 : Z;
  enr_age_18_greater : Z;
  enr_total_enrolments : Z
}.

Record BiometricRec := {
  bio_state : string;
  bio_date : Date;
  bio_bio_age_5_17 : Z;
  bio_bio_age_17_ : Z;
  bio_total_bio_updates : Z
}.

Record DemographicRec := {
  demo_state : string;
  demo_date : Date;
  demo_total_demo_updates : Z
}.

(** int64 addition wraps around. *)
Definition wrap64 (z : Z) : Z := (z + 2 ^ 63) mod 2 ^ 64 - 2 ^ 63.
Definition add64 (a b : Z) : Z := wrap64 (a + b).

(** ** [groupby(...).agg('sum').reset_index()]

    The result has one row per key, keys in increasing order. *)

Section GroupBy.
Context {K V : Type}.
Variable cmp : K -> K -> comparison.
Variable plus : V -> V -> V.

Fixpoint group_insert (k : K) (v : V) (acc : list (K * V)) : list (K * V) :=
  match acc with
  | [] => [(k, v)]
  | (k', v') :: rest =>
      match cmp k k' with
      | Lt => (k, v) :: acc
      | Eq => (k', plus v' v) :: rest
      | Gt => (k', v') :: group_insert k v rest
      end
  end.

Definition groupby_sum (rows : list (K * V)) : list (K * V) :=
  fold_left (fun acc kv => group_insert (fst kv) (snd kv) acc) rows [].
End GroupBy.

Record EnrolSums := {
  sum_age_0_5 : Z;
  sum_age_5_17 : Z;
  sum_age_18_greater : Z;
  sum_total_enrolments : Z
}.

Record BioSums := {
  sum_bio_age_5_17 : Z;
  sum_bio_age_17_ : Z;
  sum_total_bio_updates : Z
}.

Definition enrol_plus (a b : EnrolSums) : EnrolSums :=
  {| sum_age_0_5 := add64 (sum_age_0_5 a) (sum_age_0_5 b);
     sum_age_5_17 := add64 (sum_age_5_17 a) (sum_age_5_17 b);
     sum_age_18_greater := add64 (sum_age_18_greater a) (sum_age_18_greater b);
     sum_total_enrolments := add64 (sum_total_enrolments a) (sum_total_enrolments b) |}.

Definition bio_plus (a b : BioSums) : BioSums :=
  {| sum_bio_age_5_17 := add64 (sum_bio_age_5_17 a) (sum_bio_age_5_17 b);
     sum_bio_age_17_ := add64 (sum_bio_age_17_ a) (sum_bio_age_17_ b);
     sum_total_bio_updates := add64 (sum_total_bio_updates a) (sum_total_bio_updates b) |}.

(** [enrolment.groupby('state').agg({... 'sum'}).reset_index()] *)
Definition enrol_features (enrolment : list EnrolmentRec) : list (string * EnrolSums) :=
  groupby_sum String.compare enrol_plus
    (map (fun r => (enr_state r,
                    {| sum_age_0_5 := enr_age_0_5 r;
                       sum_age_5_17 := enr_age_5_17 r;
                       sum_age_18_greater := enr_age_18_greater r;
                       sum_total_enrolments := enr_total_enrolments r |}))
         enrolment).

Definition bio_features (biometric : list BiometricRec) : list (string * BioSums) :=
  groupby_sum String.compare bio_plus
    (map (fun r => (bio_state r,
                    {| sum_bio_age_5_17 := bio_bio_age_5_17 r;
                       sum_bio_age_17_ := bio_bio_age_17_ r;
                       sum_total_bio_updates := bio_total_bio_updates r |}))
         biometric).

(** Only [total_demo_updates] of the demographic aggregate is read later;
    the two optional age columns are summed when present and never used. *)
Definition demo_features (demographic : list DemographicRec) : list (string * Z) :=
  groupby_sum String.compare add64
    (map (fun r => (demo_state r, demo_total_demo_updates r)) demographic).

(** ** [merge(on='state', how='outer')] and [fillna(0)] *)

Fixpoint lookup {V : Type} (k : string) (l : list (string * V)) : option V :=
  match l with
  | [] => None
  | (k', v) :: rest => if String.eqb k k' then Some v else lookup k rest
  end.

Fixpoint key_insert (k : string) (ks : list string) : list string :=
  match ks with
  | [] => [k]
  | k' :: rest =>
      match String.compare k k' with
      | Lt => k :: ks
      | Eq => ks
      | Gt => k' :: key_insert k rest
      end
  end.

(** Keys of an outer merge: the union of both key columns, sorted. *)
Definition outer_keys (l r : list string) : list string :=
  fold_left (fun acc k => key_insert k acc) (l ++ r) [].

Definition merge_outer {A B : Type}
    (l : list (string * A)) (r : list (string * B))
  : list (string * (option A * option B)) :=
  map (fun k => (k, (lookup k l, lookup k r)))
      (outer_keys (map fst l) (map fst r)).

(** A cell that the merge left empty is NaN; [fillna(0)] makes it 0.
    A present int64 sum becomes the float64 of the same value. *)
Definition fillna0 (cell : option Z) : float :=
  match cell with
  | Some z => F64.of_Z z
  | None => F64.zero
  end.

(** One row of [features_df] after the outer merges and [fillna(0)]. *)
Record MergedRow := {
  state : string;
  age_0_5 : float;
  age_5_17 : float;
  age_18_greater : float;
  total_enrolments : float;
  bio_age_5_17 : float;
  bio_age_17_ : float;
  total_bio_updates : float;
  total_demo_updates : float
}.

Definition merged_row
    (row : string * (option (string * (option EnrolSums * option BioSums)) * option Z))
  : MergedRow :=
  let '(k, (eb, d)) := row in
  let e := match eb with Some (_, (Some e, _)) => Some e | _ => None end in
  let b := match eb with Some (_, (_, Some b)) => Some b | _ => None end in
  {| state := k;
     age_0_5 := fillna0 (option_map sum_age_0_5 e);
     age_5_17 := fillna0 (option_map sum_age_5_17 e);
     age_18_greater := fillna0 (option_map sum_age_18_greater e);
     total_enrolments := fillna0 (option_map sum_total_enrolments e);
     bio_age_5_17 := fillna0 (option_map sum_bio_age_5_17 b);
     bio_age_17_ := fillna0 (option_map sum_bio_age_17_ b);
     total_bio_updates := fillna0 (option_map sum_total_bio_updates b);
     total_demo_updates := fillna0 d |}.

(** [enrol_features.merge(bio_features).merge(demo_features).fillna(0)] *)
Definition merged_features
    (enrolment : list EnrolmentRec) (biometric : list BiometricRec)
    (demographic : list DemographicRec) : list MergedRow :=
  let eb := merge_outer (enrol_features enrolment) (bio_features biometric) in
  let ebk := map (fun row => (fst row, row)) eb in
  map merged_row (merge_outer ebk (demo_features demographic)).

(** ** Derived features (STEP9, lines 98-103) *)

(** [Series.replace([np.inf, -np.inf], 0)]: only the two infinities are
    replaced; NaN compares unequal to both and is left in place. *)
Definition replace_inf (x : float) : float :=
  match x with
  | S754_infinity _ => F64.zero
  | _ => x
  end.

(** [(num / den * 100).replace([np.inf, -np.inf], 0)] *)
Definition rate_pct (num den : float) : float :=
  replace_inf (F64.mul (F64.div num den) (F64.of_Z 100)).

Record FeatureRow := {
  base : MergedRow;
  bio_update_rate : float;
  demo_update_rate : float;
  child_enrol_pct : float;
  youth_enrol_pct : float;
  adult_enrol_pct : float
}.

Definition derive_features (r : MergedRow) : FeatureRow :=
  {| base := r;
     bio_update_rate := rate_pct (total_bio_updates r) (total_enrolments r);
     demo_update_rate := rate_pct (total_demo_updates r) (total_enrolments r);
     child_enrol_pct := rate_pct (age_0_5 r) (total_enrolments r);
     youth_enrol_pct := rate_pct (age_5_17 r) (total_enrolments r);
     adult_enrol_pct := rate_pct (age_18_greater r) (total_enrolments r) |}.

Definition feature_matrix
    (enrolment : list EnrolmentRec) (biometric : list BiometricRec)
    (demographic : list DemographicRec) : list FeatureRow :=
  map derive_features (merged_features enrolment biometric demographic).

(** The derived columns of a row, in the order they are created. *)
Definition derived_features (r : FeatureRow) : list float :=
  [bio_update_rate r; demo_update_rate r; child_enrol_pct r;
   youth_enrol_pct r; adult_enrol_pct r].

(** The columns handed to the Isolation Forest ([feature_cols]). *)
Definition feature_cols (r : FeatureRow) : list float :=
  [total_enrolments (base r); bio_update_rate r; demo_update_rate r;
   child_enrol_pct r; youth_enrol_pct r; adult_enrol_pct r].

(** ** Sorting a frame by a key

    [leb a b] says that [a] may stand before [b].  Rows that compare
    equal keep their relative order. *)

Section SortValues.
Context {A : Type}.
Variable leb : A -> A -> bool.

Fixpoint sort_insert (x : A) (l : list A) : list A :=
  match l with
  | [] => [x]
  | y :: rest => if leb x y then x :: l else y :: sort_insert x rest
  end.

Definition sort_values (l : list A) : list A :=
  fold_right sort_insert [] l.
End SortValues.

(** ** Technique 2: z-scores (STEP9, lines 162-178) *)

(** numpy's sum of a float64 column ([DOUBLE_pairwise_sum]).  Fewer
    than eight cells are added left to right.  From eight cells on the
    loop is unrolled: eight running sums take the cells of each complete
    block of eight, they are combined as a balanced tree, and the cells
    left over are added one by one.  Columns of more than 128 cells are
    split in two parts, the first a multiple of eight, and the sums of
    the parts are added. *)
Definition add_cells (r block : list float) : list float :=
  map (fun p => F64.add (fst p) (snd p)) (combine r block).

Fixpoint unrolled (blocks : nat) (r a : list float) : list float * list float :=
  match blocks with
  | O => (r, a)
  | S k => unrolled k (add_cells r (firstn 8 a)) (skipn 8 a)
  end.

Definition combine8 (r : list float) : float :=
  match r with
  | [r0; r1; r2; r3; r4; r5; r6; r7] =>
      F64.add (F64.add (F64.add r0 r1) (F64.add r2 r3))
              (F64.add (F64.add r4 r5) (F64.add r6 r7))
  | _ => fold_left F64.add r F64.zero
  end.

Definition block_sum (a : list float) : float :=
  let '(r, rest) := unrolled (List.length a / 8 - 1) (firstn 8 a) (skipn 8 a) in
  fold_left F64.add rest (combine8 r).

(** [fuel] bounds the depth of the splitting; the length of the column
    is always enough ([pairwise_sum_fuel]). *)
Fixpoint pairwise_sum_rec (fuel : nat) (a : list float) : float :=
  let n := List.length a in
  if (n <? 8)%nat then fold_left F64.add a F64.zero
  else if (n <=? 128)%nat then block_sum a
  else match fuel with
       | O => block_sum a
       | S fuel' =>
           let n2 := (n / 2 - (n / 2) mod 8)%nat in
           F64.add (pairwise_sum_rec fuel' (firstn n2 a))
                   (pairwise_sum_rec fuel' (skipn n2 a))
       end.

Definition pairwise_sum (a : list float) : float :=
  pairwise_sum_rec (List.length a) a.

(** [np.sum]: the reduction starts from the identity 0 and adds the
    pairwise sum of the column.  (numpy releases differ in the sign they
    give to a sum that is zero; the sign is lost in [np.abs] and in
    every comparison made below.) *)
Definition np_sum (a : list float) : float := F64.add F64.zero (pairwise_sum a).

Definition np_len (a : list float) : float := F64.of_Z (Z.of_nat (List.length a)).

Definition np_mean (a : list float) : float := F64.div (np_sum a) (np_len a).

(** The population standard deviation ([ddof = 0]): the root of the
    mean of the squared differences from the mean. *)
Definition np_std (a : list float) : float :=
  let m := np_mean a in
  let sq := map (fun x => let d := F64.sub x m in F64.mul d d) a in
  F64.sqrt (F64.div (np_sum sq) (np_len a)).

(** [np.finfo(np.float64).eps] = 2^-52 *)
Definition eps : float := S754_finite false 4503599627370496 (-104).

(** [scipy.stats.zscore(a)], that is [zmap(a, a)] with [ddof = 0], as
    scipy 1.17 computes it: the score is [(x - mean) / std] with
    [std = var ** 0.5], and every score is set to NaN when the standard
    deviation is not above [|eps * mean|]. *)
Definition stats_zscore (a : list float) : list float :=
  let mn := np_mean a in
  let sd := np_std a in
  let zero := F64.leb sd (F64.abs (F64.mul eps mn)) in
  map (fun x => if zero then F64.nan else F64.div (F64.sub x mn) sd) a.

(** [np.abs(stats.zscore(col))] *)
Definition abs_zscore (a : list float) : list float :=
  map F64.abs (stats_zscore a).

(** [threshold = 3] *)
Definition threshold : float := F64.of_Z 3.

Record ZScores := {
  bio_rate_zscore : float;
  demo_rate_zscore : float;
  child_pct_zscore : float;
  enrol_zscore : float
}.

(** The four tracked deviations of a region, in column order. *)
Definition zscore_cols (z : ZScores) : list float :=
  [bio_rate_zscore z; demo_rate_zscore z; child_pct_zscore z; enrol_zscore z].

(** [(bio > threshold) | (demo > threshold) | (child > threshold) | (enrol > threshold)] *)
Definition zscore_flag (z : ZScores) : bool :=
  F64.gtb (bio_rate_zscore z) threshold
  || F64.gtb (demo_rate_zscore z) threshold
  || F64.gtb (child_pct_zscore z) threshold
  || F64.gtb (enrol_zscore z) threshold.

(** The four z-score columns of the frame, row by row. *)
Definition zscore_table (df : list FeatureRow) : list ZScores :=
  let zb := abs_zscore (map bio_update_rate df) in
  let zd := abs_zscore (map demo_update_rate df) in
  let zc := abs_zscore (map child_enrol_pct df) in
  let ze := abs_zscore (map (fun r => total_enrolments (base r)) df) in
  map (fun i => {| bio_rate_zscore := nth i zb F64.nan;
                   demo_rate_zscore := nth i zd F64.nan;
                   child_pct_zscore := nth i zc F64.nan;
                   enrol_zscore := nth i ze F64.nan |})
      (seq 0 (List.length df)).

(** ** Technique 3: month-over-month change (STEP9, lines 207-223) *)

(** [dt.to_period('M')]: months since January 1970. *)
Definition to_period_M (d : Date) : Z := (year d - 1970) * 12 + (month d - 1).

Definition key_compare (a b : string * Z) : comparison :=
  match String.compare (fst a) (fst b) with
  | Eq => Z.compare (snd a) (snd b)
  | c => c
  end.

Definition key_leb (a b : (string * Z) * Z) : bool :=
  match key_compare (fst a) (fst b) with
  | Gt => false
  | _ => true
  end.

(** [enrolment.groupby(['state', 'year_month'])['total_enrolments'].sum()
    .reset_index().sort_values(['state', 'year_month'])]:
    rows [((state, year_month), total_enrolments)]. *)
Definition monthly_enrol (enrolment : list EnrolmentRec) : list ((string * Z) * Z) :=
  sort_values key_leb
    (groupby_sum key_compare add64
       (map (fun r => ((enr_state r, to_period_M (enr_date r)),
                       enr_total_enrolments r))
            enrolment)).

(** [Series.pct_change()] of one cell given the cell before it in the
    same group: [cur / prev - 1]; the first cell of a group has none. *)
Definition pct_change1 (prev : option Z) (cur : Z) : float :=
  match prev with
  | None => F64.nan
  | Some p => F64.sub (F64.div (F64.of_Z cur) (F64.of_Z p)) (F64.of_Z 1)
  end.

(** [x.pct_change()] over one series. *)
Fixpoint pct_change (prev : option Z) (xs : list Z) : list float :=
  match xs with
  | [] => []
  | x :: rest => pct_change1 prev x :: pct_change (Some x) rest
  end.

Definition set_last (k : string) (v : Z) (last : list (string * Z)) : list (string * Z) :=
  (k, v) :: last.

(** [groupby('state')[col].pct_change()]: every row is compared with the
    row before it that belongs to the same state, in frame order.
    [last] remembers the latest value seen for each state. *)
Fixpoint groupby_pct_change (last : list (string * Z))
    (rows : list ((string * Z) * Z)) : list float :=
  match rows with
  | [] => []
  | ((st, _), x) :: rest =>
      pct_change1 (lookup st last) x :: groupby_pct_change (set_last st x last) rest
  end.

(** [spike_threshold = 50] *)
Definition spike_threshold : float := F64.of_Z 50.

Record MonthlyRow := {
  m_state : string;
  year_month : Z;
  m_total_enrolments : Z;
  mom_change : float;
  m_temporal_anomaly : bool
}.

Definition monthly_row (row : (string * Z) * Z) (pct : float) : MonthlyRow :=
  let mom := F64.mul pct (F64.of_Z 100) in
  {| m_state := fst (fst row);
     year_month := snd (fst row);
     m_total_enrolments := snd row;
     mom_change := mom;
     m_temporal_anomaly := F64.gtb (F64.abs mom) spike_threshold |}.

(** [monthly_enrol] with its [mom_change] and [temporal_anomaly] columns. *)
Definition monthly_changes (enrolment : list EnrolmentRec) : list MonthlyRow :=
  let rows := monthly_enrol enrolment in
  map (fun rp => monthly_row (fst rp) (snd rp))
      (combine rows (groupby_pct_change [] rows)).

(** [monthly_enrol[monthly_enrol['temporal_anomaly']]]: the Temporal
    Anomaly Events, one row per flagged (state, period). *)
Definition temporal_anomalies (enrolment : list EnrolmentRec) : list MonthlyRow :=
  filter m_temporal_anomaly (monthly_changes enrolment).

Definition mem_string (s : string) (l : list string) : bool :=
  existsb (String.eqb s) l.

(** [Series.unique()]: first occurrences, in order of appearance. *)
Fixpoint unique (l : list string) : list string :=
  match l with
  | [] => []
  | x :: rest => x :: filter (fun y => negb (String.eqb x y)) (unique rest)
  end.

Definition states_with_temporal (enrolment : list EnrolmentRec) : list string :=
  unique (map m_state (temporal_anomalies enrolment)).

(** ** The frame with the three verdicts *)

Record DetectedRow := {
  feat : FeatureRow;
  iso_forest_anomaly : bool;
  iso_forest_score : float;
  zscores : ZScores;
  zscore_anomaly : bool;
  temporal_anomaly : bool
}.

(** [iso_predictions == -1], the scores, the z-score columns and
    [features_df['state'].isin(states_with_temporal)] put next to the
    features, row by row.  The forest returns one prediction and one
    score per row of the matrix it is given. *)
Definition add_verdicts (iso_predictions : list Z) (iso_scores : list float)
    (with_temporal : list string) (df : list FeatureRow) : list DetectedRow :=
  let zs := zscore_table df in
  let dflt := {| bio_rate_zscore := F64.nan; demo_rate_zscore := F64.nan;
                 child_pct_zscore := F64.nan; enrol_zscore := F64.nan |} in
  map (fun ir =>
         let i := fst ir in
         let r := snd ir in
         let z := nth i zs dflt in
         {| feat := r;
            iso_forest_anomaly := Z.eqb (nth i iso_predictions 1) (-1);
            iso_forest_score := nth i iso_scores F64.nan;
            zscores := z;
            zscore_anomaly := zscore_flag z;
            temporal_anomaly := mem_string (state (base r)) with_temporal |})
      (combine (seq 0 (List.length df)) df).

(** ** Consensus (STEP9, lines 245-273) *)

Record ConsensusRow := {
  det : DetectedRow;
  anomaly_count : Z;
  consensus_anomaly : bool
}.

(** [bool.astype(int)] *)
Definition astype_int (b : bool) : Z := if b then 1 else 0.

Definition count_anomalies (d : DetectedRow) : Z :=
  add64 (add64 (astype_int (iso_forest_anomaly d)) (astype_int (zscore_anomaly d)))
        (astype_int (temporal_anomaly d)).

Definition consensus_row (d : DetectedRow) : ConsensusRow :=
  let n := count_anomalies d in
  {| det := d; anomaly_count := n; consensus_anomaly := 2 <=? n |}.

Definition add_consensus (df : list DetectedRow) : list ConsensusRow :=
  map consensus_row df.

(** [features_df[features_df['consensus_anomaly']].copy()] *)
Definition consensus_anomalies (df : list ConsensusRow) : list ConsensusRow :=
  filter consensus_anomaly df.

Definition techniques (d : DetectedRow) : list string :=
  (if iso_forest_anomaly d then ["Isolation Forest"%string] else [])
  ++ (if zscore_anomaly d then ["Z-Score"%string] else [])
  ++ (if temporal_anomaly d then ["Time-Series"%string] else []).

(** The display loop over [consensus_anomalies.iterrows()]: one printed
    entry (state, count, techniques) per row, in the order of the frame. *)
Definition consensus_display (df : list ConsensusRow) : list (string * Z * list string) :=
  map (fun r => (state (base (feat (det r))), anomaly_count r, techniques (det r)))
      (consensus_anomalies df).

(** Tick positions and labels of the consensus distribution chart:
    [set_xticks(range(4))] and [set_xticklabels([...])]. *)
Definition newline : string := String (ascii_of_nat 10) EmptyString.

Definition ax5_xticks : list Z := [0; 1; 2; 3].

Definition ax5_xticklabels : list string :=
  [ ("0" ++ newline ++ "(Normal)")%string;
    ("1" ++ newline ++ "(Low)")%string;
    ("2" ++ newline ++ "(Medium)")%string;
    ("3" ++ newline ++ "(High)")%string ].

Fixpoint assocZ {V : Type} (k : Z) (l : list (Z * V)) : option V :=
  match l with
  | [] => None
  | (k', v) :: rest => if Z.eqb k k' then Some v else assocZ k rest
  end.

(** The label drawn under the bar of a given anomaly count. *)
Definition tier_label (count : Z) : option string :=
  assocZ count (combine ax5_xticks ax5_xticklabels).

(** The tiers the chart labels name. *)
Inductive PriorityTier := Normal | Low | Medium | High.

Definition tier_name (t : PriorityTier) : string :=
  match t with
  | Normal => "Normal" | Low => "Low" | Medium => "Medium" | High => "High"
  end.

Definition ends_with (suffix s : string) : bool :=
  String.eqb
    (substring (String.length s - String.length suffix) (String.length suffix) s)
    suffix
  && (String.length suffix <=? String.length s)%nat.

(** The tier a chart label names: the word between its parentheses. *)
Definition tier_of_label (label : string) : option PriorityTier :=
  find (fun t => ends_with ("(" ++ tier_name t ++ ")") label)
       [Normal; Low; Medium; High].

(** The tier the code attaches to an anomaly count. *)
Definition priority_tier (count : Z) : option PriorityTier :=
  match tier_label count with
  | Some label => tier_of_label label
  | None => None
  end.

(** ** Characterization (STEP9, lines 280-306) *)

Definition dropna (a : list float) : list float :=
  filter (fun x => negb (F64.is_nan x)) a.

(** [floor] of a float, as an integer (0 for NaN and the infinities). *)
Definition floor_Z (x : float) : Z :=
  match x with
  | S754_finite s m e =>
      let v := if s then Zneg m else Zpos m in
      match e with
      | Zneg p => Z.shiftr v (Zpos p)
      | _ => Z.shiftl v e
      end
  | _ => 0
  end.

(** numpy's linear interpolation between two neighbours. *)
Definition lerp (a b t : float) : float :=
  let diff := F64.sub b a in
  if F64.leb (F64.div (F64.of_Z 1) (F64.of_Z 2)) t
  then F64.sub b (F64.mul diff (F64.sub (F64.of_Z 1) t))
  else F64.add a (F64.mul diff t).

(** [Series.quantile(q)]: NaN cells are skipped, the remaining cells are
    ordered and the value at the virtual index [(n - 1) * q] is
    interpolated linearly ([np.percentile(values, q * 100)]). *)
Definition quantile (col : list float) (q : float) : float :=
  let values := sort_values F64.leb (dropna col) in
  match values with
  | [] => F64.nan
  | v0 :: _ =>
      let n := Z.of_nat (List.length values) in
      let q' := F64.div (F64.mul q (F64.of_Z 100)) (F64.of_Z 100) in
      let virt := F64.mul (F64.of_Z (n - 1)) q' in
      let above := F64.leb (F64.of_Z (n - 1)) virt in
      let below := F64.ltb virt F64.zero in
      let prev := if above then -1 else if below then 0 else floor_Z virt in
      let next := if above then -1 else if below then 0 else floor_Z virt + 1 in
      let at_index i := nth (Z.to_nat (if i <? 0 then n + i else i)) values v0 in
      lerp (at_index prev) (at_index next) (F64.sub virt (F64.of_Z prev))
  end.

Definition q95 : float := F64.div (F64.of_Z 95) (F64.of_Z 100).
Definition q05 : float := F64.div (F64.of_Z 5) (F64.of_Z 100).

(** One [if ... elif ...] block of [characterize_anomaly]. *)
Definition reason (x : float) (col : list float) (high low : string) : list string :=
  if F64.gtb x (quantile col q95) then [high]
  else if F64.ltb x (quantile col q05) then [low]
  else [].

Definition reasons_of (df : list ConsensusRow) (row : ConsensusRow) : list string :=
  let f := fun r => feat (det r) in
  reason (bio_update_rate (f row)) (map (fun r => bio_update_rate (f r)) df)
         "Extremely high bio update rate" "Extremely low bio update rate"
  ++ reason (demo_update_rate (f row)) (map (fun r => demo_update_rate (f r)) df)
         "Extremely high demo update rate" "Extremely low demo update rate"
  ++ reason (child_enrol_pct (f row)) (map (fun r => child_enrol_pct (f r)) df)
         "Unusually high child enrolment %" "Unusually low child enrolment %"
  ++ reason (total_enrolments (base (f row)))
         (map (fun r => total_enrolments (base (f r))) df)
         "Very large population" "Very small population".

(** ["; ".join(reasons) if reasons else "Complex multivariate pattern"] *)
Definition characterize_anomaly (df : list ConsensusRow) (row : ConsensusRow) : string :=
  match reasons_of df row with
  | [] => "Complex multivariate pattern"
  | reasons => String.concat "; " reasons
  end.

Record OutputRow := {
  cons : ConsensusRow;
  anomaly_characterization : string
}.

(** [features_df.apply(characterize_anomaly, axis=1)] *)
Definition add_characterization (df : list ConsensusRow) : list OutputRow :=
  map (fun row => {| cons := row;
                     anomaly_characterization := characterize_anomaly df row |})
      df.

(** ** Ranking by deviation (STEP9, line 376) *)

(** [df.nlargest(n, key)]: the [n] rows with the largest key, largest
    first; rows whose key is NaN come last. *)
Definition nlargest {A : Type} (n : nat) (key : A -> float) (df : list A) : list A :=
  let present := filter (fun r => negb (F64.is_nan (key r))) df in
  let missing := filter (fun r => F64.is_nan (key r)) df in
  firstn n (sort_values (fun a b => F64.leb (key b) (key a)) present ++ missing).

(** [features_df.nlargest(20, 'bio_rate_zscore')] *)
Definition top_20_zscore (df : list ConsensusRow) : list ConsensusRow :=
  nlargest 20 (fun r => bio_rate_zscore (zscores (det r))) df.

(** ** The whole run, with the Isolation Forest of scikit-learn

    The forest and the scaler are library code.  What the script fixes
    is how they are called: the forest is built with [random_state=42],
    so its generator is created from that seed at every fit and the
    generator shared by the process ([np.random]) is not consulted. *)

Record Results := {
  complete : list OutputRow;
  isolation_forest_anomalies : list (FeatureRow * float);
  zscore_anomalies : list (FeatureRow * ZScores);
  temporal_events : list MonthlyRow;
  consensus_high_priority : list ConsensusRow
}.

Section Pipeline.
Variable RandomState : Type.
(** [np.random.RandomState(seed)] *)
Variable seed_state : Z -> RandomState.
Variable Forest : Type.
(** [IsolationForest(contamination, n_estimators).fit(X)] with the
    generator it draws from. *)
Variable forest_fit : RandomState -> float -> Z -> list (list float) -> Forest.
Variable forest_predict : Forest -> list (list float) -> list Z.
Variable forest_score_samples : Forest -> list (list float) -> list float.
(** [StandardScaler().fit_transform(X)] *)
Variable fit_transform : list (list float) -> list (list float).

(** scikit-learn's [check_random_state]: an integer seeds a fresh
    generator, [None] hands out the generator of the process. *)
Definition check_random_state (random_state : option Z) (global : RandomState)
  : RandomState :=
  match random_state with
  | Some s => seed_state s
  | None => global
  end.

(** [contamination = 0.05] *)
Definition contamination : float := F64.div (F64.of_Z 5) (F64.of_Z 100).

(** [fit_predict] and [score_samples] of a forest built with the
    given [random_state]. *)
Definition isolation_forest (random_state : option Z) (global : RandomState)
    (X_scaled : list (list float)) : list Z * list float :=
  let model :=
    forest_fit (check_random_state random_state global) contamination 100 X_scaled in
  (forest_predict model X_scaled, forest_score_samples model X_scaled).

Definition run_with (random_state : option Z) (global : RandomState)
    (enrolment : list EnrolmentRec) (biometric : list BiometricRec)
    (demographic : list DemographicRec) : Results :=
  let features_df := feature_matrix enrolment biometric demographic in
  let X_scaled := fit_transform (map feature_cols features_df) in
  let iso := isolation_forest random_state global X_scaled in
  let detected :=
    add_verdicts (fst iso) (snd iso) (states_with_temporal enrolment) features_df in
  let consensus := add_consensus detected in
  {| complete := add_characterization consensus;
     isolation_forest_anomalies :=
       map (fun d => (feat d, iso_forest_score d))
           (filter iso_forest_anomaly detected);
     zscore_anomalies :=
       map (fun d => (feat d, zscores d)) (filter zscore_anomaly detected);
     temporal_events := temporal_anomalies enrolment;
     consensus_high_priority := consensus_anomalies consensus |}.

(** The script: [IsolationForest(..., random_state=42, ...)]. *)
Definition run := run_with (Some 42).
End Pipeline.

(** ** PHASE3_STEP4_anomaly_detection.py *)

Module Step4.

(** One row of [anomaly_data] after the merges and [fillna(0)]. *)
Record AggRow := {
  state : string;
  registrations_0_to_5 : float;
  registrations_5_to_17 : float;
  registrations_18_and_above : float;
  total_enrolments : float;
  biometric_updates_5_to_17 : float;
  biometric_updates_18_and_above : float;
  total_bio_updates : float;
  demographic_updates_5_to_17 : float;
  demographic_updates_18_and_above : float;
  total_demo_updates : float
}.

(** [(num / den).replace([np.inf, -np.inf], 0)] *)
Definition ratio (num den : float) : float := replace_inf (F64.div num den).

Record Ratios := {
  child_adult_enrol_ratio : float;
  child_bio_ratio : float;
  child_demo_ratio : float;
  bio_intensity : float;
  demo_intensity : float;
  child_0_5_pct : float;
  child_5_17_pct : float
}.

(** Lines 97-128. *)
Definition feature_ratios (r : AggRow) : Ratios :=
  {| child_adult_enrol_ratio :=
       ratio (F64.add (registrations_0_to_5 r) (registrations_5_to_17 r))
             (registrations_18_and_above r);
     child_bio_ratio :=
       ratio (biometric_updates_5_to_17 r) (biometric_updates_18_and_above r);
     child_demo_ratio :=
       ratio (demographic_updates_5_to_17 r) (demographic_updates_18_and_above r);
     bio_intensity := ratio (total_bio_updates r) (total_enrolments r);
     demo_intensity := ratio (total_demo_updates r) (total_enrolments r);
     child_0_5_pct := rate_pct (registrations_0_to_5 r) (total_enrolments r);
     child_5_17_pct := rate_pct (registrations_5_to_17 r) (total_enrolments r) |}.

(** [features], in order. *)
Definition features (f : Ratios) : list float :=
  [child_adult_enrol_ratio f; child_bio_ratio f; child_demo_ratio f;
   bio_intensity f; demo_intensity f; child_0_5_pct f; child_5_17_pct f].

Definition fillna_zero (x : float) : float :=
  if F64.is_nan x then F64.zero else x.

(** Line 152: [X = anomaly_data[features].fillna(0).replace([inf, -inf], 0)],
    the copy handed to the scaler; [anomaly_data] itself is not changed. *)
Definition X (f : Ratios) : list float :=
  map (fun x => replace_inf (fillna_zero x)) (features f).

(** [Series.mean()] and [Series.std()] as pandas computes them itself
    ([nanmean], [nanvar]): a NaN cell counts as 0 in the sums and is left
    out of [count]; the variance divides by [count - 1] and is NaN when
    fewer than two cells are present. *)
Definition zero_fill (col : list float) : list float :=
  map (fun x => if F64.is_nan x then F64.zero else x) col.

Definition count (col : list float) : Z := Z.of_nat (List.length (dropna col)).

Definition pd_mean (col : list float) : float :=
  if 0 <? count col
  then F64.div (np_sum (zero_fill col)) (F64.of_Z (count col))
  else F64.nan.

Definition pd_std (col : list float) : float :=
  let avg := F64.div (np_sum (zero_fill col)) (F64.of_Z (count col)) in
  let sqr := map (fun x => if F64.is_nan x then F64.zero
                           else let d := F64.sub avg x in F64.mul d d) col in
  if count col <=? 1 then F64.nan
  else F64.sqrt (F64.div (np_sum sqr) (F64.of_Z (count col - 1))).

(** [z_scores = np.abs((df[col] - mean) / std)] of [detect_zscore_anomalies]. *)
Definition z_scores (col : list float) : list float :=
  let mean := pd_mean col in
  let std := pd_std col in
  map (fun x => F64.abs (F64.div (F64.sub x mean) std)) col.

(** [anomaly_flags[f'{col}_anomaly'] = z_scores > threshold] *)
Definition anomaly_flags (col : list float) : list bool :=
  map (fun z => F64.gtb z threshold) (z_scores col).

(** The frame when the consensus is taken. *)
Record MethodRow := {
  m_state : string;
  iso_is_anomaly : bool;
  iso_score : float;
  zscore_is_anomaly : bool;
  dbscan_is_anomaly : bool
}.

Definition anomaly_method_count (r : MethodRow) : Z :=
  add64 (add64 (astype_int (iso_is_anomaly r)) (astype_int (zscore_is_anomaly r)))
        (astype_int (dbscan_is_anomaly r)).

Definition consensus_anomaly (r : MethodRow) : bool := 2 <=? anomaly_method_count r.

Definition consensus_anomalies (df : list MethodRow) : list MethodRow :=
  filter consensus_anomaly df.

(** [consensus_anomalies.sort_values('anomaly_method_count', ascending=False)] *)
Definition consensus_sorted (df : list MethodRow) : list MethodRow :=
  sort_values (fun a b => anomaly_method_count b <=? anomaly_method_count a)
              (consensus_anomalies df).

End Step4.

(** ** Notions taken from the specification, for comparison with the code *)

(** Agreement count: the number of detectors that flag the region. *)
Definition detectors_flagging (d : DetectedRow) : Z :=
  Z.of_nat (List.length
    (filter (fun b : bool => b)
       [iso_forest_anomaly d; zscore_anomaly d; temporal_anomaly d])).

(** Severity of a tier. *)
Definition tier_rank (t : PriorityTier) : Z :=
  match t with Normal => 0 | Low => 1 | Medium => 2 | High => 3 end.

(** The tier table of the specification: 0 -> Normal, 1 -> Low,
    2 -> Medium, 3 -> High. *)
Definition spec_tier (count : Z) : option PriorityTier :=
  match count with
  | 0 => Some Normal
  | 1 => Some Low
  | 2 => Some Medium
  | 3 => Some High
  | _ => None
  end.

(** Python's [max(a, b)]. *)
Definition fmax (a b : float) : float := if F64.ltb a b then b else a.

(** The maximum over the tracked features of the absolute deviation. *)
Definition max_deviation (z : ZScores) : float :=
  fmax (fmax (fmax (bio_rate_zscore z) (demo_rate_zscore z)) (child_pct_zscore z))
       (enrol_zscore z).

(** The ranking of the specification: larger agreement count first,
    then the more negative density score first. *)
Definition ranked_before (a b : ConsensusRow) : Prop :=
  anomaly_count b < anomaly_count a
  \/ (anomaly_count a = anomaly_count b
      /\ F64.leb (iso_forest_score (det a)) (iso_forest_score (det b)) = true).


(** The four tracked features. *)
Inductive Tracked := TBio | TDemo | TChild | TEnrol.

Definition tracked_feature (t : Tracked) (r : FeatureRow) : float :=
  match t with
  | TBio => bio_update_rate r
  | TDemo => demo_update_rate r
  | TChild => child_enrol_pct r
  | TEnrol => total_enrolments (base r)
  end.

Definition tracked_deviation (t : Tracked) (z : ZScores) : float :=
  match t with
  | TBio => bio_rate_zscore z
  | TDemo => demo_rate_zscore z
  | TChild => child_pct_zscore z
  | TEnrol => enrol_zscore z
  end.

(** ** Sample inputs *)

Definition march : Date := {| year := 2025; month := 3; day := 1 |}.
Definition april : Date := {| year := 2025; month := 4; day := 1 |}.

Definition enrol_rec (s : string) (d : Date) (a b c : Z) : EnrolmentRec :=
  {| enr_state := s; enr_date := d; enr_age_0_5 := a; enr_age_5_17 := b;
     enr_age_18_greater := c; enr_total_enrolments := a + b + c |}.

Definition bio_rec (s : string) (d : Date) (a b : Z) : BiometricRec :=
  {| bio_state := s; bio_date := d; bio_bio_age_5_17 := a;
     bio_bio_age_17_ := b; bio_total_bio_updates := a + b |}.

Definition demo_rec (s : string) (d : Date) (n : Z) : DemographicRec :=
  {| demo_state := s; demo_date := d; demo_total_demo_updates := n |}.

(** A state that occurs in the demographic table only. *)
Definition enrolment_kerala : list EnrolmentRec := [enrol_rec "kerala" march 10 20 70].
Definition biometric_kerala : list BiometricRec := [bio_rec "kerala" march 10 20].
Definition demographic_goa : list DemographicRec := [demo_rec "goa" march 5].

(** A master-table row with given verdicts; the features play no part
    in the consensus and are left at zero. *)
Definition blank_features (s : string) : FeatureRow :=
  derive_features
    {| state := s; age_0_5 := F64.zero; age_5_17 := F64.zero;
       age_18_greater := F64.zero; total_enrolments := F64.of_Z 1;
       bio_age_5_17 := F64.zero; bio_age_17_ := F64.zero;
       total_bio_updates := F64.zero; total_demo_updates := F64.zero |}.

Definition verdicts (s : string) (iso : bool) (score : float) (z t : bool)
  : DetectedRow :=
  {| feat := blank_features s;
     iso_forest_anomaly := iso;
     iso_forest_score := score;
     zscores := {| bio_rate_zscore := F64.zero; demo_rate_zscore := F64.zero;
                   child_pct_zscore := F64.zero; enrol_zscore := F64.zero |};
     zscore_anomaly := z;
     temporal_anomaly := t |}.

(** -0.5 and -0.75 *)
Definition minus_half : float := F64.div (F64.of_Z (-1)) (F64.of_Z 2).
Definition minus_three_quarters : float := F64.div (F64.of_Z (-3)) (F64.of_Z 4).

(** Two of three detectors, one of three, three of three. *)
Definition assam_two : DetectedRow := verdicts "assam" true minus_half false true.
Definition bihar_three : DetectedRow := verdicts "bihar" true minus_three_quarters true true.
Definition delhi_one : DetectedRow := verdicts "delhi" false minus_half true false.
Definition goa_two : DetectedRow := verdicts "goa" true minus_three_quarters true false.

(** ** The series of one state *)

Definition of_state (s : string) (row : (string * Z) * Z) : bool :=
  String.eqb s (fst (fst row)).

(** The rows of one state, in frame order: its per-period series. *)
Definition series (s : string) (rows : list ((string * Z) * Z)) : list ((string * Z) * Z) :=
  filter (of_state s) rows.

(** The monthly rows of one series, each cell compared with the cell
    before it. *)
Definition series_changes (prev : option Z) (rows : list ((string * Z) * Z))
  : list MonthlyRow :=
  map (fun rp => monthly_row (fst rp) (snd rp))
      (combine rows (pct_change prev (map snd rows))).

(** [monthly_changes] from a given memory of latest values. *)
Definition changes_from (last : list (string * Z)) (rows : list ((string * Z) * Z))
  : list MonthlyRow :=
  map (fun rp => monthly_row (fst rp) (snd rp))
      (combine rows (groupby_pct_change last rows)).

(** Goa reports nothing in March 2025 and 150 enrolments in April. *)
Definition enrolment_spike : list EnrolmentRec :=
  [enrol_rec "goa" april 10 20 120; enrol_rec "delhi" march 30 30 40;
   enrol_rec "goa" march 0 0 0].

(** Two states with the same biometric update rate (30 per 100). *)
Definition enrolment_same_rate : list EnrolmentRec :=
  [enrol_rec "kerala" march 10 20 70; enrol_rec "goa" march 10 50 140].
Definition biometric_same_rate : list BiometricRec :=
  [bio_rec "kerala" march 10 20; bio_rec "goa" march 20 40].
Definition demographic_same_rate : list DemographicRec :=
  [demo_rec "kerala" march 5; demo_rec "goa" march 7].

(** The float nearest to 0.1. *)
Definition one_tenth : float := F64.div (F64.of_Z 1) (F64.of_Z 10).

(** The floats nearest to k/10. *)
Definition tenths (ks : list Z) : list float :=
  map (fun k => F64.div (F64.of_Z k) (F64.of_Z 10)) ks.

(** 91.41176066504367 *)
Definition rate_91 : float := S754_finite false 6432530801068307 (-46).

(** A stand-in for the library forest: its verdicts are read off the
    state of the generator it is given.  It serves to show what the seed
    is for. *)
Definition toy_fit (g : Z) (_ : float) (_ : Z) (_ : list (list float)) : Z := g.

Definition toy_predict (model : Z) (X : list (list float)) : list Z :=
  map (fun _ => if Z.even model then 1 else -1) X.

Definition toy_score_samples (model : Z) (X : list (list float)) : list float :=
  map (fun _ => F64.of_Z model) X.

Definition no_scaling (X : list (list float)) : list (list float) := X.

(** Three states: Assam has the largest biometric-rate deviation, Bihar
    the largest deviation overall (on the enrolment total). *)
Definition enrolment_rank : list EnrolmentRec :=
  [enrol_rec "assam" march 10 20 70; enrol_rec "bihar" march 110 200 690;
   enrol_rec "delhi" march 12 20 68].
Definition biometric_rank : list BiometricRec :=
  [bio_rec "assam" march 10 20; bio_rec "bihar" march 50 150;
   bio_rec "delhi" march 5 6].
Definition demographic_rank : list DemographicRec :=
  [demo_rec "assam" march 5; demo_rec "bihar" march 60; demo_rec "delhi" march 7].

Definition master_rank : list ConsensusRow :=
  add_consensus
    (add_verdicts [1; 1; 1] [minus_half; minus_half; minus_half] []
       (feature_matrix enrolment_rank biometric_rank demographic_rank)).

Definition state_of (r : ConsensusRow) : string := state (base (feat (det r))).

(** [a] may stand before [b] in a ranking by [key]: the key of [a] is
    at least the key of [b], or [b] has no key. *)
Definition ranked_by {A : Type} (key : A -> float) (a b : A) : Prop :=
  F64.is_nan (key b) = true \/ F64.leb (key b) (key a) = true.

Definition bio_deviation (r : ConsensusRow) : float :=
  bio_rate_zscore (zscores (det r)).

(** A master table of four regions, in alphabetical order as the merge
    leaves them. *)
Definition master_four : list ConsensusRow :=
  add_consensus [assam_two; bihar_three; delhi_one; goa_two].

(** The same row with its density score blanked. *)
Definition erase_score (d : DetectedRow) : DetectedRow :=
  {| feat := feat d;
     iso_forest_anomaly := iso_forest_anomaly d;
     iso_forest_score := F64.zero;
     zscores := zscores d;
     zscore_anomaly := zscore_anomaly d;
     temporal_anomaly := temporal_anomaly d |}.

Definition step4_erase_score (r : Step4.MethodRow) : Step4.MethodRow :=
  {| Step4.m_state := Step4.m_state r;
     Step4.iso_is_anomaly := Step4.iso_is_anomaly r;
     Step4.iso_score := F64.zero;
     Step4.zscore_is_anomaly := Step4.zscore_is_anomaly r;
     Step4.dbscan_is_anomaly := Step4.dbscan_is_anomaly r |}.

(** The ranking of the specification, for the rows of PHASE3_STEP4. *)
Definition step4_ranked_before (a b : Step4.MethodRow) : Prop :=
  Step4.anomaly_method_count b < Step4.anomaly_method_count a
  \/ (Step4.anomaly_method_count a = Step4.anomaly_method_count b
      /\ F64.leb (Step4.iso_score a) (Step4.iso_score b) = true).

Definition step4_row (s : string) (iso : bool) (score : float) (z db : bool)
  : Step4.MethodRow :=
  {| Step4.m_state := s; Step4.iso_is_anomaly := iso; Step4.iso_score := score;
     Step4.zscore_is_anomaly := z; Step4.dbscan_is_anomaly := db |}.

(** Two frames that differ in the density scores of Assam and Goa only. *)
Definition step4_frame : list Step4.MethodRow :=
  [step4_row "assam" true minus_half true false;
   step4_row "bihar" true minus_three_quarters true true;
   step4_row "goa" true minus_three_quarters true false].

Definition step4_frame_swapped : list Step4.MethodRow :=
  [step4_row "assam" true minus_three_quarters true false;
   step4_row "bihar" true minus_three_quarters true true;
   step4_row "goa" true minus_half true false].



(** Order of two grouped rows by their keys. *)
Definition key_lt {K V : Type} (cmp : K -> K -> comparison) (x y : K * V) : Prop :=
  cmp (fst x) (fst y) = Lt.

(** The numerators of the five derived features, in the order of
    [derived_features]; the denominator is [total_enrolments] each time. *)
Definition numerators (r : MergedRow) : list float :=
  [total_bio_updates r; total_demo_updates r; age_0_5 r; age_5_17 r;
   age_18_greater r].

(** ** Aggregates, for comparison with [groupby] and [merge] *)

(** A value fits an int64 cell. *)
Definition int64 (z : Z) : Prop := - 2 ^ 63 <= z < 2 ^ 63.

(** The int64 sum of a non-empty run of cells, taken in order. *)
Definition sum64 (cells : list Z) : option Z :=
  match cells with
  | [] => None
  | x :: rest => Some (fold_left add64 rest x)
  end.

(** The total of the cells of a state: none without a row, else their
    sum reduced to int64. *)
Definition state_total (cells : list Z) : option Z :=
  match cells with
  | [] => None
  | _ => Some (wrap64 (fold_right Z.add 0 cells))
  end.

(** The total cells of one state in each table, in table order. *)
Definition enrol_cells (s : string) (enrolment : list EnrolmentRec) : list Z :=
  map enr_total_enrolments
      (filter (fun r => String.eqb s (enr_state r)) enrolment).

Definition bio_cells (s : string) (biometric : list BiometricRec) : list Z :=
  map bio_total_bio_updates
      (filter (fun r => String.eqb s (bio_state r)) biometric).

Definition demo_cells (s : string) (demographic : list DemographicRec) : list Z :=
  map demo_total_demo_updates
      (filter (fun r => String.eqb s (demo_state r)) demographic).

(** The states that occur in the three tables. *)
Definition table_states (enrolment : list EnrolmentRec) (biometric : list BiometricRec)
    (demographic : list DemographicRec) : list string :=
  map enr_state enrolment ++ map bio_state biometric ++ map demo_state demographic.

(** Two enrolment rows of Kerala and one of Goa; Goa alone has
    demographic updates. *)
Definition enrolment_two_months : list EnrolmentRec :=
  [enrol_rec "kerala" march 10 20 70; enrol_rec "goa" march 1 2 3;
   enrol_rec "kerala" april 5 5 10].

(** Every count of the three tables fits an int64 cell. *)
Definition int64_tables (enrolment : list EnrolmentRec) (biometric : list BiometricRec)
    (demographic : list DemographicRec) : Prop :=
  Forall (fun r => int64 (enr_age_0_5 r) /\ int64 (enr_age_5_17 r)
                   /\ int64 (enr_age_18_greater r) /\ int64 (enr_total_enrolments r))
         enrolment
  /\ Forall (fun r => int64 (bio_bio_age_5_17 r) /\ int64 (bio_bio_age_17_ r)
                      /\ int64 (bio_total_bio_updates r))
            biometric
  /\ Forall (fun r => int64 (demo_total_demo_updates r)) demographic.

(** The eight count cells of a merged row. *)
Definition count_cells (r : MergedRow) : list float :=
  [age_0_5 r; age_5_17 r; age_18_greater r; total_enrolments r;
   bio_age_5_17 r; bio_age_17_ r; total_bio_updates r; total_demo_updates r].

(** The merged row of Goa for [enrolment_two_months], [biometric_kerala]
    and [demographic_goa]: no biometric row, one demographic row. *)
Definition merged_goa : MergedRow :=
  {| state := "goa";
     age_0_5 := F64.of_Z 1; age_5_17 := F64.of_Z 2; age_18_greater := F64.of_Z 3;
     total_enrolments := F64.of_Z 6;
     bio_age_5_17 := F64.zero; bio_age_17_ := F64.zero; total_bio_updates := F64.zero;
     total_demo_updates := F64.of_Z 5 |}.

(** Goa enrols 6 people in March 2025 and nobody in April. *)
Definition enrolment_drop : list EnrolmentRec :=
  [enrol_rec "goa" march 1 2 3; enrol_rec "goa" april 0 0 0].

(** Goa is present in both months without a single enrolment. *)
Definition enrolment_idle : list EnrolmentRec :=
  [enrol_rec "goa" march 0 0 0; enrol_rec "delhi" march 30 30 40;
   enrol_rec "goa" april 0 0 0].

(** ** Anomaly patterns (PHASE3_STEP4, lines 266-292) *)

Definition low_early_child : string := "Very low early-child enrolment".
Definition high_child_adult : string := "Unusually high child-adult ratio".
Definition low_child_bio : string := "Low child biometric updates".
Definition high_activity : string := "Abnormally high update activity".
Definition low_activity : string := "Abnormally low update activity".

(** The literals [1.5] and [0.3]. *)
Definition one_and_a_half : float := F64.div (F64.of_Z 3) (F64.of_Z 2).
Definition three_tenths : float := F64.div (F64.of_Z 3) (F64.of_Z 10).

(** The list [patterns] at the end of [identify_anomaly_type]. *)
Definition patterns (row : Step4.Ratios) : list string :=
  (if F64.ltb (Step4.child_0_5_pct row) (F64.of_Z 5) then [low_early_child] else [])
  ++ (if F64.gtb (Step4.child_adult_enrol_ratio row) one_and_a_half
      then [high_child_adult] else [])
  ++ (if F64.ltb (Step4.child_bio_ratio row) three_tenths then [low_child_bio] else [])
  ++ (if F64.gtb (Step4.bio_intensity row) (F64.of_Z 50) then [high_activity] else [])
  ++ (if F64.ltb (Step4.bio_intensity row) (F64.of_Z 1) then [low_activity] else []).

(** ["; ".join(patterns) if patterns else "Other irregular pattern"] *)
Definition identify_anomaly_type (row : Step4.Ratios) : string :=
  match patterns row with
  | [] => "Other irregular pattern"
  | ps => String.concat "; " ps
  end.

(** A state with 40 child and no adult biometric updates. *)
Definition children_only : Step4.AggRow :=
  {| Step4.state := "goa";
     Step4.registrations_0_to_5 := F64.of_Z 30;
     Step4.registrations_5_to_17 := F64.of_Z 20;
     Step4.registrations_18_and_above := F64.zero;
     Step4.total_enrolments := F64.of_Z 50;
     Step4.biometric_updates_5_to_17 := F64.of_Z 40;
     Step4.biometric_updates_18_and_above := F64.zero;
     Step4.total_bio_updates := F64.of_Z 40;
     Step4.demographic_updates_5_to_17 := F64.zero;
     Step4.demographic_updates_18_and_above := F64.zero;
     Step4.total_demo_updates := F64.zero |}.

(** ** Tables with one value per tracked feature *)

(** Every region has the same value of every tracked feature. *)
Definition constant_tracked (df : list ConsensusRow) : Prop :=
  forall t r1 r2, In r1 df -> In r2 df ->
    tracked_feature t (feat (det r1)) = tracked_feature t (feat (det r2)).

(** ** STEP9_SHOW_RESULTS.py

    The script reads the tables the framework has written and prints
    summaries of them. *)

Definition risk_names : list (Z * string) :=
  [(0, "NORMAL"); (1, "LOW RISK"); (2, "MEDIUM RISK"); (3, "CRITICAL RISK")]%string.

(** [{0: 'NORMAL', ...}[level]]; [None] stands for the [KeyError]. *)
Definition risk_name (level : Z) : option string := assocZ level risk_names.

(** [Series.value_counts().sort_index()]: each value with the number of
    rows that hold it, by value. *)
Definition value_counts (values : list Z) : list (Z * Z) :=
  groupby_sum Z.compare Z.add (map (fun v => (v, 1)) values).

(** [risk_dist] *)
Definition risk_dist (features_df : list OutputRow) : list (Z * Z) :=
  value_counts (map (fun o => anomaly_count (cons o)) features_df).

(** [df.nsmallest(n, key)]: the [n] rows with the smallest key, smallest
    first; rows whose key is NaN come last. *)
Definition nsmallest {A : Type} (n : nat) (key : A -> float) (df : list A) : list A :=
  let present := filter (fun r => negb (F64.is_nan (key r))) df in
  let missing := filter (fun r => F64.is_nan (key r)) df in
  firstn n (sort_values (fun a b => F64.leb (key a) (key b)) present ++ missing).

(** [a] may stand before [b] in an ascending ranking by [key]. *)
Definition ranked_up {A : Type} (key : A -> float) (a b : A) : Prop :=
  F64.is_nan (key b) = true \/ F64.leb (key a) (key b) = true.

(** [features_df.nsmallest(10, 'iso_forest_score')] *)
Definition top_10_iso (features_df : list OutputRow) : list OutputRow :=
  nsmallest 10 (fun o => iso_forest_score (det (cons o))) features_df.

(** [features_df.nlargest(10, 'bio_rate_zscore')] *)
Definition top_10_z (features_df : list OutputRow) : list OutputRow :=
  nlargest 10 (fun o => bio_rate_zscore (zscores (det (cons o)))) features_df.

(** The status printed for a row is the outlier one:
    [row['bio_rate_zscore'] > 3]. *)
Definition outlier_status (o : OutputRow) : bool :=
  F64.gtb (bio_rate_zscore (zscores (det (cons o)))) (F64.of_Z 3).

(** [max] that skips NaN, as [Series.max()] does. *)
Definition nanmax (a b : float) : float :=
  if F64.is_nan a then b else if F64.is_nan b then a else fmax a b.

(** The two aggregates of a group: ['count'] (cells that are not NaN;
    a frame has fewer than 2^63 rows) and [x.abs().max()]. *)
Definition summary_cell (ev : MonthlyRow) : Z * float :=
  (if F64.is_nan (mom_change ev) then 0 else 1, F64.abs (mom_change ev)).

Definition summary_plus (a b : Z * float) : Z * float :=
  (fst a + fst b, nanmax (snd a) (snd b)).

(** [temporal_anomalies.groupby('state').agg(...)]: state, count,
    max_change. *)
Definition temp_summary_all (events : list MonthlyRow) : list (string * (Z * float)) :=
  groupby_sum String.compare summary_plus
              (map (fun ev => (m_state ev, summary_cell ev)) events).

(** [temp_summary.sort_values('count', ascending=False).head(10)] *)
Definition temp_summary (events : list MonthlyRow) : list (string * (Z * float)) :=
  firstn 10 (sort_values (fun a b => fst (snd b) <=? fst (snd a))
                         (temp_summary_all events)).

(** The number of events of a state. *)
Definition events_of (s : string) (events : list MonthlyRow) : Z :=
  Z.of_nat (List.length (filter (fun ev => String.eqb s (m_state ev)) events)).

(** ** RUN_PHASE3_ALL.py *)

Inductive Status := SUCCESS | FAILED.

(** (step_num, script_name, description) *)
Definition scripts : list (string * string * string) :=
  [("STEP 1", "PHASE3_STEP1_trend_prediction.py", "State-wise Trend Prediction");
   ("STEP 2", "PHASE3_STEP2_child_enrolment_gap.py", "Child Enrolment Gap Analysis");
   ("STEP 3", "PHASE3_STEP3_biometric_compliance.py", "Biometric Update Compliance");
   ("STEP 4", "PHASE3_STEP4_anomaly_detection.py", "AI-Driven Anomaly Detection")]%string.

Definition script_name (entry : string * string * string) : string := snd (fst entry).

(** What the master script has done so far: the scripts handed to
    [subprocess.run], the list [results], and the exit status once
    [sys.exit(1)] has been called. *)
Record Execution := {
  launched : list string;
  results : list (string * string * Status);
  exit_status : option Z
}.

Definition start : Execution :=
  {| launched := []; results := []; exit_status := None |}.

(** The loop over [scripts].  [returncode] is the exit status of each
    child process; with [check=True] a status other than 0 raises
    [CalledProcessError], whose handler records the failure and leaves
    with [sys.exit(1)]. *)
Fixpoint run_scripts (returncode : string -> Z) (todo : list (string * string * string))
    (done : Execution) : Execution :=
  match todo with
  | [] => done
  | entry :: rest =>
      let '(step_num, name, description) := entry in
      if returncode name =? 0
      then run_scripts returncode rest
             {| launched := launched done ++ [name];
                results := results done ++ [(step_num, description, SUCCESS)];
                exit_status := exit_status done |}
      else {| launched := launched done ++ [name];
              results := results done ++ [(step_num, description, FAILED)];
              exit_status := Some 1 |}
  end.

(** The execution summary printed after the loop; nothing is printed
    when the script has left before. *)
Definition execution_summary (e : Execution) : option (list (string * string * Status)) :=
  match exit_status e with
  | None => Some (results e)
  | Some _ => None
  end.


(** ** Float64 values *)

(** A float64 value: mantissa and exponent are in canonical form. *)
Definition binary64 (x : float) : Prop := valid_binary F64.prec F64.emax x = true.

(** The exponent is not below that of the subnormal numbers. *)
Definition above_emin (x : float) : Prop :=
  match x with
  | S754_finite _ _ e => -1074 <= e
  | _ => True
  end.

Definition negative_zero : float := S754_zero true.

(** * Properties *)

(** ** binary64 facts *)

Lemma iter_pos_nat {A} (f : A -> A) (n : positive) (x : A) :
  iter_pos f n x = Nat.iter (Pos.to_nat n) f x.
Proof.
  revert x. induction n as [n IH | n IH |]; intro x; cbn [iter_pos].
  - rewrite !IH, <- Nat.iter_add, <- Nat.iter_succ_r.
    f_equal. rewrite Pos2Nat.inj_xI. lia.
  - rewrite !IH, <- Nat.iter_add. f_equal. rewrite Pos2Nat.inj_xO. lia.
  - reflexivity.
Qed.

Lemma shr_1_div2 mrs : 0 <= shr_m mrs -> shr_m (shr_1 mrs) = Z.div2 (shr_m mrs).
Proof.
  destruct mrs as [m r s]; simpl. intros H.
  destruct m as [| p | p]; [reflexivity | destruct p; reflexivity | lia].
Qed.

Lemma iter_shr_1 (n : nat) mrs :
  0 <= shr_m mrs ->
  shr_m (Nat.iter n shr_1 mrs) = Z.shiftr (shr_m mrs) (Z.of_nat n).
Proof.
  intros H. induction n as [| n IH].
  - simpl. now rewrite Z.shiftr_0_r.
  - rewrite Nat.iter_succ. rewrite shr_1_div2.
    + rewrite IH. rewrite Nat2Z.inj_succ. rewrite Z.div2_spec.
      rewrite Z.shiftr_shiftr by lia. reflexivity.
    + rewrite IH. apply Z.shiftr_nonneg. exact H.
Qed.

Lemma digits2_size p : digits2_pos p = Pos.size p.
Proof. induction p; simpl; congruence. Qed.

Lemma Zdigits2_log2 p : Zpos (digits2_pos p) = Z.succ (Z.log2 (Zpos p)).
Proof.
  rewrite digits2_size. destruct p; simpl; try reflexivity; now rewrite Pos2Z.inj_succ.
Qed.

Lemma Zdigits2_pos m : 0 < m -> Zdigits2 m = Z.succ (Z.log2 m).
Proof. destruct m; try lia. intros _. apply Zdigits2_log2. Qed.

(** Shifting right by fewer bits than the mantissa has keeps it positive
    and keeps the sum of bit length and exponent. *)
Lemma shr_pos mrs e n :
  0 < shr_m mrs -> n <= Z.log2 (shr_m mrs) ->
  0 < shr_m (fst (shr mrs e n))
  /\ Z.log2 (shr_m (fst (shr mrs e n))) + snd (shr mrs e n)
     = Z.log2 (shr_m mrs) + e.
Proof.
  intros Hm Hn. unfold shr.
  destruct n as [| k | k]; cbn [fst snd]; try (split; [assumption | lia]).
  rewrite iter_pos_nat, iter_shr_1 by lia.
  rewrite positive_nat_Z.
  assert (H0 : 0 <= Z.shiftr (shr_m mrs) (Z.pos k)) by (apply Z.shiftr_nonneg; lia).
  assert (H1 : Z.shiftr (shr_m mrs) (Z.pos k) <> 0).
  { intro H. apply Z.shiftr_eq_0_iff in H. lia. }
  split; [lia |].
  rewrite Z.log2_shiftr by lia. lia.
Qed.

Lemma shr_snd mrs e n : snd (shr mrs e n) = e + Z.max 0 n.
Proof. unfold shr. destruct n; cbn [snd]; lia. Qed.

Lemma shr_nonneg mrs e n :
  0 <= shr_m mrs -> 0 <= shr_m (fst (shr mrs e n)).
Proof.
  intros Hm. unfold shr. destruct n as [| k | k]; cbn [fst]; try assumption.
  rewrite iter_pos_nat, iter_shr_1 by assumption.
  now apply Z.shiftr_nonneg.
Qed.

(** Rounding to 53 bits: the mantissa stays positive, bit length plus
    exponent is kept, and the new exponent is known. *)
Lemma shr_fexp_bounds m e l :
  0 < m -> -1074 < Zdigits2 m + e ->
  0 < shr_m (fst (shr_fexp 53 1024 m e l))
  /\ Zdigits2 (shr_m (fst (shr_fexp 53 1024 m e l))) + snd (shr_fexp 53 1024 m e l)
     = Zdigits2 m + e
  /\ snd (shr_fexp 53 1024 m e l)
     = Z.max (Z.max e (Zdigits2 m + e - 53)) (-1074).
Proof.
  intros Hm Hd. unfold shr_fexp.
  assert (Hrec : shr_m (shr_record_of_loc m l) = m).
  { destruct l as [| []]; reflexivity. }
  rewrite (Zdigits2_pos m Hm) in *.
  set (n := fexp 53 1024 (Z.succ (Z.log2 m) + e) - e).
  assert (Hn : n <= Z.log2 m
               /\ e + Z.max 0 n
                  = Z.max (Z.max e (Z.succ (Z.log2 m) + e - 53)) (-1074)).
  { unfold n, fexp, emin. lia. }
  destruct (shr_pos (shr_record_of_loc m l) e n) as [H1 H2];
    rewrite ?Hrec; try tauto.
  split; [exact H1 |].
  rewrite (Zdigits2_pos _ H1), shr_snd. rewrite Hrec, shr_snd in H2. lia.
Qed.

Lemma shr_fexp_nonneg m e l :
  0 <= m -> 0 <= shr_m (fst (shr_fexp 53 1024 m e l)).
Proof.
  intros Hm. unfold shr_fexp. apply shr_nonneg.
  destruct l as [| []]; exact Hm.
Qed.

Lemma round_nearest_even_digits m l :
  0 < m ->
  0 < round_nearest_even m l
  /\ Zdigits2 m <= Zdigits2 (round_nearest_even m l) <= Zdigits2 m + 1.
Proof.
  intros Hm.
  assert (H1 : 0 < m + 1 /\ Zdigits2 m <= Zdigits2 (m + 1) <= Zdigits2 m + 1).
  { split; [lia |]. replace (m + 1) with (Z.succ m) by lia.
    rewrite !Zdigits2_pos by lia.
    split; [apply Zsucc_le_compat, Z.log2_le_mono; lia |].
    pose proof (Z.log2_succ_le m). lia. }
  unfold round_nearest_even.
  destruct l as [| []]; try (split; [assumption | lia]); try exact H1.
  destruct (Z.even m); [split; [assumption | lia] | exact H1].
Qed.

Lemma round_nearest_even_nonneg m l : 0 <= m -> 0 <= round_nearest_even m l.
Proof.
  intros Hm. unfold round_nearest_even.
  destruct l as [| []]; try lia. destruct (Z.even m); lia.
Qed.

(** Rounding a positive mantissa that is not below the subnormal range
    never gives zero or NaN. *)
Lemma binary_round_aux_nonzero s m e l :
  0 < m -> -1074 < Zdigits2 m + e ->
  F64.is_nonzero (binary_round_aux 53 1024 s m e l) = true.
Proof.
  intros Hm Hd. unfold binary_round_aux.
  destruct (shr_fexp_bounds m e l Hm Hd) as [H1 [H2 _]].
  destruct (shr_fexp 53 1024 m e l) as [mrs' e'] eqn:E1. cbn [fst snd] in *.
  destruct (round_nearest_even_digits (shr_m mrs') (loc_of_shr_record mrs') H1)
    as [H3 H4].
  set (m2 := round_nearest_even (shr_m mrs') (loc_of_shr_record mrs')) in *.
  assert (Hd2 : -1074 < Zdigits2 m2 + e') by lia.
  destruct (shr_fexp_bounds m2 e' loc_Exact H3 Hd2) as [H5 _].
  destruct (shr_fexp 53 1024 m2 e' loc_Exact) as [mrs'' e''] eqn:E2. cbn [fst] in H5.
  destruct (shr_m mrs'') as [| q | q]; try lia.
  destruct (e'' <=? 1024 - 53); reflexivity.
Qed.

(** Within the exponent range the result is a finite number. *)
Lemma binary_round_aux_finite s m e l :
  0 < m -> -1074 < Zdigits2 m + e -> Zdigits2 m + e <= 1023 -> e <= 971 ->
  F64.is_finite (binary_round_aux 53 1024 s m e l) = true.
Proof.
  intros Hm Hd Hu He. unfold binary_round_aux.
  destruct (shr_fexp_bounds m e l Hm Hd) as [H1 [H2 H2']].
  destruct (shr_fexp 53 1024 m e l) as [mrs' e'] eqn:E1. cbn [fst snd] in *.
  destruct (round_nearest_even_digits (shr_m mrs') (loc_of_shr_record mrs') H1)
    as [H3 H4].
  set (m2 := round_nearest_even (shr_m mrs') (loc_of_shr_record mrs')) in *.
  assert (Hd2 : -1074 < Zdigits2 m2 + e') by lia.
  destruct (shr_fexp_bounds m2 e' loc_Exact H3 Hd2) as [H5 [_ H6]].
  destruct (shr_fexp 53 1024 m2 e' loc_Exact) as [mrs'' e''] eqn:E2.
  cbn [fst snd] in *.
  destruct (shr_m mrs'') as [| q | q]; try lia.
  replace (e'' <=? 1024 - 53) with true; [reflexivity |].
  symmetry. apply Z.leb_le. lia.
Qed.

(** Rounding never invents a NaN. *)
Lemma binary_round_aux_not_nan s m e l :
  0 <= m -> F64.is_nan (binary_round_aux 53 1024 s m e l) = false.
Proof.
  intros Hm. unfold binary_round_aux.
  pose proof (shr_fexp_nonneg m e l Hm) as H1.
  destruct (shr_fexp 53 1024 m e l) as [mrs' e'] eqn:E1. simpl in H1.
  pose proof (round_nearest_even_nonneg _ (loc_of_shr_record mrs') H1) as H2.
  pose proof (shr_fexp_nonneg _ e' loc_Exact H2) as H3.
  destruct (shr_fexp 53 1024 _ e' loc_Exact) as [mrs'' e''] eqn:E2. simpl in H3.
  destruct (shr_m mrs'') as [| q | q]; try lia; [reflexivity |].
  destruct (e'' <=? 1024 - 53); reflexivity.
Qed.

Lemma binary_round_nonzero s p :
  F64.is_nonzero (binary_round 53 1024 s p 0) = true.
Proof.
  unfold binary_round, shl_align.
  assert (Hf : forall x, -1074 <= fexp 53 1024 x).
  { intro x. unfold fexp, emin. lia. }
  specialize (Hf (Z.pos (digits2_pos p) + 0)).
  destruct (fexp 53 1024 (Z.pos (digits2_pos p) + 0) - 0) as [| d | d] eqn:Ed;
    cbv beta iota; apply binary_round_aux_nonzero; cbn [Zdigits2]; lia.
Qed.

Lemma digits2_iter_xO p k :
  Z.pos (digits2_pos (Pos.iter xO p k)) = Z.pos (digits2_pos p) + Z.pos k.
Proof.
  induction k as [| k IH] using Pos.peano_ind.
  - simpl. lia.
  - rewrite Pos.iter_succ. cbn [digits2_pos]. lia.
Qed.

Lemma binary_round_finite s p :
  Z.pos p < 2 ^ 1023 -> F64.is_finite (binary_round 53 1024 s p 0) = true.
Proof.
  intros Hp. unfold binary_round, shl_align.
  assert (Hdig : Z.pos (digits2_pos p) <= 1023).
  { rewrite Zdigits2_log2. apply Z.le_succ_l. apply Z.log2_lt_pow2; lia. }
  assert (Hf : fexp 53 1024 (Z.pos (digits2_pos p) + 0) = Z.pos (digits2_pos p) - 53).
  { unfold fexp, emin. lia. }
  rewrite Hf.
  destruct (Z.pos (digits2_pos p) - 53 - 0) as [| d | d] eqn:Ed; cbv beta iota;
    apply binary_round_aux_finite; cbn [Zdigits2];
    rewrite ?digits2_iter_xO; lia.
Qed.

(** An int64 converts to a finite float. *)
Lemma of_Z_finite z :
  - 2 ^ 1023 < z < 2 ^ 1023 -> F64.is_finite (F64.of_Z z) = true.
Proof.
  intros Hz. unfold F64.of_Z, binary_normalize.
  destruct z as [| p | p]; [reflexivity | |]; apply binary_round_finite; lia.
Qed.

(** A non-zero integer converts to a non-zero float, never to NaN. *)
Lemma of_Z_nonzero z : z <> 0 -> F64.is_nonzero (F64.of_Z z) = true.
Proof.
  intros Hz. unfold F64.of_Z, binary_normalize.
  destruct z as [| p | p]; [lia | |]; apply binary_round_nonzero.
Qed.

Lemma of_Z_0 : F64.of_Z 0 = F64.zero.
Proof. reflexivity. Qed.

(** Division of a non-zero number by zero is infinite. *)
Lemma div_by_zero_inf (x y : float) :
  F64.is_nonzero x = true -> F64.is_zero y = true ->
  F64.is_inf (F64.div x y) = true.
Proof. destruct x, y; simpl; intros; try discriminate; reflexivity. Qed.

(** Zero divided by zero is NaN. *)
Lemma zero_div_zero_nan (x y : float) :
  F64.is_zero x = true -> F64.is_zero y = true -> F64.div x y = F64.nan.
Proof. destruct x, y; simpl; intros; try discriminate; reflexivity. Qed.

Lemma of_Z_100_finite : F64.of_Z 100 = S754_finite false 7036874417766400 (-46).
Proof. vm_compute. reflexivity. Qed.

Lemma inf_mul_100 (x : float) :
  F64.is_inf x = true -> F64.is_inf (F64.mul x (F64.of_Z 100)) = true.
Proof. rewrite of_Z_100_finite. destruct x; simpl; intros; try discriminate; reflexivity. Qed.

Lemma of_Z_1_finite : F64.of_Z 1 = S754_finite false 4503599627370496 (-52).
Proof. vm_compute. reflexivity. Qed.

Lemma inf_sub_1 (x : float) :
  F64.is_inf x = true -> F64.is_inf (F64.sub x (F64.of_Z 1)) = true.
Proof. rewrite of_Z_1_finite. destruct x; simpl; intros; try discriminate; reflexivity. Qed.

Lemma abs_inf_gt_spike (x : float) :
  F64.is_inf x = true -> F64.gtb (F64.abs x) spike_threshold = true.
Proof. destruct x; simpl; intros; try discriminate; reflexivity. Qed.

(** No comparison with NaN holds. *)
Lemma gtb_nan_l (y : float) : F64.gtb F64.nan y = false.
Proof. destruct y; reflexivity. Qed.

Lemma ltb_nan_l (y : float) : F64.ltb F64.nan y = false.
Proof. destruct y; reflexivity. Qed.

(** A quotient of finite numbers is NaN only as 0/0. *)
Lemma div_finite_nan (x y : float) :
  F64.is_finite x = true -> F64.is_finite y = true ->
  F64.is_nan (F64.div x y) = F64.is_zero x && F64.is_zero y.
Proof.
  destruct x as [sx | sx | | sx mx ex], y as [sy | sy | | sy my ey];
    simpl; try discriminate; intros _ _; try reflexivity.
  unfold F64.div, SFdiv, F64.prec, F64.emax.
  destruct (SFdiv_core_binary 53 1024 (Z.pos mx) ex (Z.pos my) ey)
    as [[mz ez] lz] eqn:E.
  apply binary_round_aux_not_nan.
  unfold SFdiv_core_binary in E.
  set (m' := match _ - _ - _ with Z.pos _ => _ | 0 => _ | Z.neg _ => _ end) in E.
  assert (Hm' : 0 <= m').
  { unfold m'. destruct (ex - ey - _); try lia. apply Z.shiftl_nonneg. lia. }
  pose proof (Z_div_mod m' (Z.pos my) ltac:(lia)) as Hdiv.
  destruct (Z.div_eucl m' (Z.pos my)) as [q r]. inversion E; subst.
  destruct Hdiv as [Hq Hr]. nia.
Qed.

Lemma mul_100_nan (x : float) :
  F64.is_nan (F64.mul x (F64.of_Z 100)) = F64.is_nan x.
Proof.
  rewrite of_Z_100_finite. destruct x as [s | s | | s m e]; try reflexivity.
  unfold F64.mul, SFmul, F64.prec, F64.emax. apply binary_round_aux_not_nan. lia.
Qed.

Lemma replace_inf_finite (x : float) :
  F64.is_finite (replace_inf x) = negb (F64.is_nan x).
Proof. destruct x; reflexivity. Qed.

(** ** Feature Builder *)

(** A zero denominator under a non-zero numerator does resolve to 0. *)
Lemma rate_pct_nonzero_over_zero (num den : float) :
  F64.is_nonzero num = true -> F64.is_zero den = true ->
  rate_pct num den = F64.zero.
Proof.
  intros Hn Hd. unfold rate_pct.
  pose proof (inf_mul_100 _ (div_by_zero_inf _ _ Hn Hd)) as H.
  destruct (F64.mul (F64.div num den) (F64.of_Z 100)); try discriminate; reflexivity.
Qed.

(** Zero over zero is NaN and [replace] leaves it there. *)
Lemma rate_pct_zero_over_zero (num den : float) :
  F64.is_zero num = true -> F64.is_zero den = true ->
  rate_pct num den = F64.nan.
Proof.
  intros Hn Hd. unfold rate_pct. rewrite (zero_div_zero_nan _ _ Hn Hd). reflexivity.
Qed.

Lemma step4_ratio_zero_over_zero (num den : float) :
  F64.is_zero num = true -> F64.is_zero den = true ->
  Step4.ratio num den = F64.nan.
Proof.
  intros Hn Hd. unfold Step4.ratio. rewrite (zero_div_zero_nan _ _ Hn Hd). reflexivity.
Qed.

(** On finite counts a rate is a finite number unless both counts are 0. *)
Lemma rate_pct_finite (num den : float) :
  F64.is_finite num = true -> F64.is_finite den = true ->
  F64.is_finite (rate_pct num den) = negb (F64.is_zero num && F64.is_zero den).
Proof.
  intros Hn Hd. unfold rate_pct.
  now rewrite replace_inf_finite, mul_100_nan, div_finite_nan.
Qed.

Lemma step4_ratio_finite (num den : float) :
  F64.is_finite num = true -> F64.is_finite den = true ->
  F64.is_finite (Step4.ratio num den) = negb (F64.is_zero num && F64.is_zero den).
Proof.
  intros Hn Hd. unfold Step4.ratio.
  now rewrite replace_inf_finite, div_finite_nan.
Qed.

Lemma wrap64_range (z : Z) : - 2 ^ 63 <= wrap64 z < 2 ^ 63.
Proof.
  unfold wrap64. pose proof (Z.mod_pos_bound (z + 2 ^ 63) (2 ^ 64) ltac:(lia)). lia.
Qed.

(** The cells of the merged frame are finite when the sums are int64. *)
Lemma fillna0_finite (cell : option Z) :
  (forall z, cell = Some z -> - 2 ^ 63 <= z < 2 ^ 63) ->
  F64.is_finite (fillna0 cell) = true.
Proof.
  destruct cell as [z |]; [| reflexivity].
  intros H. specialize (H z eq_refl). apply of_Z_finite.
  assert (2 ^ 63 < 2 ^ 1023) by (apply Z.pow_lt_mono_r; lia). lia.
Qed.

(** The copy handed to the scaler in PHASE3_STEP4 is free of NaN and of
    infinities: there [fillna(0)] is applied as well. *)
Lemma step4_X_finite (f : Step4.Ratios) (x : float) :
  In x (Step4.X f) -> F64.is_finite x = true.
Proof.
  unfold Step4.X. rewrite in_map_iff. intros [y [<- _]].
  destruct y; reflexivity.
Qed.

(** C1 (the code, in general and at the failing input).  On finite
    counts a derived feature is a finite number exactly when numerator
    and denominator are not both 0: [replace([inf, -inf], 0)] turns the
    infinite quotients into 0 and leaves the NaN of 0/0 in place.  So a
    state present in the demographic table only, which after the outer
    merges and [fillna(0)] has 0 biometric updates and 0 enrolments,
    gets NaN update-rate and age-share features (its demographic rate
    5/0 becomes 0), and NaN intensity ratios in PHASE3_STEP4. *)
Theorem feature_is_nan_when_both_counts_are_zero :
  (forall r : MergedRow,
     F64.is_finite (total_enrolments r) = true ->
     Forall (fun n => F64.is_finite n = true) (numerators r) ->
     map F64.is_finite (derived_features (derive_features r))
     = map (fun n => negb (F64.is_zero n && F64.is_zero (total_enrolments r)))
           (numerators r))
  /\ exists r : FeatureRow,
       In r (feature_matrix enrolment_kerala biometric_kerala demographic_goa)
       /\ state (base r) = "goa"%string
       /\ total_bio_updates (base r) = F64.zero
       /\ total_enrolments (base r) = F64.zero
       /\ bio_update_rate r = F64.nan
       /\ demo_update_rate r = F64.zero
       /\ child_enrol_pct r = F64.nan
       /\ F64.is_finite (bio_update_rate r) = false
       /\ Step4.ratio (total_bio_updates (base r)) (total_enrolments (base r))
          = F64.nan.
Proof.
  split.
  - intros r Hd Hn. unfold numerators in *.
    repeat match goal with
           | H : Forall _ (_ :: _) |- _ => inversion H; subst; clear H
           end.
    cbn [map derived_features derive_features bio_update_rate demo_update_rate
         child_enrol_pct youth_enrol_pct adult_enrol_pct].
    rewrite !rate_pct_finite by assumption. reflexivity.
  - eexists. split.
    + vm_compute. left. reflexivity.
    + vm_compute. repeat split.
Qed.

(** ** Consensus Aggregator *)

Lemma count_anomalies_sum (d : DetectedRow) :
  count_anomalies d
  = astype_int (iso_forest_anomaly d) + astype_int (zscore_anomaly d)
    + astype_int (temporal_anomaly d).
Proof.
  unfold count_anomalies.
  destruct (iso_forest_anomaly d), (zscore_anomaly d), (temporal_anomaly d);
    reflexivity.
Qed.

Lemma count_anomalies_flagging (d : DetectedRow) :
  count_anomalies d = detectors_flagging d.
Proof.
  unfold count_anomalies, detectors_flagging.
  destruct (iso_forest_anomaly d), (zscore_anomaly d), (temporal_anomaly d);
    reflexivity.
Qed.

Lemma in_consensus_anomalies (df : list DetectedRow) (r : ConsensusRow) :
  In r (consensus_anomalies (add_consensus df))
  <-> (exists d, In d df /\ r = consensus_row d /\ 2 <= count_anomalies d).
Proof.
  unfold consensus_anomalies, add_consensus.
  rewrite filter_In, in_map_iff. split.
  - intros [[d [Hr Hd]] Hc]. exists d. subst r. simpl in Hc.
    apply Z.leb_le in Hc. auto.
  - intros [d [Hd [Hr Hc]]]. subst r. split.
    + exists d. auto.
    + simpl. now apply Z.leb_le.
Qed.

(** C2.  A region of the master table is in the high-priority consensus
    subset exactly when at least two detectors flag it; with exactly two
    it is in the subset, with exactly one it is not. *)
Theorem consensus_subset_iff_two_detectors (df : list DetectedRow) (d : DetectedRow) :
  In d df ->
  (In (consensus_row d) (consensus_anomalies (add_consensus df))
   <-> 2 <= detectors_flagging d)
  /\ (detectors_flagging d = 2 ->
      In (consensus_row d) (consensus_anomalies (add_consensus df)))
  /\ (detectors_flagging d = 1 ->
      ~ In (consensus_row d) (consensus_anomalies (add_consensus df))).
Proof.
  intros Hd.
  assert (Hiff : In (consensus_row d) (consensus_anomalies (add_consensus df))
                 <-> 2 <= detectors_flagging d).
  { rewrite in_consensus_anomalies, <- count_anomalies_flagging. split.
    - intros [d' [_ [Hr Hc]]].
      assert (He : anomaly_count (consensus_row d) = anomaly_count (consensus_row d'))
        by (rewrite Hr; reflexivity).
      simpl in He. lia.
    - intros Hc. exists d. auto. }
  split; [exact Hiff |]. split.
  - intros H2. apply Hiff. lia.
  - intros H1 Hin. apply Hiff in Hin. lia.
Qed.

Lemma consensus_subset_witness :
  In assam_two [assam_two; delhi_one]
  /\ ((In (consensus_row assam_two)
          (consensus_anomalies (add_consensus [assam_two; delhi_one]))
       <-> 2 <= detectors_flagging assam_two)
      /\ (detectors_flagging assam_two = 2 ->
          In (consensus_row assam_two)
             (consensus_anomalies (add_consensus [assam_two; delhi_one])))
      /\ (detectors_flagging assam_two = 1 ->
          ~ In (consensus_row assam_two)
               (consensus_anomalies (add_consensus [assam_two; delhi_one])))).
Proof.
  split.
  - simpl. left. reflexivity.
  - apply (consensus_subset_iff_two_detectors [assam_two; delhi_one] assam_two).
    simpl. left. reflexivity.
Defined.

Lemma priority_tier_table :
  priority_tier 0 = Some Normal /\ priority_tier 1 = Some Low
  /\ priority_tier 2 = Some Medium /\ priority_tier 3 = Some High.
Proof. repeat split; vm_compute; reflexivity. Qed.

(** C6.  The agreement count is the sum of the three verdicts read as
    0/1, it lies between 0 and 3, and the tier attached to it is the
    table 0 -> Normal, 1 -> Low, 2 -> Medium, 3 -> High, which grows with
    the count. *)
Theorem agreement_count_and_tier (d : DetectedRow) :
  let n := anomaly_count (consensus_row d) in
  n = astype_int (iso_forest_anomaly d) + astype_int (zscore_anomaly d)
      + astype_int (temporal_anomaly d)
  /\ n = detectors_flagging d
  /\ 0 <= n <= 3
  /\ priority_tier n = spec_tier n
  /\ (exists t, priority_tier n = Some t)
  /\ (priority_tier 0 = Some Normal /\ priority_tier 1 = Some Low
      /\ priority_tier 2 = Some Medium /\ priority_tier 3 = Some High)
  /\ (forall d' t t',
        priority_tier n = Some t ->
        priority_tier (anomaly_count (consensus_row d')) = Some t' ->
        n <= anomaly_count (consensus_row d') ->
        tier_rank t <= tier_rank t').
Proof.
  cbn zeta. cbn [anomaly_count consensus_row].
  split; [apply count_anomalies_sum |].
  split; [apply count_anomalies_flagging |].
  rewrite count_anomalies_sum.
  split; [destruct (iso_forest_anomaly d), (zscore_anomaly d), (temporal_anomaly d);
          simpl; lia |].
  split; [destruct (iso_forest_anomaly d), (zscore_anomaly d), (temporal_anomaly d);
          vm_compute; reflexivity |].
  split; [destruct (iso_forest_anomaly d), (zscore_anomaly d), (temporal_anomaly d);
          vm_compute; eexists; reflexivity |].
  split; [exact priority_tier_table |].
  intros d' t t'. rewrite (count_anomalies_sum d').
  destruct (iso_forest_anomaly d), (zscore_anomaly d), (temporal_anomaly d),
    (iso_forest_anomaly d'), (zscore_anomaly d'), (temporal_anomaly d');
    vm_compute; intros H1 H2 H3;
    try (exfalso; apply H3; reflexivity);
    inversion H1; inversion H2; subst; intro; discriminate.
Qed.

(** ** Order on the group keys *)

Lemma ascii_compare_refl (a : ascii) : Ascii.compare a a = Eq.
Proof. unfold Ascii.compare. apply N.compare_refl. Qed.

Lemma ascii_compare_lt_trans (a b c : ascii) :
  Ascii.compare a b = Lt -> Ascii.compare b c = Lt -> Ascii.compare a c = Lt.
Proof.
  unfold Ascii.compare. rewrite !N.compare_lt_iff. apply N.lt_trans.
Qed.

Lemma string_compare_refl (s : string) : String.compare s s = Eq.
Proof.
  induction s as [| a s IH]; simpl; [reflexivity |].
  now rewrite ascii_compare_refl.
Qed.

Lemma string_compare_lt_trans (s1 s2 s3 : string) :
  String.compare s1 s2 = Lt -> String.compare s2 s3 = Lt ->
  String.compare s1 s3 = Lt.
Proof.
  revert s2 s3. induction s1 as [| a s1 IH]; intros [| b s2] [| c s3]; simpl;
    try discriminate; try reflexivity.
  destruct (Ascii.compare a b) eqn:Eab; try discriminate;
    destruct (Ascii.compare b c) eqn:Ebc; try discriminate; intros H1 H2.
  - apply Ascii.compare_eq_iff in Eab, Ebc. subst.
    rewrite ascii_compare_refl. eapply IH; eassumption.
  - apply Ascii.compare_eq_iff in Eab. subst. now rewrite Ebc.
  - apply Ascii.compare_eq_iff in Ebc. subst. now rewrite Eab.
  - now rewrite (ascii_compare_lt_trans _ _ _ Eab Ebc).
Qed.

Lemma string_compare_gt_lt (s1 s2 : string) :
  String.compare s1 s2 = Gt -> String.compare s2 s1 = Lt.
Proof.
  intros H. rewrite String.compare_antisym, H. reflexivity.
Qed.

Lemma key_compare_lt_trans (a b c : string * Z) :
  key_compare a b = Lt -> key_compare b c = Lt -> key_compare a c = Lt.
Proof.
  unfold key_compare.
  destruct (String.compare (fst a) (fst b)) eqn:Eab; try discriminate;
    destruct (String.compare (fst b) (fst c)) eqn:Ebc; try discriminate;
    intros H1 H2.
  - apply String.compare_eq_iff in Eab, Ebc. rewrite Eab, Ebc.
    rewrite string_compare_refl.
    rewrite Z.compare_lt_iff in *. lia.
  - apply String.compare_eq_iff in Eab. rewrite Eab, Ebc. reflexivity.
  - apply String.compare_eq_iff in Ebc. rewrite <- Ebc, Eab. reflexivity.
  - now rewrite (string_compare_lt_trans _ _ _ Eab Ebc).
Qed.

Lemma key_compare_gt_lt (a b : string * Z) :
  key_compare a b = Gt -> key_compare b a = Lt.
Proof.
  unfold key_compare. rewrite (String.compare_antisym (fst b) (fst a)).
  destruct (String.compare (fst a) (fst b)); simpl; try discriminate; auto.
  rewrite (Z.compare_antisym (snd a) (snd b)). intros ->. reflexivity.
Qed.

(** ** [groupby] yields strictly increasing keys *)

Section GroupByFacts.
Context {K V : Type}.
Variable cmp : K -> K -> comparison.
Variable plus : V -> V -> V.
Hypothesis cmp_lt_trans :
  forall a b c, cmp a b = Lt -> cmp b c = Lt -> cmp a c = Lt.
Hypothesis cmp_gt_lt : forall a b, cmp a b = Gt -> cmp b a = Lt.

Lemma group_insert_keys k v acc x :
  In x (group_insert cmp plus k v acc) ->
  fst x = k \/ exists y, In y acc /\ fst y = fst x.
Proof.
  induction acc as [| [k' v'] rest IH]; simpl.
  - intros [<- | []]. now left.
  - destruct (cmp k k'); simpl.
    + intros [<- | H]; right; [exists (k', v') | exists x]; simpl; auto.
    + intros [<- | H]; [now left |]. right. exists x. auto.
    + intros [<- | H].
      * right. exists (k', v'). simpl. auto.
      * destruct (IH H) as [E | [y [Hy E]]]; [now left |].
        right. exists y. auto.
Qed.

Lemma group_insert_sorted k v acc :
  StronglySorted (key_lt cmp) acc -> StronglySorted (key_lt cmp) (group_insert cmp plus k v acc).
Proof.
  induction acc as [| [k' v'] rest IH]; simpl; intros Hs.
  - repeat constructor.
  - inversion Hs as [| ? ? Hrest Hall]; subst.
    destruct (cmp k k') eqn:E.
    + constructor; [assumption |]. exact Hall.
    + constructor; [assumption |]. constructor; [exact E |].
      rewrite Forall_forall in *. intros y Hy. unfold key_lt in *. simpl in *.
      eapply cmp_lt_trans; [exact E | apply Hall, Hy].
    + constructor; [apply IH; assumption |].
      rewrite Forall_forall in *. intros y Hy.
      destruct (group_insert_keys _ _ _ _ Hy) as [Ek | [z [Hz Ez]]].
      * unfold key_lt. simpl. rewrite Ek. now apply cmp_gt_lt.
      * specialize (Hall z Hz). unfold key_lt in *. simpl in *. now rewrite <- Ez.
Qed.

Lemma groupby_sum_sorted rows :
  StronglySorted (key_lt cmp) (groupby_sum cmp plus rows).
Proof.
  unfold groupby_sum.
  assert (H : forall acc, StronglySorted (key_lt cmp) acc ->
            StronglySorted (key_lt cmp)
              (fold_left (fun acc kv => group_insert cmp plus (fst kv) (snd kv) acc)
                         rows acc)).
  { induction rows as [| r rows IH]; simpl; intros acc Hacc; [assumption |].
    apply IH. now apply group_insert_sorted. }
  apply H. constructor.
Qed.
End GroupByFacts.

(** ** Sorting *)

Section SortFacts.
Context {A : Type}.
Variable leb : A -> A -> bool.

Lemma sort_values_sorted_id (l : list A) :
  StronglySorted (fun a b => leb a b = true) l -> sort_values leb l = l.
Proof.
  induction 1 as [| x l Hl IH Hall]; [reflexivity |].
  unfold sort_values in *. cbn [fold_right]. rewrite IH.
  destruct l as [| y l']; simpl; [reflexivity |].
  inversion Hall as [| ? ? Hxy _]; subst. now rewrite Hxy.
Qed.

Lemma sort_insert_perm x l : Permutation (x :: l) (sort_insert leb x l).
Proof.
  induction l as [| y l IH]; simpl; [reflexivity |].
  destruct (leb x y); [reflexivity |].
  rewrite perm_swap. now constructor.
Qed.

Lemma sort_values_perm l : Permutation l (sort_values leb l).
Proof.
  induction l as [| x l IH]; [constructor |].
  unfold sort_values in *. cbn [fold_right].
  rewrite <- sort_insert_perm. now constructor.
Qed.

(** On the rows that satisfy [P] the comparison is total. *)
Variable P : A -> Prop.
Hypothesis leb_total_on :
  forall a b, P a -> P b -> leb a b = false -> leb b a = true.

Lemma sort_insert_Forall x l :
  P x -> Forall P l -> Forall P (sort_insert leb x l).
Proof.
  intros Hx Hl. eapply Permutation_Forall; [apply sort_insert_perm |].
  now constructor.
Qed.

Lemma sort_insert_Sorted x l :
  P x -> Forall P l ->
  Sorted (fun a b => leb a b = true) l ->
  Sorted (fun a b => leb a b = true) (sort_insert leb x l).
Proof.
  intros Hx. induction l as [| y l IH]; simpl; intros Hall Hs.
  - repeat constructor.
  - inversion Hall as [| ? ? Hy Hall']; subst.
    destruct (leb x y) eqn:E.
    + constructor; [assumption |]. now constructor.
    + inversion Hs as [| ? ? Hl Hhd]; subst.
      constructor; [now apply IH |].
      destruct l as [| z l']; simpl.
      * constructor. now apply leb_total_on.
      * destruct (leb x z); constructor; [now apply leb_total_on |].
        now inversion Hhd.
Qed.

Lemma sort_values_Sorted l :
  Forall P l -> Sorted (fun a b => leb a b = true) (sort_values leb l).
Proof.
  induction 1 as [| x l Hx Hl IH]; [constructor |].
  unfold sort_values in *. cbn [fold_right].
  apply sort_insert_Sorted; try assumption.
  eapply Permutation_Forall; [apply sort_values_perm | exact Hl].
Qed.
End SortFacts.

Lemma StronglySorted_filter {A} (R : A -> A -> Prop) (f : A -> bool) (l : list A) :
  StronglySorted R l -> StronglySorted R (filter f l).
Proof.
  induction 1 as [| x l Hl IH Hall]; simpl; [constructor |].
  destruct (f x); [| assumption].
  constructor; [assumption |].
  rewrite Forall_forall in *. intros y Hy. apply filter_In in Hy. now apply Hall.
Qed.

(** The monthly table is ordered by (state, period), each pair once. *)
Lemma monthly_enrol_sorted (enrolment : list EnrolmentRec) :
  StronglySorted (fun a b => key_compare (fst a) (fst b) = Lt)
                 (monthly_enrol enrolment).
Proof.
  unfold monthly_enrol.
  set (g := groupby_sum key_compare add64 _).
  assert (Hg : StronglySorted (key_lt key_compare) g).
  { apply groupby_sum_sorted; [exact key_compare_lt_trans | exact key_compare_gt_lt]. }
  rewrite sort_values_sorted_id; [exact Hg |].
  eapply StronglySorted_ind with (P := StronglySorted (fun a b => key_leb a b = true));
    [constructor | | exact Hg].
  intros a l _ IH Hall. constructor; [assumption |].
  rewrite Forall_forall in *. intros y Hy. specialize (Hall y Hy).
  unfold key_lt in Hall. unfold key_leb. now rewrite Hall.
Qed.

(** ** Temporal Spike Detector *)

Lemma changes_from_cons last st p x rest :
  changes_from last (((st, p), x) :: rest)
  = monthly_row ((st, p), x) (pct_change1 (lookup st last) x)
    :: changes_from (set_last st x last) rest.
Proof. reflexivity. Qed.

Lemma series_changes_cons prev r rest :
  series_changes prev (r :: rest)
  = monthly_row r (pct_change1 prev (snd r)) :: series_changes (Some (snd r)) rest.
Proof. reflexivity. Qed.

Lemma monthly_changes_eq enrolment :
  monthly_changes enrolment = changes_from [] (monthly_enrol enrolment).
Proof. reflexivity. Qed.

(** Restricted to one state, the grouped change is the change along
    that state's own series. *)
Lemma filter_changes_from (s : string) rows : forall last,
  filter (fun m => String.eqb s (m_state m)) (changes_from last rows)
  = series_changes (lookup s last) (series s rows).
Proof.
  unfold series.
  induction rows as [| [[st p] x] rest IH]; intros last; [reflexivity |].
  rewrite changes_from_cons. cbn [filter]. unfold of_state at 1.
  cbn [m_state monthly_row fst snd].
  destruct (String.eqb s st) eqn:E.
  - apply String.eqb_eq in E. subst st.
    rewrite series_changes_cons, IH. cbn [snd].
    unfold set_last. cbn [lookup]. rewrite String.eqb_refl. reflexivity.
  - rewrite IH. unfold set_last. cbn [lookup]. rewrite E. reflexivity.
Qed.

Lemma series_changes_mid prev l1 a b l2 :
  In (monthly_row b (pct_change1 (Some (snd a)) (snd b)))
     (series_changes prev (l1 ++ a :: b :: l2)).
Proof.
  revert prev. induction l1 as [| r l1 IH]; intros prev.
  - cbn [app]. rewrite !series_changes_cons. right. left. reflexivity.
  - cbn [app]. rewrite series_changes_cons. right. apply IH.
Qed.

Lemma series_changes_In prev rows ev :
  In ev (series_changes prev rows) ->
  exists r p, In r rows /\ ev = monthly_row r (pct_change1 p (snd r)).
Proof.
  revert prev. induction rows as [| r rows IH]; intros prev; [intros [] |].
  rewrite series_changes_cons. intros [<- | H].
  - exists r, prev. split; [now left | reflexivity].
  - destruct (IH _ H) as [r' [p [Hr He]]]. exists r', p. split; [now right | exact He].
Qed.

Lemma unique_In (x : string) (l : list string) : In x (unique l) <-> In x l.
Proof.
  induction l as [| y l IH]; simpl; [tauto |].
  rewrite filter_In, IH. split.
  - intros [H | [H _]]; auto.
  - intros [H | H]; [now left |].
    destruct (String.eqb y x) eqn:E.
    + apply String.eqb_eq in E. now left.
    + right. auto.
Qed.

Lemma mem_string_In (s : string) (l : list string) :
  mem_string s l = true <-> In s l.
Proof.
  unfold mem_string. rewrite existsb_exists. split.
  - intros [x [Hx E]]. apply String.eqb_eq in E. now subst.
  - intros H. exists s. split; [assumption | apply String.eqb_refl].
Qed.

(** A change computed from a previous value of 0 and a non-zero current
    value is infinite, and the row is flagged. *)
Lemma zero_to_nonzero_flagged (r : (string * Z) * Z) :
  snd r <> 0 ->
  F64.is_inf (mom_change (monthly_row r (pct_change1 (Some 0) (snd r)))) = true
  /\ m_temporal_anomaly (monthly_row r (pct_change1 (Some 0) (snd r))) = true.
Proof.
  intros Hr. cbn [mom_change m_temporal_anomaly monthly_row pct_change1].
  rewrite of_Z_0.
  assert (H : F64.is_inf
                (F64.mul (F64.sub (F64.div (F64.of_Z (snd r)) F64.zero) (F64.of_Z 1))
                         (F64.of_Z 100)) = true).
  { apply inf_mul_100, inf_sub_1, div_by_zero_inf; [now apply of_Z_nonzero | reflexivity]. }
  split; [exact H | now apply abs_inf_gt_spike].
Qed.

(** The first cell of a series has no change and is not flagged. *)
Lemma first_cell_not_flagged (r : (string * Z) * Z) :
  m_temporal_anomaly (monthly_row r (pct_change1 None (snd r))) = false.
Proof. reflexivity. Qed.

(** C4.  Take any region and any two consecutive periods of its sorted
    series where the earlier value is 0 and the later one is not.  The
    detector is a total function, so nothing is raised; the change of
    the later period is infinite, the period is one of the Temporal
    Anomaly Events and the region is temporally flagged. *)
Theorem zero_to_nonzero_is_temporal_event
    (enrolment : list EnrolmentRec) (s : string)
    (l1 l2 : list ((string * Z) * Z)) (a b : (string * Z) * Z) :
  series s (monthly_enrol enrolment) = l1 ++ a :: b :: l2 ->
  snd a = 0 -> snd b <> 0 ->
  (exists ev, In ev (temporal_anomalies enrolment)
              /\ m_state ev = s
              /\ year_month ev = snd (fst b)
              /\ m_total_enrolments ev = snd b
              /\ F64.is_inf (mom_change ev) = true)
  /\ In s (states_with_temporal enrolment)
  /\ mem_string s (states_with_temporal enrolment) = true.
Proof.
  intros Hser Ha Hb.
  set (ev := monthly_row b (pct_change1 (Some (snd a)) (snd b))).
  assert (Hb_in : In b (series s (monthly_enrol enrolment))).
  { rewrite Hser. apply in_or_app. right. right. now left. }
  assert (Hst : fst (fst b) = s).
  { unfold series in Hb_in. apply filter_In in Hb_in. destruct Hb_in as [_ E].
    unfold of_state in E. apply String.eqb_eq in E. now symmetry. }
  assert (Hin : In ev (monthly_changes enrolment)).
  { pose proof (series_changes_mid (lookup s []) l1 a b l2) as H.
    rewrite <- Hser, <- filter_changes_from in H.
    apply filter_In in H. rewrite monthly_changes_eq. exact (proj1 H). }
  destruct (zero_to_nonzero_flagged b Hb) as [Hinf Hflag].
  unfold ev in *. rewrite Ha in *.
  assert (Hev : In (monthly_row b (pct_change1 (Some 0) (snd b)))
                   (temporal_anomalies enrolment)).
  { unfold temporal_anomalies. apply filter_In. split; assumption. }
  assert (Hs : In s (states_with_temporal enrolment)).
  { unfold states_with_temporal. apply unique_In, in_map_iff.
    eexists. split; [| exact Hev]. exact Hst. }
  split; [| split; [exact Hs | now apply mem_string_In]].
  eexists. split; [exact Hev |]. repeat split; assumption.
Qed.

Lemma zero_to_nonzero_witness :
  series "goa" (monthly_enrol enrolment_spike)
  = [] ++ (("goa"%string, 662), 0) :: (("goa"%string, 663), 150) :: []
  /\ snd (("goa"%string, 662), 0) = 0
  /\ snd (("goa"%string, 663), 150) <> 0
  /\ ((exists ev, In ev (temporal_anomalies enrolment_spike)
                  /\ m_state ev = "goa"%string
                  /\ year_month ev = snd (fst (("goa"%string, 663), 150))
                  /\ m_total_enrolments ev = snd (("goa"%string, 663), 150)
                  /\ F64.is_inf (mom_change ev) = true)
      /\ In "goa"%string (states_with_temporal enrolment_spike)
      /\ mem_string "goa" (states_with_temporal enrolment_spike) = true).
Proof.
  assert (H1 : series "goa" (monthly_enrol enrolment_spike)
               = [] ++ (("goa"%string, 662), 0) :: (("goa"%string, 663), 150) :: [])
    by (vm_compute; reflexivity).
  assert (H2 : snd (("goa"%string, 662), 0) = 0) by reflexivity.
  assert (H3 : snd (("goa"%string, 663), 150) <> 0) by (simpl; lia).
  split; [exact H1 |]. split; [exact H2 |]. split; [exact H3 |].
  exact (zero_to_nonzero_is_temporal_event enrolment_spike "goa" [] []
           (("goa"%string, 662), 0) (("goa"%string, 663), 150) H1 H2 H3).
Defined.

Lemma series_same_state s rows r : In r (series s rows) -> fst (fst r) = s.
Proof.
  unfold series. rewrite filter_In. intros [_ E].
  unfold of_state in E. apply String.eqb_eq in E. now symmetry.
Qed.

(** Within one series the periods increase strictly. *)
Lemma series_periods_increase enrolment s r rest :
  series s (monthly_enrol enrolment) = r :: rest ->
  forall r', In r' rest -> snd (fst r) < snd (fst r').
Proof.
  intros Hser r' Hr'.
  pose proof (StronglySorted_filter _ (of_state s) _ (monthly_enrol_sorted enrolment)) as Hs.
  fold (series s (monthly_enrol enrolment)) in Hs. rewrite Hser in Hs.
  inversion Hs as [| ? ? _ Hall]; subst.
  rewrite Forall_forall in Hall. specialize (Hall r' Hr').
  assert (E1 : fst (fst r) = s) by (apply (series_same_state s (monthly_enrol enrolment)); rewrite Hser; now left).
  assert (E2 : fst (fst r') = s) by (apply (series_same_state s (monthly_enrol enrolment)); rewrite Hser; now right).
  unfold key_compare in Hall. rewrite E1, E2, string_compare_refl in Hall.
  now apply Z.compare_lt_iff.
Qed.

(** An event of a region comes from the tail of the region's series. *)
Lemma event_from_tail enrolment s r rest ev :
  series s (monthly_enrol enrolment) = r :: rest ->
  In ev (temporal_anomalies enrolment) -> m_state ev = s ->
  exists r' p, In r' rest /\ ev = monthly_row r' (pct_change1 p (snd r')).
Proof.
  intros Hser Hev Hst.
  unfold temporal_anomalies in Hev. apply filter_In in Hev. destruct Hev as [Hin Hflag].
  assert (H : In ev (series_changes (lookup s []) (series s (monthly_enrol enrolment)))).
  { rewrite <- filter_changes_from, <- monthly_changes_eq.
    apply filter_In. split; [assumption |]. rewrite Hst. apply String.eqb_refl. }
  rewrite Hser, series_changes_cons in H. cbn [lookup] in H.
  destruct H as [H | H].
  - subst ev. rewrite first_cell_not_flagged in Hflag. discriminate.
  - exact (series_changes_In _ _ _ H).
Qed.

Lemma add_verdicts_temporal preds scores with_temporal df d :
  In d (add_verdicts preds scores with_temporal df) ->
  temporal_anomaly d = mem_string (state (base (feat d))) with_temporal.
Proof.
  unfold add_verdicts. rewrite in_map_iff. intros [[i r] [<- _]]. reflexivity.
Qed.

(** C7.  Let [r] be the first row of a region's sorted series.  Every
    other row of the series has a later period, every Temporal Anomaly
    Event of the region lies strictly after the period of [r], and a
    region whose series is [r] alone is not temporally flagged: it is
    absent from the flagged states and its master-table verdict is false. *)
Theorem first_period_is_never_an_event
    (enrolment : list EnrolmentRec) (s : string)
    (r : (string * Z) * Z) (rest : list ((string * Z) * Z)) :
  series s (monthly_enrol enrolment) = r :: rest ->
  (forall r', In r' rest -> snd (fst r) < snd (fst r'))
  /\ (forall ev, In ev (temporal_anomalies enrolment) -> m_state ev = s ->
                 snd (fst r) < year_month ev)
  /\ (rest = [] ->
      mem_string s (states_with_temporal enrolment) = false
      /\ forall preds scores df d,
           In d (add_verdicts preds scores (states_with_temporal enrolment) df) ->
           state (base (feat d)) = s -> temporal_anomaly d = false).
Proof.
  intros Hser.
  pose proof (series_periods_increase enrolment s r rest Hser) as Hinc.
  split; [exact Hinc |]. split.
  - intros ev Hev Hst.
    destruct (event_from_tail _ _ _ _ _ Hser Hev Hst) as [r' [p [Hr' ->]]].
    cbn [year_month monthly_row]. now apply Hinc.
  - intros Hrest.
    assert (Hmem : mem_string s (states_with_temporal enrolment) = false).
    { destruct (mem_string s (states_with_temporal enrolment)) eqn:E; [| reflexivity].
      apply mem_string_In in E. unfold states_with_temporal in E.
      apply unique_In, in_map_iff in E. destruct E as [ev [Hst Hev]].
      destruct (event_from_tail _ _ _ _ _ Hser Hev Hst) as [r' [_ [Hr' _]]].
      rewrite Hrest in Hr'. destruct Hr'. }
    split; [exact Hmem |].
    intros preds scores df d Hd Hst.
    rewrite (add_verdicts_temporal _ _ _ _ _ Hd), Hst. exact Hmem.
Qed.

Lemma first_period_witness :
  series "delhi" (monthly_enrol enrolment_spike) = (("delhi"%string, 662), 100) :: []
  /\ ((forall r' : (string * Z) * Z,
          In r' [] -> snd (fst (("delhi"%string, 662), 100)) < snd (fst r'))
      /\ (forall ev, In ev (temporal_anomalies enrolment_spike) ->
                     m_state ev = "delhi"%string ->
                     snd (fst (("delhi"%string, 662), 100)) < year_month ev)
      /\ (@nil ((string * Z) * Z) = [] ->
          mem_string "delhi" (states_with_temporal enrolment_spike) = false
          /\ forall preds scores df d,
               In d (add_verdicts preds scores (states_with_temporal enrolment_spike) df) ->
               state (base (feat d)) = "delhi"%string -> temporal_anomaly d = false)).
Proof.
  assert (H : series "delhi" (monthly_enrol enrolment_spike)
              = (("delhi"%string, 662), 100) :: [])
    by (vm_compute; reflexivity).
  split; [exact H |].
  exact (first_period_is_never_an_event enrolment_spike "delhi"
           (("delhi"%string, 662), 100) [] H).
Defined.

(** The verdict joins the master table by state: in a run on the spike
    sample Goa is temporally flagged and Delhi is not. *)
Example temporal_verdict_in_master_table :
  map (fun o => (state (base (feat (det (cons o)))), temporal_anomaly (det (cons o))))
      (complete (run Z (fun seed => seed) Z toy_fit toy_predict toy_score_samples
                     no_scaling 0 enrolment_spike [] []))
  = [("delhi"%string, false); ("goa"%string, true)].
Proof. vm_compute. reflexivity. Qed.

(** ** Order on floats *)

Lemma SFcompare_antisym (a b : float) :
  SFcompare b a = option_map CompOpp (SFcompare a b).
Proof.
  destruct a as [sa | sa | | sa ma ea], b as [sb | sb | | sb mb eb]; simpl;
    try reflexivity; try (destruct sa, sb; reflexivity);
    try (destruct sa; reflexivity); try (destruct sb; reflexivity).
  destruct sa, sb; simpl; try reflexivity;
    rewrite (Z.compare_antisym ea eb); destruct (ea ?= eb); simpl; try reflexivity;
    rewrite (Pos.compare_cont_antisym ma mb Eq); simpl;
    try rewrite CompOpp_involutive; reflexivity.
Qed.

(** On numbers [<=] is total. *)
Lemma leb_total (a b : float) :
  F64.is_nan a = false -> F64.is_nan b = false ->
  F64.leb a b = false -> F64.leb b a = true.
Proof.
  intros Ha Hb. unfold F64.leb, SFleb. rewrite (SFcompare_antisym a b).
  destruct (SFcompare a b) as [[| |] |] eqn:E; simpl; try discriminate; try reflexivity.
  destruct a, b; simpl in *; try discriminate;
    repeat match goal with s : bool |- _ => destruct s end; discriminate.
Qed.

(** ** Statistical Outlier Detector *)

Lemma nth_Forall {A} (P : A -> Prop) (l : list A) (d : A) (i : nat) :
  Forall P l -> P d -> P (nth i l d).
Proof.
  intros Hl Hd. revert i. induction Hl as [| x l Hx Hl IH]; intros [| i]; simpl; auto.
Qed.

(** ** numpy's sum *)

Lemma pairwise_sum_rec_eq (fuel : nat) (a : list float) :
  pairwise_sum_rec fuel a
  = if (List.length a <? 8)%nat then fold_left F64.add a F64.zero
    else if (List.length a <=? 128)%nat then block_sum a
    else match fuel with
         | O => block_sum a
         | S fuel' =>
             F64.add
               (pairwise_sum_rec fuel'
                  (firstn (List.length a / 2 - (List.length a / 2) mod 8) a))
               (pairwise_sum_rec fuel'
                  (skipn (List.length a / 2 - (List.length a / 2) mod 8) a))
         end.
Proof. destruct fuel; reflexivity. Qed.

Lemma split_point (n : nat) :
  (128 < n)%nat ->
  (0 < n / 2 - (n / 2) mod 8 < n)%nat.
Proof.
  intros Hn.
  pose proof (Nat.div_mod_eq n 2) as H2.
  pose proof (Nat.mod_upper_bound n 2) as H3.
  pose proof (Nat.mod_upper_bound (n / 2) 8) as H4.
  lia.
Qed.

(** The depth of the splitting never exceeds the length of the column:
    any larger bound gives the same sum. *)
Lemma pairwise_sum_fuel (fuel : nat) (a : list float) :
  (List.length a <= fuel)%nat -> pairwise_sum_rec fuel a = pairwise_sum a.
Proof.
  unfold pairwise_sum.
  assert (H : forall f1 f2 b, (List.length b <= f1)%nat -> (List.length b <= f2)%nat ->
                              pairwise_sum_rec f1 b = pairwise_sum_rec f2 b).
  { induction f1 as [| f1 IH]; intros f2 b H1 H2.
    - rewrite (pairwise_sum_rec_eq 0 b), (pairwise_sum_rec_eq f2 b).
      destruct (List.length b <? 8)%nat eqn:E8; [reflexivity |].
      destruct (List.length b <=? 128)%nat eqn:E128; [reflexivity |].
      apply Nat.leb_gt in E128. lia.
    - rewrite (pairwise_sum_rec_eq (S f1) b), (pairwise_sum_rec_eq f2 b).
      destruct (List.length b <? 8)%nat eqn:E8; [reflexivity |].
      destruct (List.length b <=? 128)%nat eqn:E128; [reflexivity |].
      apply Nat.leb_gt in E128.
      destruct f2 as [| f2]; [lia |].
      pose proof (split_point _ E128) as Hs.
      f_equal; apply IH; rewrite ?length_firstn, ?length_skipn; lia. }
  intros Hf. apply H; [exact Hf | lia].
Qed.

(** A column of more than 128 cells: the sum of the two parts. *)
Lemma pairwise_sum_split (a : list float) :
  (128 < List.length a)%nat ->
  pairwise_sum a
  = F64.add (pairwise_sum (firstn (List.length a / 2 - (List.length a / 2) mod 8) a))
            (pairwise_sum (skipn (List.length a / 2 - (List.length a / 2) mod 8) a)).
Proof.
  intros Hn. pose proof (split_point _ Hn) as Hs.
  unfold pairwise_sum at 1. rewrite pairwise_sum_rec_eq.
  replace (List.length a <? 8)%nat with false by (symmetry; apply Nat.ltb_ge; lia).
  replace (List.length a <=? 128)%nat with false by (symmetry; apply Nat.leb_gt; lia).
  destruct (List.length a) as [| n] eqn:E; [lia |].
  rewrite !pairwise_sum_fuel; [reflexivity | |];
    rewrite ?length_firstn, ?length_skipn; lia.
Qed.

(** A column of fewer than eight cells is added left to right. *)
Lemma np_sum_small (a : list float) :
  (List.length a < 8)%nat -> np_sum a = F64.add F64.zero (fold_left F64.add a F64.zero).
Proof.
  intros Hn. unfold np_sum, pairwise_sum. rewrite pairwise_sum_rec_eq.
  replace (List.length a <? 8)%nat with true by (symmetry; apply Nat.ltb_lt; lia).
  reflexivity.
Qed.

(** ** Zero standard deviation *)

Lemma leb_zero_abs (s : bool) (r : float) :
  F64.is_nan r = false -> F64.leb (S754_zero s) (F64.abs r) = true.
Proof. destruct r as [[] | [] | | [] m e], s; intros H; try discriminate H; reflexivity. Qed.

Lemma mul_eps_nan (m : float) : F64.is_nan (F64.mul eps m) = F64.is_nan m.
Proof.
  destruct m as [s | s | | s m e]; try reflexivity.
  unfold F64.mul, eps, SFmul.
  apply binary_round_aux_not_nan. lia.
Qed.

(** With a standard deviation of 0 every score of [stats.zscore] is NaN:
    0 is not above [|eps * mean|], and with a NaN mean the quotient is
    NaN anyway. *)
Lemma abs_zscore_zero_std (col : list float) :
  F64.is_zero (np_std col) = true -> Forall (fun z => z = F64.nan) (abs_zscore col).
Proof.
  intros Hs. unfold abs_zscore, stats_zscore.
  rewrite Forall_forall. intros z Hz.
  apply in_map_iff in Hz. destruct Hz as [y [<- Hy]].
  apply in_map_iff in Hy. destruct Hy as [x [<- _]].
  destruct (np_std col) as [s | | |]; try discriminate Hs.
  destruct (F64.is_nan (np_mean col)) eqn:Hm.
  - destruct (np_mean col); try discriminate Hm.
    destruct (F64.leb _ _); [reflexivity |]. destruct x; reflexivity.
  - rewrite leb_zero_abs by (now rewrite mul_eps_nan). reflexivity.
Qed.

Lemma zscore_table_In (df : list FeatureRow) (z : ZScores) :
  In z (zscore_table df) ->
  exists i, forall t,
    tracked_deviation t z = nth i (abs_zscore (map (tracked_feature t) df)) F64.nan.
Proof.
  unfold zscore_table. rewrite in_map_iff. intros [i [<- _]].
  exists i. intros []; reflexivity.
Qed.

Lemma zscore_flag_tracked (z : ZScores) :
  zscore_flag z = true ->
  exists t, F64.gtb (tracked_deviation t z) threshold = true.
Proof.
  unfold zscore_flag. rewrite !orb_true_iff. intros [[[H | H] | H] | H];
    [exists TBio | exists TDemo | exists TChild | exists TEnrol]; exact H.
Qed.

Lemma add_verdicts_zscores_In preds scores with_temporal df d :
  In d (add_verdicts preds scores with_temporal df) ->
  zscore_anomaly d = zscore_flag (zscores d)
  /\ (In (zscores d) (zscore_table df)
      \/ forall t, tracked_deviation t (zscores d) = F64.nan).
Proof.
  unfold add_verdicts. rewrite in_map_iff. intros [[i r] [<- _]].
  cbn [zscores zscore_anomaly fst snd]. split; [reflexivity |].
  destruct (Nat.lt_ge_cases i (List.length (zscore_table df))) as [Hi | Hi].
  - left. now apply nth_In.
  - right. rewrite nth_overflow by exact Hi. intros []; reflexivity.
Qed.

(** PHASE3_STEP4 computes the bare quotient [(x - mean) / std]: with a
    standard deviation of 0 a score is NaN for a cell equal to the mean
    and infinite for any other cell. *)
Lemma step4_z_score_zero_std (x mean std : float) :
  F64.is_zero std = true ->
  F64.abs (F64.div (F64.sub x mean) std)
  = if F64.is_nonzero (F64.sub x mean) then F64.pinf else F64.nan.
Proof.
  intros Hs. destruct std; try discriminate Hs.
  destruct (F64.sub x mean) as [[] | [] | | [] m e], s; reflexivity.
Qed.

Lemma step4_zero_std_scores (col : list float) :
  F64.is_zero (Step4.pd_std col) = true ->
  Step4.z_scores col
  = map (fun x => if F64.is_nonzero (F64.sub x (Step4.pd_mean col))
                  then F64.pinf else F64.nan) col.
Proof.
  intros Hs. unfold Step4.z_scores. apply map_ext. intros x.
  now apply step4_z_score_zero_std.
Qed.

(** C3 (amended).  When the standard deviation computed for a tracked
    feature is 0, no region gets a deviation of 0.  In STEP9 the
    deviation is NaN for every region; NaN exceeds no threshold, so a
    region that is flagged is flagged on account of another feature.
    In PHASE3_STEP4, which divides without any guard, the score is NaN
    (no flag) for a region whose value equals the computed mean or is
    missing, and infinite (flag) for any other region. *)
Theorem zero_std_feature_has_no_zero_deviation :
  (forall (t : Tracked) (df : list FeatureRow),
     F64.is_zero (np_std (map (tracked_feature t) df)) = true ->
     Forall (fun z => tracked_deviation t z = F64.nan
                      /\ F64.is_zero (tracked_deviation t z) = false
                      /\ F64.gtb (tracked_deviation t z) threshold = false
                      /\ (zscore_flag z = true ->
                          exists t', t' <> t
                                     /\ F64.gtb (tracked_deviation t' z) threshold = true))
            (zscore_table df)
     /\ forall preds scores with_temporal d,
          In d (add_verdicts preds scores with_temporal df) ->
          tracked_deviation t (zscores d) = F64.nan
          /\ (zscore_anomaly d = true ->
              exists t', t' <> t
                         /\ F64.gtb (tracked_deviation t' (zscores d)) threshold = true))
  /\ (forall col : list float,
        F64.is_zero (Step4.pd_std col) = true ->
        Step4.z_scores col
        = map (fun x => if F64.is_nonzero (F64.sub x (Step4.pd_mean col))
                        then F64.pinf else F64.nan) col
        /\ Step4.anomaly_flags col
           = map (fun x => F64.is_nonzero (F64.sub x (Step4.pd_mean col))) col
        /\ Forall (fun z => F64.is_zero z = false) (Step4.z_scores col)).
Proof.
  split.
  - intros t df Hc.
    assert (Hnan : forall z, In z (zscore_table df) -> tracked_deviation t z = F64.nan).
    { intros z Hz. destruct (zscore_table_In df z Hz) as [i Hi].
      rewrite Hi. apply (nth_Forall (fun z => z = F64.nan));
        [now apply abs_zscore_zero_std | reflexivity]. }
    assert (Hother : forall z, tracked_deviation t z = F64.nan ->
              zscore_flag z = true ->
              exists t', t' <> t /\ F64.gtb (tracked_deviation t' z) threshold = true).
    { intros z Hz Hflag. destruct (zscore_flag_tracked z Hflag) as [t' Ht'].
      exists t'. split; [| exact Ht'].
      intros ->. rewrite Hz in Ht'. discriminate. }
    split.
    + rewrite Forall_forall. intros z Hz. specialize (Hnan z Hz).
      rewrite Hnan. repeat split. now apply Hother.
    + intros preds scores with_temporal d Hd.
      destruct (add_verdicts_zscores_In _ _ _ _ _ Hd) as [Hflag [Hin | Hall]].
      * split; [now apply Hnan |]. rewrite Hflag. apply Hother. now apply Hnan.
      * split; [apply Hall |]. rewrite Hflag. apply Hother, Hall.
  - intros col Hs.
    pose proof (step4_zero_std_scores col Hs) as Hz.
    split; [exact Hz |]. split.
    + unfold Step4.anomaly_flags. rewrite Hz, map_map. apply map_ext. intros x.
      destruct (F64.is_nonzero (F64.sub x (Step4.pd_mean col))); reflexivity.
    + rewrite Hz, Forall_forall. intros z Hin. apply in_map_iff in Hin.
      destruct Hin as [x [<- _]].
      destruct (F64.is_nonzero (F64.sub x (Step4.pd_mean col))); reflexivity.
Qed.

Lemma zero_std_witness :
  F64.is_zero
    (np_std (map (tracked_feature TBio)
                 (feature_matrix enrolment_same_rate biometric_same_rate
                                 demographic_same_rate))) = true
  /\ F64.is_zero (Step4.pd_std (map F64.of_Z [30; 30; 30])) = true
  /\ (forall preds scores with_temporal d,
        In d (add_verdicts preds scores with_temporal
                (feature_matrix enrolment_same_rate biometric_same_rate
                                demographic_same_rate)) ->
        tracked_deviation TBio (zscores d) = F64.nan
        /\ (zscore_anomaly d = true ->
            exists t', t' <> TBio
                       /\ F64.gtb (tracked_deviation t' (zscores d)) threshold = true))
  /\ Forall (fun z => F64.is_zero z = false)
            (Step4.z_scores (map F64.of_Z [30; 30; 30])).
Proof.
  assert (H9 : F64.is_zero
                 (np_std (map (tracked_feature TBio)
                              (feature_matrix enrolment_same_rate biometric_same_rate
                                              demographic_same_rate))) = true)
    by (vm_compute; reflexivity).
  assert (H4 : F64.is_zero (Step4.pd_std (map F64.of_Z [30; 30; 30])) = true)
    by (vm_compute; reflexivity).
  split; [exact H9 |]. split; [exact H4 |]. split.
  - exact (proj2 (proj1 zero_std_feature_has_no_zero_deviation TBio
                    (feature_matrix enrolment_same_rate biometric_same_rate
                                    demographic_same_rate) H9)).
  - exact (proj2 (proj2 (proj2 zero_std_feature_has_no_zero_deviation
                           (map F64.of_Z [30; 30; 30]) H4))).
Defined.

(** C3 as stated fails in both scripts.  In STEP9 both states have a
    biometric update rate of 30, the population standard deviation of
    the column is 0, and the deviation computed for each state is NaN,
    not 0.  In PHASE3_STEP4 the constant column 0.1, 0.1, 0.1 has a mean
    that is not 0.1 and a standard deviation that is not 0, and every
    state gets the score 0.816.... *)
Lemma constant_feature_deviation_is_not_zero :
  let df := feature_matrix enrolment_same_rate biometric_same_rate
                           demographic_same_rate in
  map bio_update_rate df = [F64.of_Z 30; F64.of_Z 30]
  /\ np_std (map bio_update_rate df) = F64.zero
  /\ map bio_rate_zscore (zscore_table df) = [F64.nan; F64.nan]
  /\ ~ Forall (fun z => F64.is_zero (bio_rate_zscore z) = true) (zscore_table df)
  /\ Step4.z_scores [one_tenth; one_tenth; one_tenth]
     = repeat (S754_finite false 7354347395230783 (-53)) 3
  /\ ~ Forall (fun z => F64.is_zero z = true)
              (Step4.z_scores [one_tenth; one_tenth; one_tenth]).
Proof.
  cbn zeta. split; [vm_compute; reflexivity |].
  split; [vm_compute; reflexivity |].
  split; [vm_compute; reflexivity |].
  split.
  - intros H. rewrite Forall_forall in H.
    assert (Hin : exists z, In z (zscore_table
                    (feature_matrix enrolment_same_rate biometric_same_rate
                                    demographic_same_rate))
                  /\ bio_rate_zscore z = F64.nan).
    { eexists. split; [vm_compute; left; reflexivity | reflexivity]. }
    destruct Hin as [z [Hz Hn]]. specialize (H z Hz). rewrite Hn in H. discriminate.
  - assert (E : Step4.z_scores [one_tenth; one_tenth; one_tenth]
                = repeat (S754_finite false 7354347395230783 (-53)) 3)
      by (vm_compute; reflexivity).
    split; [exact E |].
    rewrite E. intros H. inversion H as [| ? ? H0 _]. discriminate H0.
Qed.

Example step4_constant_column :
  Step4.pd_std (map F64.of_Z [30; 30; 30]) = F64.zero
  /\ Step4.z_scores (map F64.of_Z [30; 30; 30]) = [F64.nan; F64.nan; F64.nan]
  /\ Step4.anomaly_flags (map F64.of_Z [30; 30; 30]) = [false; false; false].
Proof. repeat split; vm_compute; reflexivity. Qed.

(** A constant column need not have a computed standard deviation of 0.
    The mean of 37 cells 91.41176066504367, added pairwise, is two
    units in the last place off; the standard deviation is 2^-45, above
    [|eps * mean|], and [stats.zscore] gives every region the score 1. *)
Example constant_column_with_rounded_mean :
  np_mean (repeat rate_91 37) = S754_finite false 6432530801068309 (-46)
  /\ F64.is_zero (np_std (repeat rate_91 37)) = false
  /\ abs_zscore (repeat rate_91 37) = repeat (F64.of_Z 1) 37.
Proof. repeat split; vm_compute; reflexivity. Qed.

(** ** The master table and its projections *)

Lemma map_snd_combine_seq {A} (l : list A) (a : nat) :
  map snd (combine (seq a (List.length l)) l) = l.
Proof.
  revert a. induction l as [| x l IH]; intros a; [reflexivity |].
  simpl. now rewrite IH.
Qed.

Lemma add_verdicts_feat preds scores with_temporal df :
  map feat (add_verdicts preds scores with_temporal df) = df.
Proof.
  unfold add_verdicts. rewrite map_map. cbn [feat].
  apply map_snd_combine_seq.
Qed.

Section PipelineFacts.
Variable RandomState : Type.
Variable seed_state : Z -> RandomState.
Variable Forest : Type.
Variable forest_fit : RandomState -> float -> Z -> list (list float) -> Forest.
Variable forest_predict : Forest -> list (list float) -> list Z.
Variable forest_score_samples : Forest -> list (list float) -> list float.
Variable fit_transform : list (list float) -> list (list float).
Variable global : RandomState.
Variable enrolment : list EnrolmentRec.
Variable biometric : list BiometricRec.
Variable demographic : list DemographicRec.

(** The master table has one row per region of the feature matrix, in
    the same order. *)
Lemma complete_covers_every_region :
  map (fun o => feat (det (cons o)))
      (complete (run RandomState seed_state Forest forest_fit forest_predict
                 forest_score_samples fit_transform global
                 enrolment biometric demographic))
  = feature_matrix enrolment biometric demographic.
Proof.
  unfold run, run_with. cbn [complete].
  unfold add_characterization, add_consensus. rewrite !map_map. cbn [cons det].
  rewrite <- (map_map feat (fun d => d)), map_id.
  apply add_verdicts_feat.
Qed.

(** The high-priority file is the projection of the master table on the
    rows with [consensus_anomaly]. *)
Lemma consensus_is_projection_of_master :
  consensus_high_priority
    (run RandomState seed_state Forest forest_fit forest_predict
                 forest_score_samples fit_transform global
                 enrolment biometric demographic)
  = consensus_anomalies
      (map cons
         (complete (run RandomState seed_state Forest forest_fit forest_predict
                 forest_score_samples fit_transform global
                 enrolment biometric demographic))).
Proof.
  unfold run, run_with. cbn [complete consensus_high_priority].
  unfold add_characterization. rewrite map_map. cbn [cons]. now rewrite map_id.
Qed.
End PipelineFacts.

(** ** Reproducibility *)

(** With a seed the generator of the process is not consulted. *)
Lemma check_random_state_seeded {RandomState : Type}
    (seed_state : Z -> RandomState) (seed : Z) (g1 g2 : RandomState) :
  check_random_state RandomState seed_state (Some seed) g1
  = check_random_state RandomState seed_state (Some seed) g2.
Proof. reflexivity. Qed.

(** C5.  Two runs on the same three tables give the same results
    whatever state the generator of the process is in: the forest draws
    from a generator seeded with 42 at each fit.  Hence the density
    flags and scores, the agreement counts and the consensus subset of
    the two runs coincide. *)
Theorem consensus_output_is_reproducible
    (RandomState : Type) (seed_state : Z -> RandomState) (Forest : Type)
    (forest_fit : RandomState -> float -> Z -> list (list float) -> Forest)
    (forest_predict : Forest -> list (list float) -> list Z)
    (forest_score_samples : Forest -> list (list float) -> list float)
    (fit_transform : list (list float) -> list (list float))
    (global1 global2 : RandomState)
    (enrolment : list EnrolmentRec) (biometric : list BiometricRec)
    (demographic : list DemographicRec) :
  let run1 := run RandomState seed_state Forest forest_fit forest_predict
                  forest_score_samples fit_transform global1
                  enrolment biometric demographic in
  let run2 := run RandomState seed_state Forest forest_fit forest_predict
                  forest_score_samples fit_transform global2
                  enrolment biometric demographic in
  run1 = run2
  /\ map (fun o => (iso_forest_anomaly (det (cons o)), iso_forest_score (det (cons o))))
         (complete run1)
     = map (fun o => (iso_forest_anomaly (det (cons o)), iso_forest_score (det (cons o))))
           (complete run2)
  /\ map (fun o => anomaly_count (cons o)) (complete run1)
     = map (fun o => anomaly_count (cons o)) (complete run2)
  /\ consensus_high_priority run1 = consensus_high_priority run2.
Proof.
  cbn zeta. unfold run, run_with, isolation_forest.
  rewrite (check_random_state_seeded seed_state 42 global1 global2).
  repeat split.
Qed.

(** Without the seed the same script would not be reproducible: with
    [random_state=None] the stand-in forest flags the regions in one
    state of the process generator and none of them in another. *)
Lemma unseeded_run_depends_on_generator :
  run_with Z (fun seed => seed) Z toy_fit toy_predict toy_score_samples no_scaling
           None 1 enrolment_kerala biometric_kerala demographic_goa
  <> run_with Z (fun seed => seed) Z toy_fit toy_predict toy_score_samples no_scaling
              None 2 enrolment_kerala biometric_kerala demographic_goa.
Proof.
  intros H. apply (f_equal (fun r => List.length (isolation_forest_anomalies r))) in H.
  vm_compute in H. discriminate.
Qed.

(** ** Ranking by deviation *)

Lemma Sorted_firstn {A} (R : A -> A -> Prop) (n : nat) (l : list A) :
  Sorted R l -> Sorted R (firstn n l).
Proof.
  revert l. induction n as [| n IH]; intros l Hs; [constructor |].
  destruct l as [| x l]; [constructor |].
  inversion Hs as [| ? ? Hl Hhd]; subst. simpl.
  constructor; [now apply IH |].
  destruct l as [| y l]; [destruct n; constructor |].
  destruct n; simpl; constructor. now inversion Hhd.
Qed.

Lemma Sorted_app_any {A} (R : A -> A -> Prop) (l1 l2 : list A) :
  Sorted R l1 -> Forall (fun b => forall a, R a b) l2 -> Sorted R (l1 ++ l2).
Proof.
  intros H1 H2.
  assert (Hs2 : Sorted R l2).
  { induction H2 as [| y l2 Hy Hl2 IH]; constructor; [assumption |].
    destruct Hl2; constructor. auto. }
  induction H1 as [| x l1 Hl1 IH Hhd]; simpl; [assumption |].
  constructor; [assumption |].
  destruct l1 as [| z l1]; simpl.
  - destruct H2; constructor. auto.
  - constructor. now inversion Hhd.
Qed.

Lemma Sorted_impl {A} (R R' : A -> A -> Prop) (l : list A) :
  (forall a b, R a b -> R' a b) -> Sorted R l -> Sorted R' l.
Proof.
  intros Himp. induction 1 as [| x l Hl IH Hhd]; constructor; [assumption |].
  destruct Hhd; constructor. auto.
Qed.

Lemma filter_split_perm {A} (f : A -> bool) (l : list A) :
  Permutation (filter (fun x => negb (f x)) l ++ filter f l) l.
Proof.
  induction l as [| x l IH]; simpl; [constructor |].
  destruct (f x); simpl.
  - rewrite <- Permutation_middle. now constructor.
  - now constructor.
Qed.

Section NLargest.
Context {A : Type}.
Variable key : A -> float.

Lemma nlargest_length n df : (List.length (nlargest n key df) <= n)%nat.
Proof. unfold nlargest. apply firstn_le_length. Qed.

Lemma nlargest_perm n df :
  exists others, Permutation (nlargest n key df ++ others) df.
Proof.
  unfold nlargest.
  set (present := filter (fun r => negb (F64.is_nan (key r))) df).
  set (missing := filter (fun r => F64.is_nan (key r)) df).
  exists (skipn n (sort_values (fun a b => F64.leb (key b) (key a)) present ++ missing)).
  rewrite firstn_skipn.
  rewrite <- (sort_values_perm (fun a b => F64.leb (key b) (key a)) present).
  apply filter_split_perm.
Qed.

Lemma nlargest_sorted n df : Sorted (ranked_by key) (nlargest n key df).
Proof.
  unfold nlargest. apply Sorted_firstn, Sorted_app_any.
  - apply Sorted_impl with (R := fun a b => F64.leb (key b) (key a) = true).
    + intros a b H. now right.
    + apply sort_values_Sorted with (P := fun r => F64.is_nan (key r) = false).
      * intros a b Ha Hb H. now apply leb_total.
      * rewrite Forall_forall. intros r Hr. apply filter_In in Hr.
        destruct Hr as [_ Hr]. now apply negb_true_iff in Hr.
  - rewrite Forall_forall. intros b Hb a. apply filter_In in Hb. left. tauto.
Qed.
End NLargest.

Lemma nth_error_combine_seq {A} (l : list A) (a i j : nat) (x : A) :
  nth_error (combine (seq a (List.length l)) l) i = Some (j, x) ->
  j = (a + i)%nat /\ nth_error l i = Some x.
Proof.
  revert a i. induction l as [| y l IH]; intros a i; simpl.
  - destruct i; discriminate.
  - destruct i as [| i]; simpl.
    + intros H. inversion H. split; [lia | reflexivity].
    + intros H. destruct (IH _ _ H) as [-> Hx]. split; [lia | exact Hx].
Qed.

Lemma nth_map_seq {B} (g : nat -> B) (n i : nat) (d : B) :
  (i < n)%nat -> nth i (map g (seq 0 n)) d = g i.
Proof.
  intros Hi. rewrite (nth_indep _ d (g 0%nat)) by (rewrite length_map, length_seq; exact Hi).
  rewrite map_nth. now rewrite seq_nth.
Qed.

Lemma zscore_flag_existsb (z : ZScores) :
  zscore_flag z = existsb (fun v => F64.gtb v threshold) (zscore_cols z).
Proof.
  unfold zscore_flag, zscore_cols. simpl. rewrite orb_false_r, !orb_assoc. reflexivity.
Qed.

(** The deviations stored for the region in row [i] are those of row
    [i] of the four columns, and the flag says that one of them exceeds
    the threshold. *)
Lemma add_verdicts_zscores preds scores with_temporal df i d :
  nth_error (add_verdicts preds scores with_temporal df) i = Some d ->
  zscore_cols (zscores d)
  = map (fun t => nth i (abs_zscore (map (tracked_feature t) df)) F64.nan)
        [TBio; TDemo; TChild; TEnrol]
  /\ zscore_anomaly d = existsb (fun v => F64.gtb v threshold) (zscore_cols (zscores d)).
Proof.
  unfold add_verdicts. intros H.
  rewrite nth_error_map in H.
  destruct (nth_error (combine (seq 0 (List.length df)) df) i) as [[j r] |] eqn:E;
    [| discriminate].
  simpl in H. inversion H; subst d; clear H. cbn [zscores zscore_anomaly fst snd].
  destruct (nth_error_combine_seq _ _ _ _ _ E) as [-> Hr].
  assert (Hi : (i < List.length df)%nat).
  { apply nth_error_Some. rewrite Hr. discriminate. }
  split; [| apply zscore_flag_existsb].
  unfold zscore_table. rewrite nth_map_seq by exact Hi. reflexivity.
Qed.

(** C8 (amended).  For every region the detector's output holds, next
    to the flag, the absolute deviation of each of the four tracked
    features; the flag is true when one of them exceeds the threshold.
    Their maximum is not stored.  The one ranking by deviation, the
    top-20 table, takes at most 20 regions of the master table and
    orders them by the deviation of the biometric update rate alone,
    largest first, regions without it last. *)
Theorem deviations_are_stored_per_feature
    (preds : list Z) (scores : list float) (with_temporal : list string)
    (df : list FeatureRow) :
  let detected := add_verdicts preds scores with_temporal df in
  let ranked := top_20_zscore (add_consensus detected) in
  (forall i d, nth_error detected i = Some d ->
     zscore_cols (zscores d)
     = map (fun t => nth i (abs_zscore (map (tracked_feature t) df)) F64.nan)
           [TBio; TDemo; TChild; TEnrol]
     /\ zscore_anomaly d
        = existsb (fun v => F64.gtb v threshold) (zscore_cols (zscores d)))
  /\ (List.length ranked <= 20)%nat
  /\ (exists others, Permutation (ranked ++ others) (add_consensus detected))
  /\ Sorted (ranked_by bio_deviation) ranked.
Proof.
  cbn zeta. split; [| split; [| split]].
  - intros i d. apply add_verdicts_zscores.
  - apply nlargest_length.
  - apply nlargest_perm.
  - apply (nlargest_sorted bio_deviation).
Qed.

(** C8 as stated fails.  In the three-state sample the top-20 table
    lists Assam first and Bihar last, although Bihar has the larger
    maximum deviation; and none of the four stored columns is the
    maximum: each differs from it at Assam or at Bihar. *)
Lemma ranking_is_not_by_maximum_deviation :
  exists assam delhi bihar,
    top_20_zscore master_rank = [assam; delhi; bihar]
    /\ state_of assam = "assam"%string /\ state_of bihar = "bihar"%string
    /\ F64.ltb (max_deviation (zscores (det assam)))
               (max_deviation (zscores (det bihar))) = true
    /\ bio_rate_zscore (zscores (det bihar)) <> max_deviation (zscores (det bihar))
    /\ demo_rate_zscore (zscores (det bihar)) <> max_deviation (zscores (det bihar))
    /\ child_pct_zscore (zscores (det bihar)) <> max_deviation (zscores (det bihar))
    /\ enrol_zscore (zscores (det assam)) <> max_deviation (zscores (det assam)).
Proof.
  do 3 eexists. split; [vm_compute; reflexivity |].
  vm_compute. repeat split; discriminate.
Qed.

(** ** Display order of the consensus subset *)

Lemma map_sort_values {A B} (f : A -> B) (leb : A -> A -> bool)
    (leb' : B -> B -> bool) (l : list A) :
  (forall a b, leb' (f a) (f b) = leb a b) ->
  map f (sort_values leb l) = sort_values leb' (map f l).
Proof.
  intros H. unfold sort_values.
  induction l as [| x l IH]; [reflexivity |].
  cbn [fold_right map]. rewrite <- IH.
  generalize (fold_right (sort_insert leb) [] l). intros s.
  induction s as [| y s IHs]; [reflexivity |].
  simpl. rewrite H. destruct (leb x y); simpl; [reflexivity | now rewrite IHs].
Qed.

Lemma map_filter_commute {A B} (f : A -> B) (g : A -> bool) (g' : B -> bool)
    (l : list A) :
  (forall a, g' (f a) = g a) -> map f (filter g l) = filter g' (map f l).
Proof.
  intros H. induction l as [| x l IH]; [reflexivity |].
  simpl. rewrite H. destruct (g x); simpl; now rewrite IH.
Qed.

(** STEP9 prints the consensus subset in the order of the master table. *)
Lemma consensus_display_order (df : list DetectedRow) :
  consensus_display (add_consensus df)
  = map (fun d => (state (base (feat d)), count_anomalies d, techniques d))
        (filter (fun d => 2 <=? count_anomalies d) df).
Proof.
  unfold consensus_display, consensus_anomalies, add_consensus.
  rewrite <- (map_filter_commute consensus_row (fun d => 2 <=? count_anomalies d)
                consensus_anomaly df) by reflexivity.
  rewrite map_map. reflexivity.
Qed.

Lemma consensus_display_ignores_score (df : list DetectedRow) :
  consensus_display (add_consensus (map erase_score df))
  = consensus_display (add_consensus df).
Proof.
  rewrite !consensus_display_order.
  rewrite <- (map_filter_commute erase_score (fun d => 2 <=? count_anomalies d)
                (fun d => 2 <=? count_anomalies d) df) by reflexivity.
  rewrite map_map. reflexivity.
Qed.

Lemma step4_sorted_ignores_score (df : list Step4.MethodRow) :
  map step4_erase_score (Step4.consensus_sorted df)
  = Step4.consensus_sorted (map step4_erase_score df).
Proof.
  unfold Step4.consensus_sorted, Step4.consensus_anomalies.
  rewrite (map_sort_values step4_erase_score _
             (fun a b => Step4.anomaly_method_count b <=? Step4.anomaly_method_count a))
    by reflexivity.
  rewrite (map_filter_commute step4_erase_score Step4.consensus_anomaly
             Step4.consensus_anomaly) by reflexivity.
  reflexivity.
Qed.

(** C9 (amended).  STEP9 lists the consensus-flagged regions in the
    order of the master table, without ranking them.  PHASE3_STEP4 lists
    them by descending agreement count and by nothing else.  In neither
    script does the density score influence the order: frames that
    differ in the scores only are listed in the same order. *)
Theorem consensus_display_is_not_ranked_by_score :
  (forall df : list DetectedRow,
     map (fun e => fst (fst e)) (consensus_display (add_consensus df))
     = map (fun d => state (base (feat d)))
           (filter (fun d => 2 <=? count_anomalies d) df))
  /\ (forall df df' : list DetectedRow,
        map erase_score df = map erase_score df' ->
        consensus_display (add_consensus df) = consensus_display (add_consensus df'))
  /\ (forall df : list Step4.MethodRow,
        Permutation (Step4.consensus_sorted df) (Step4.consensus_anomalies df)
        /\ Sorted (fun a b => Step4.anomaly_method_count b
                              <= Step4.anomaly_method_count a)
                  (Step4.consensus_sorted df))
  /\ (forall df df' : list Step4.MethodRow,
        map step4_erase_score df = map step4_erase_score df' ->
        map Step4.m_state (Step4.consensus_sorted df)
        = map Step4.m_state (Step4.consensus_sorted df')).
Proof.
  split; [| split; [| split]].
  - intros df. rewrite consensus_display_order, map_map. reflexivity.
  - intros df df' H.
    rewrite <- (consensus_display_ignores_score df),
            <- (consensus_display_ignores_score df'), H. reflexivity.
  - intros df. split.
    + symmetry. apply sort_values_perm.
    + unfold Step4.consensus_sorted.
      eapply Sorted_impl;
        [| apply sort_values_Sorted with (P := fun _ => True)].
      * intros a b H. now apply Z.leb_le.
      * intros a b _ _ H. apply Z.leb_gt in H. apply Z.leb_le. lia.
      * rewrite Forall_forall. auto.
  - intros df df' H.
    assert (E : forall l, map Step4.m_state l
                          = map Step4.m_state (map step4_erase_score l)).
    { intros l. rewrite map_map. reflexivity. }
    rewrite (E (Step4.consensus_sorted df)), (E (Step4.consensus_sorted df')).
    rewrite !step4_sorted_ignores_score, H. reflexivity.
Qed.

Lemma Sorted_map {A B} (f : A -> B) (R : B -> B -> Prop) (l : list A) :
  Sorted (fun a b => R (f a) (f b)) l -> Sorted R (map f l).
Proof.
  induction 1 as [| x l Hl IH Hhd]; simpl; constructor; [assumption |].
  destruct Hhd; simpl; constructor. assumption.
Qed.

(** The ranking of the specification on (count, score) pairs. *)
Lemma ranked_pairs_not_sorted (c1 c2 : Z) (s1 s2 : float) (rest : list (Z * float)) :
  (c1 < c2 \/ (c1 = c2 /\ F64.leb s1 s2 = false)) ->
  ~ Sorted (fun p q : Z * float =>
              fst q < fst p \/ (fst p = fst q /\ F64.leb (snd p) (snd q) = true))
           ((c1, s1) :: (c2, s2) :: rest).
Proof.
  intros Hc H. inversion H as [| ? ? _ Hhd]; subst.
  inversion Hhd as [| ? ? Hr]; subst. simpl in Hr.
  destruct Hc as [Hc | [Hc Hs]]; destruct Hr as [Hr | [Hr Hs']]; try lia.
  rewrite Hs in Hs'. discriminate.
Qed.

(** C9 as stated fails.  STEP9 prints Assam (2 of 3) before Bihar (3 of
    3), so not even the agreement count orders its list.  PHASE3_STEP4
    lists two frames in the same order Bihar, Assam, Goa although the
    scores of Assam and Goa are exchanged between them, so one of the
    two lists has the less negative score first. *)
Lemma consensus_display_counterexample :
  map (fun e => (fst (fst e), snd (fst e))) (consensus_display master_four)
  = [("assam"%string, 2); ("bihar"%string, 3); ("goa"%string, 2)]
  /\ ~ Sorted ranked_before (consensus_anomalies master_four)
  /\ map Step4.m_state (Step4.consensus_sorted step4_frame)
     = ["bihar"%string; "assam"%string; "goa"%string]
  /\ map Step4.m_state (Step4.consensus_sorted step4_frame_swapped)
     = ["bihar"%string; "assam"%string; "goa"%string]
  /\ ~ (Sorted step4_ranked_before (Step4.consensus_sorted step4_frame)
        /\ Sorted step4_ranked_before (Step4.consensus_sorted step4_frame_swapped)).
Proof.
  split; [vm_compute; reflexivity |].
  split.
  { intros H.
    apply (Sorted_map (fun r => (anomaly_count r, iso_forest_score (det r)))
             (fun p q => fst q < fst p
                         \/ (fst p = fst q /\ F64.leb (snd p) (snd q) = true))) in H.
    assert (E : map (fun r => (anomaly_count r, iso_forest_score (det r)))
                    (consensus_anomalies master_four)
                = [(2, minus_half); (3, minus_three_quarters);
                   (2, minus_three_quarters)])
      by (vm_compute; reflexivity).
    rewrite E in H. revert H. apply ranked_pairs_not_sorted. left. lia. }
  split; [vm_compute; reflexivity |].
  split; [vm_compute; reflexivity |].
  intros [H _].
  apply (Sorted_map (fun r => (Step4.anomaly_method_count r, Step4.iso_score r))
           (fun p q => fst q < fst p
                       \/ (fst p = fst q /\ F64.leb (snd p) (snd q) = true))) in H.
  assert (E : map (fun r => (Step4.anomaly_method_count r, Step4.iso_score r))
                  (Step4.consensus_sorted step4_frame)
              = [(3, minus_three_quarters); (2, minus_half);
                 (2, minus_three_quarters)])
    by (vm_compute; reflexivity).
  rewrite E in H. inversion H as [| ? ? H1 _]; subst.
  revert H1. apply ranked_pairs_not_sorted. right.
  split; [reflexivity | vm_compute; reflexivity].
Qed.

(** ** Characterizer *)







(** * Further properties of the code *)

(** ** More on [groupby] *)

Lemma string_eqb_compare (a b : string) :
  String.eqb a b = true <-> String.compare a b = Eq.
Proof.
  split.
  - intros H. apply String.eqb_eq in H. subst. apply string_compare_refl.
  - intros H. apply String.compare_eq_iff in H. subst. apply String.eqb_refl.
Qed.

Section GroupByKeys.
Context {K V : Type}.
Variable cmp : K -> K -> comparison.
Variable plus : V -> V -> V.
Hypothesis cmp_eq : forall a b, cmp a b = Eq -> a = b.

Lemma group_insert_key_iff k v acc k' :
  In k' (map fst (group_insert cmp plus k v acc))
  <-> k' = k \/ In k' (map fst acc).
Proof.
  induction acc as [| [k0 v0] rest IH]; simpl.
  - intuition.
  - destruct (cmp k k0) eqn:E; simpl.
    + apply cmp_eq in E. subst. intuition.
    + intuition.
    + rewrite IH. intuition.
Qed.

Lemma groupby_sum_key_iff rows k :
  In k (map fst (groupby_sum cmp plus rows)) <-> In k (map fst rows).
Proof.
  unfold groupby_sum.
  assert (H : forall acc,
            In k (map fst (fold_left
                             (fun acc kv => group_insert cmp plus (fst kv) (snd kv) acc)
                             rows acc))
            <-> In k (map fst rows) \/ In k (map fst acc)).
  { induction rows as [| [k0 v0] rows IH]; intros acc; simpl.
    - intuition.
    - rewrite IH, group_insert_key_iff. intuition. }
  rewrite H. simpl. intuition.
Qed.
End GroupByKeys.

Lemma lookup_all_greater {V} (k : string) (l : list (string * V)) :
  Forall (fun y => String.compare k (fst y) = Lt) l -> lookup k l = None.
Proof.
  induction 1 as [| [k0 v0] l Hlt _ IH]; simpl; [reflexivity |].
  destruct (String.eqb k k0) eqn:E; [| exact IH].
  apply String.eqb_eq in E. subst. simpl in Hlt.
  rewrite string_compare_refl in Hlt. discriminate.
Qed.

(** Looking a state up after one more row has been grouped. *)
Lemma lookup_group_insert {V} (plus : V -> V -> V) (s k : string) (v : V) acc :
  StronglySorted (key_lt String.compare) acc ->
  lookup s (group_insert String.compare plus k v acc)
  = if String.eqb s k
    then match lookup s acc with
         | Some old => Some (plus old v)
         | None => Some v
         end
    else lookup s acc.
Proof.
  induction acc as [| [k0 v0] rest IH]; simpl; intros Hs.
  - destruct (String.eqb s k); reflexivity.
  - inversion Hs as [| ? ? Hrest Hall]; subst.
    destruct (String.compare k k0) eqn:E; simpl.
    + apply String.compare_eq_iff in E. subst k0.
      destruct (String.eqb s k); reflexivity.
    + destruct (String.eqb s k) eqn:Esk; [| reflexivity].
      apply String.eqb_eq in Esk. subst s.
      destruct (String.eqb k k0) eqn:Ek.
      * apply String.eqb_eq in Ek. subst. rewrite string_compare_refl in E. discriminate.
      * rewrite lookup_all_greater; [reflexivity |].
        rewrite Forall_forall in *. intros y Hy. specialize (Hall y Hy).
        unfold key_lt in Hall. simpl in Hall.
        eapply string_compare_lt_trans; eassumption.
    + rewrite (IH Hrest). destruct (String.eqb s k) eqn:Esk; [| reflexivity].
      apply String.eqb_eq in Esk. subst s.
      destruct (String.eqb k k0) eqn:Ek; [| reflexivity].
      apply String.eqb_eq in Ek. subst. rewrite string_compare_refl in E. discriminate.
Qed.

(** The value grouped under a state is the running combination of the
    state's cells, in table order. *)
Lemma lookup_groupby_fold {V} (plus : V -> V -> V) (s : string)
    (rows : list (string * V)) : forall acc,
  StronglySorted (key_lt String.compare) acc ->
  lookup s (fold_left (fun acc kv => group_insert String.compare plus (fst kv) (snd kv) acc)
                      rows acc)
  = fold_left (fun o v => match o with Some old => Some (plus old v) | None => Some v end)
              (map snd (filter (fun kv => String.eqb s (fst kv)) rows))
              (lookup s acc).
Proof.
  induction rows as [| [k v] rows IH]; intros acc Hs; [reflexivity |].
  cbn [fold_left filter fst snd].
  rewrite IH by (apply group_insert_sorted;
                 [exact string_compare_lt_trans | exact string_compare_gt_lt | exact Hs]).
  rewrite lookup_group_insert by exact Hs.
  destruct (String.eqb s k); reflexivity.
Qed.

Lemma fold_some {V} (plus : V -> V -> V) (cells : list V) (x : V) :
  fold_left (fun o v => match o with Some old => Some (plus old v) | None => Some v end)
            cells (Some x)
  = Some (fold_left plus cells x).
Proof.
  revert x. induction cells as [| c cells IH]; intros x; [reflexivity |].
  simpl. apply IH.
Qed.

Lemma lookup_groupby_sum64 (s : string) (rows : list (string * Z)) :
  lookup s (groupby_sum String.compare add64 rows)
  = sum64 (map snd (filter (fun kv => String.eqb s (fst kv)) rows)).
Proof.
  unfold groupby_sum. rewrite lookup_groupby_fold by constructor.
  cbn [lookup]. destruct (map snd _) as [| x cells]; [reflexivity |].
  cbn [fold_left sum64]. apply fold_some.
Qed.

Lemma wrap64_id (z : Z) : int64 z -> wrap64 z = z.
Proof.
  unfold int64, wrap64. intros H. rewrite Z.mod_small by lia. lia.
Qed.

Lemma wrap64_add_l (a b : Z) : wrap64 (wrap64 a + b) = wrap64 (a + b).
Proof.
  unfold wrap64. f_equal.
  replace ((a + 2 ^ 63) mod 2 ^ 64 - 2 ^ 63 + b + 2 ^ 63)
    with ((a + 2 ^ 63) mod 2 ^ 64 + b) by lia.
  rewrite Zplus_mod_idemp_l. f_equal. lia.
Qed.

Lemma fold_add64 (cells : list Z) (x : Z) :
  wrap64 (fold_left add64 cells x) = wrap64 (x + fold_right Z.add 0 cells).
Proof.
  revert x. induction cells as [| c cells IH]; intros x; simpl.
  - f_equal. lia.
  - rewrite IH. unfold add64. rewrite wrap64_add_l. f_equal. lia.
Qed.

Lemma fold_add64_int64 (cells : list Z) (x : Z) :
  int64 x -> int64 (fold_left add64 cells x).
Proof.
  revert x. induction cells as [| c cells IH]; intros x Hx; simpl; [exact Hx |].
  apply IH. apply wrap64_range.
Qed.

Lemma sum64_state_total (cells : list Z) :
  Forall int64 cells -> sum64 cells = state_total cells.
Proof.
  destruct cells as [| x rest]; [reflexivity |].
  intros H. inversion H as [| ? ? Hx Hrest]; subst.
  cbn [sum64 state_total]. f_equal.
  rewrite <- (wrap64_id (fold_left add64 rest x)) by (now apply fold_add64_int64).
  rewrite fold_add64. reflexivity.
Qed.

(** A column of a grouped record is the grouped column. *)
Lemma fold_left_project {V} (plus : V -> V -> V) (f : V -> Z) (cells : list V) (x : V) :
  (forall a b, f (plus a b) = add64 (f a) (f b)) ->
  f (fold_left plus cells x) = fold_left add64 (map f cells) (f x).
Proof.
  intros H. revert x. induction cells as [| c cells IH]; intros x; [reflexivity |].
  simpl. rewrite IH, H. reflexivity.
Qed.

Lemma lookup_groupby_project {V} (plus : V -> V -> V) (f : V -> Z)
    (s : string) (rows : list (string * V)) :
  (forall a b, f (plus a b) = add64 (f a) (f b)) ->
  option_map f (lookup s (groupby_sum String.compare plus rows))
  = sum64 (map f (map snd (filter (fun kv => String.eqb s (fst kv)) rows))).
Proof.
  intros H. unfold groupby_sum. rewrite lookup_groupby_fold by constructor.
  cbn [lookup]. destruct (map snd _) as [| x cells]; [reflexivity |].
  cbn [fold_left map sum64]. rewrite fold_some. cbn [option_map].
  f_equal. now apply fold_left_project.
Qed.

Lemma filter_map_key {A} (key : A -> string) (val : A -> Z) (s : string) (l : list A) :
  map snd (filter (fun kv : string * Z => String.eqb s (fst kv))
                  (map (fun r => (key r, val r)) l))
  = map val (filter (fun r => String.eqb s (key r)) l).
Proof.
  induction l as [| x l IH]; [reflexivity |].
  simpl. destruct (String.eqb s (key x)); simpl; now rewrite IH.
Qed.

Lemma filter_map_key_rec {A V} (key : A -> string) (val : A -> V) (f : V -> Z)
    (s : string) (l : list A) :
  map f (map snd (filter (fun kv : string * V => String.eqb s (fst kv))
                         (map (fun r => (key r, val r)) l)))
  = map (fun r => f (val r)) (filter (fun r => String.eqb s (key r)) l).
Proof.
  induction l as [| x l IH]; [reflexivity |].
  simpl. destruct (String.eqb s (key x)); simpl; now rewrite IH.
Qed.

Lemma Forall_map_filter {A} (P : Z -> Prop) (f : A -> Z) (g : A -> bool) (l : list A) :
  Forall (fun r => P (f r)) l -> Forall P (map f (filter g l)).
Proof.
  intros H. rewrite Forall_forall in *. intros z Hz.
  apply in_map_iff in Hz. destruct Hz as [r [<- Hr]].
  apply filter_In in Hr. apply H. tauto.
Qed.

(** X1.  [groupby('state').agg('sum')]: the total kept for a state is
    the sum of the state's rows reduced to int64, and a state without a
    row in a table has no entry in that table's aggregate. *)
Theorem totals_are_int64_sums
    (enrolment : list EnrolmentRec) (biometric : list BiometricRec)
    (demographic : list DemographicRec) (s : string) :
  Forall (fun r => int64 (enr_total_enrolments r)) enrolment ->
  Forall (fun r => int64 (bio_total_bio_updates r)) biometric ->
  Forall (fun r => int64 (demo_total_demo_updates r)) demographic ->
  option_map sum_total_enrolments (lookup s (enrol_features enrolment))
  = state_total (enrol_cells s enrolment)
  /\ option_map sum_total_bio_updates (lookup s (bio_features biometric))
     = state_total (bio_cells s biometric)
  /\ lookup s (demo_features demographic) = state_total (demo_cells s demographic).
Proof.
  intros He Hb Hd. split; [| split].
  - unfold enrol_features.
    rewrite (lookup_groupby_project enrol_plus sum_total_enrolments) by reflexivity.
    rewrite (filter_map_key_rec enr_state _ sum_total_enrolments). cbn [sum_total_enrolments].
    apply sum64_state_total. now apply Forall_map_filter.
  - unfold bio_features.
    rewrite (lookup_groupby_project bio_plus sum_total_bio_updates) by reflexivity.
    rewrite (filter_map_key_rec bio_state _ sum_total_bio_updates). cbn [sum_total_bio_updates].
    apply sum64_state_total. now apply Forall_map_filter.
  - unfold demo_features. rewrite lookup_groupby_sum64, filter_map_key.
    apply sum64_state_total. now apply Forall_map_filter.
Qed.

Lemma totals_witness :
  Forall (fun r => int64 (enr_total_enrolments r)) enrolment_two_months
  /\ Forall (fun r => int64 (bio_total_bio_updates r)) biometric_kerala
  /\ Forall (fun r => int64 (demo_total_demo_updates r)) demographic_goa
  /\ (option_map sum_total_enrolments (lookup "kerala" (enrol_features enrolment_two_months))
      = state_total (enrol_cells "kerala" enrolment_two_months)
      /\ option_map sum_total_bio_updates (lookup "kerala" (bio_features biometric_kerala))
         = state_total (bio_cells "kerala" biometric_kerala)
      /\ lookup "kerala" (demo_features demographic_goa)
         = state_total (demo_cells "kerala" demographic_goa)).
Proof.
  assert (H1 : Forall (fun r => int64 (enr_total_enrolments r)) enrolment_two_months).
  { repeat constructor; unfold int64; simpl; lia. }
  assert (H2 : Forall (fun r => int64 (bio_total_bio_updates r)) biometric_kerala).
  { repeat constructor; unfold int64; simpl; lia. }
  assert (H3 : Forall (fun r => int64 (demo_total_demo_updates r)) demographic_goa).
  { repeat constructor; unfold int64; simpl; lia. }
  split; [exact H1 |]. split; [exact H2 |]. split; [exact H3 |].
  exact (totals_are_int64_sums enrolment_two_months biometric_kerala demographic_goa
           "kerala" H1 H2 H3).
Defined.

(** ** The outer merge *)

Lemma key_insert_In (k k' : string) (ks : list string) :
  In k' (key_insert k ks) <-> k' = k \/ In k' ks.
Proof.
  induction ks as [| k0 ks IH]; simpl.
  - intuition.
  - destruct (String.compare k k0) eqn:E; simpl.
    + apply String.compare_eq_iff in E. subst. intuition.
    + intuition.
    + rewrite IH. intuition.
Qed.

Lemma key_insert_sorted (k : string) (ks : list string) :
  StronglySorted (fun a b => String.compare a b = Lt) ks ->
  StronglySorted (fun a b => String.compare a b = Lt) (key_insert k ks).
Proof.
  induction ks as [| k0 ks IH]; simpl; intros Hs.
  - repeat constructor.
  - inversion Hs as [| ? ? Hrest Hall]; subst.
    destruct (String.compare k k0) eqn:E.
    + exact Hs.
    + constructor; [exact Hs |]. constructor; [exact E |].
      rewrite Forall_forall in *. intros y Hy.
      eapply string_compare_lt_trans; [exact E | now apply Hall].
    + constructor; [now apply IH |].
      rewrite Forall_forall in *. intros y Hy.
      apply key_insert_In in Hy. destruct Hy as [-> | Hy].
      * now apply string_compare_gt_lt.
      * now apply Hall.
Qed.

Lemma outer_keys_In (l r : list string) (k : string) :
  In k (outer_keys l r) <-> In k l \/ In k r.
Proof.
  unfold outer_keys. rewrite <- in_app_iff.
  assert (H : forall ks acc,
            In k (fold_left (fun acc k => key_insert k acc) ks acc)
            <-> In k ks \/ In k acc).
  { induction ks as [| k0 ks IH]; intros acc; simpl.
    - intuition.
    - rewrite IH, key_insert_In. intuition. }
  rewrite H. simpl. intuition.
Qed.

Lemma outer_keys_sorted (l r : list string) :
  StronglySorted (fun a b => String.compare a b = Lt) (outer_keys l r).
Proof.
  unfold outer_keys.
  assert (H : forall ks acc,
            StronglySorted (fun a b => String.compare a b = Lt) acc ->
            StronglySorted (fun a b => String.compare a b = Lt)
              (fold_left (fun acc k => key_insert k acc) ks acc)).
  { induction ks as [| k0 ks IH]; intros acc Hacc; simpl; [exact Hacc |].
    apply IH. now apply key_insert_sorted. }
  apply H. constructor.
Qed.

Lemma merge_outer_keys {A B} (l : list (string * A)) (r : list (string * B)) :
  map fst (merge_outer l r) = outer_keys (map fst l) (map fst r).
Proof. unfold merge_outer. rewrite map_map. apply map_id. Qed.

Lemma lookup_None {V} (k : string) (l : list (string * V)) :
  lookup k l = None <-> ~ In k (map fst l).
Proof.
  induction l as [| [k0 v0] l IH]; simpl; [tauto |].
  destruct (String.eqb k k0) eqn:E.
  - apply String.eqb_eq in E. subst. split; [discriminate | intros H; exfalso; auto].
  - rewrite IH. apply String.eqb_neq in E. split.
    + intros H [H1 | H1]; [now subst | auto].
    + auto.
Qed.

Lemma lookup_map_keys {V} (g : string -> V) (ks : list string) (k : string) :
  lookup k (map (fun k' => (k', g k')) ks)
  = if mem_string k ks then Some (g k) else None.
Proof.
  induction ks as [| k0 ks IH]; [reflexivity |].
  cbn [map lookup]. unfold mem_string in *. cbn [existsb].
  destruct (String.eqb k k0) eqn:E; [| exact IH].
  apply String.eqb_eq in E. now subst.
Qed.

Lemma merged_features_states (enrolment : list EnrolmentRec)
    (biometric : list BiometricRec) (demographic : list DemographicRec) :
  map state (merged_features enrolment biometric demographic)
  = outer_keys
      (outer_keys (map fst (enrol_features enrolment)) (map fst (bio_features biometric)))
      (map fst (demo_features demographic)).
Proof.
  unfold merged_features. unfold merge_outer at 1. rewrite !map_map.
  cbn [merged_row state]. rewrite map_id.
  f_equal. cbn [fst]. apply merge_outer_keys.
Qed.

(** The cells of a merged row are the aggregates of the row's state. *)
Lemma merged_row_cells (enrolment : list EnrolmentRec)
    (biometric : list BiometricRec) (demographic : list DemographicRec) (r : MergedRow) :
  In r (merged_features enrolment biometric demographic) ->
  r = merged_row
        (state r,
         (Some (state r, (lookup (state r) (enrol_features enrolment),
                          lookup (state r) (bio_features biometric))),
          lookup (state r) (demo_features demographic))).
Proof.
  unfold merged_features. intros H.
  apply in_map_iff in H. destruct H as [[k [eb d]] [Hr Hin]].
  unfold merge_outer at 1 in Hin. apply in_map_iff in Hin.
  destruct Hin as [k' [Heq Hk']]. inversion Heq; subst k' eb d; clear Heq.
  assert (Hs : state r = k) by (subst r; reflexivity).
  rewrite Hs. subst r.
  unfold merge_outer. rewrite map_map. cbn [fst].
  rewrite (lookup_map_keys
             (fun k0 => (k0, (lookup k0 (enrol_features enrolment),
                              lookup k0 (bio_features biometric))))).
  destruct (mem_string k _) eqn:Em; [reflexivity |].
  assert (Hn : ~ In k (outer_keys (map fst (enrol_features enrolment))
                                 (map fst (bio_features biometric)))).
  { intros Hin. apply mem_string_In in Hin. congruence. }
  rewrite outer_keys_In in Hn.
  assert (He : lookup k (enrol_features enrolment) = None) by (apply lookup_None; tauto).
  assert (Hb : lookup k (bio_features biometric) = None) by (apply lookup_None; tauto).
  unfold merged_row. rewrite He, Hb. reflexivity.
Qed.

Lemma int64_sample_tables :
  int64_tables enrolment_two_months biometric_kerala demographic_goa.
Proof. repeat split; repeat constructor; unfold int64; simpl; lia. Qed.

Lemma merged_goa_In :
  In merged_goa (merged_features enrolment_two_months biometric_kerala demographic_goa).
Proof. vm_compute. left. reflexivity. Qed.

Lemma StronglySorted_lt_NoDup (l : list string) :
  StronglySorted (fun a b => String.compare a b = Lt) l -> NoDup l.
Proof.
  induction 1 as [| x l Hl IH Hall]; constructor; [| assumption].
  intros Hin. rewrite Forall_forall in Hall. specialize (Hall x Hin).
  rewrite string_compare_refl in Hall. discriminate.
Qed.

Lemma enrol_features_states (enrolment : list EnrolmentRec) (s : string) :
  In s (map fst (enrol_features enrolment)) <-> In s (map enr_state enrolment).
Proof.
  unfold enrol_features.
  rewrite (groupby_sum_key_iff String.compare enrol_plus String.compare_eq_iff).
  rewrite map_map. reflexivity.
Qed.

Lemma bio_features_states (biometric : list BiometricRec) (s : string) :
  In s (map fst (bio_features biometric)) <-> In s (map bio_state biometric).
Proof.
  unfold bio_features.
  rewrite (groupby_sum_key_iff String.compare bio_plus String.compare_eq_iff).
  rewrite map_map. reflexivity.
Qed.

Lemma demo_features_states (demographic : list DemographicRec) (s : string) :
  In s (map fst (demo_features demographic)) <-> In s (map demo_state demographic).
Proof.
  unfold demo_features.
  rewrite (groupby_sum_key_iff String.compare add64 String.compare_eq_iff).
  rewrite map_map. reflexivity.
Qed.

Lemma feature_matrix_states (enrolment : list EnrolmentRec)
    (biometric : list BiometricRec) (demographic : list DemographicRec) :
  map (fun r => state (base r)) (feature_matrix enrolment biometric demographic)
  = outer_keys (outer_keys (map fst (enrol_features enrolment))
                           (map fst (bio_features biometric)))
               (map fst (demo_features demographic)).
Proof.
  unfold feature_matrix. rewrite map_map. cbn [base derive_features].
  apply merged_features_states.
Qed.

Lemma feature_matrix_states_sorted (enrolment : list EnrolmentRec)
    (biometric : list BiometricRec) (demographic : list DemographicRec) :
  StronglySorted (fun a b => String.compare a b = Lt)
    (map (fun r => state (base r)) (feature_matrix enrolment biometric demographic)).
Proof. rewrite feature_matrix_states. apply outer_keys_sorted. Qed.

(** X2.  The outer merges leave exactly one row for every state that
    occurs in any of the three tables, in alphabetical order. *)
Theorem merged_frame_has_one_row_per_state
    (enrolment : list EnrolmentRec) (biometric : list BiometricRec)
    (demographic : list DemographicRec) :
  let states := map (fun r => state (base r))
                    (feature_matrix enrolment biometric demographic) in
  StronglySorted (fun a b => String.compare a b = Lt) states
  /\ NoDup states
  /\ forall s, In s states <-> In s (table_states enrolment biometric demographic).
Proof.
  cbn zeta.
  split; [apply feature_matrix_states_sorted |].
  split; [apply StronglySorted_lt_NoDup, feature_matrix_states_sorted |].
  intros s. rewrite feature_matrix_states. unfold table_states.
  rewrite !outer_keys_In, !in_app_iff.
  rewrite enrol_features_states, bio_features_states, demo_features_states. tauto.
Qed.

Lemma group_cell_finite {V} (plus : V -> V -> V) (f : V -> Z) (s : string)
    (rows : list (string * V)) :
  (forall a b, f (plus a b) = add64 (f a) (f b)) ->
  Forall (fun kv => int64 (f (snd kv))) rows ->
  F64.is_finite
    (fillna0 (option_map f (lookup s (groupby_sum String.compare plus rows)))) = true.
Proof.
  intros Hplus Hrows. rewrite (lookup_groupby_project plus f s rows Hplus).
  apply fillna0_finite. intros z Hz.
  assert (Hcells : Forall int64
            (map f (map snd (filter (fun kv => String.eqb s (fst kv)) rows)))).
  { rewrite Forall_forall in *. intros c Hc.
    apply in_map_iff in Hc. destruct Hc as [v [<- Hv]].
    apply in_map_iff in Hv. destruct Hv as [kv [<- Hkv]].
    apply filter_In in Hkv. apply Hrows. tauto. }
  destruct (map f _) as [| x cells]; [discriminate |].
  inversion Hcells; subst. cbn [sum64] in Hz. inversion Hz; subst.
  now apply fold_add64_int64.
Qed.

(** Cell by cell: the aggregate of the row's state, or 0 without one. *)
Lemma merged_cells (enrolment : list EnrolmentRec)
    (biometric : list BiometricRec) (demographic : list DemographicRec) (r : MergedRow) :
  In r (merged_features enrolment biometric demographic) ->
  let e := lookup (state r) (enrol_features enrolment) in
  let b := lookup (state r) (bio_features biometric) in
  let d := lookup (state r) (demo_features demographic) in
  count_cells r
  = [fillna0 (option_map sum_age_0_5 e); fillna0 (option_map sum_age_5_17 e);
     fillna0 (option_map sum_age_18_greater e);
     fillna0 (option_map sum_total_enrolments e);
     fillna0 (option_map sum_bio_age_5_17 b); fillna0 (option_map sum_bio_age_17_ b);
     fillna0 (option_map sum_total_bio_updates b); fillna0 d].
Proof.
  intros Hr. cbn zeta. rewrite (merged_row_cells _ _ _ _ Hr) at 1.
  unfold count_cells, merged_row.
  cbn [age_0_5 age_5_17 age_18_greater total_enrolments bio_age_5_17 bio_age_17_
       total_bio_updates total_demo_updates].
  destruct (lookup (state r) (enrol_features enrolment));
    destruct (lookup (state r) (bio_features biometric)); reflexivity.
Qed.

Lemma enrol_cell_finite (enrolment : list EnrolmentRec) (f : EnrolSums -> Z) (k : string) :
  (forall a b, f (enrol_plus a b) = add64 (f a) (f b)) ->
  (forall r, In r enrolment ->
     int64 (f {| sum_age_0_5 := enr_age_0_5 r;
                 sum_age_5_17 := enr_age_5_17 r;
                 sum_age_18_greater := enr_age_18_greater r;
                 sum_total_enrolments := enr_total_enrolments r |})) ->
  F64.is_finite (fillna0 (option_map f (lookup k (enrol_features enrolment)))) = true.
Proof.
  intros Hf Hin. apply group_cell_finite; [exact Hf |].
  rewrite Forall_forall. intros kv Hkv. apply in_map_iff in Hkv.
  destruct Hkv as [r0 [<- Hr0]]. now apply Hin.
Qed.

Lemma bio_cell_finite (biometric : list BiometricRec) (f : BioSums -> Z) (k : string) :
  (forall a b, f (bio_plus a b) = add64 (f a) (f b)) ->
  (forall r, In r biometric ->
     int64 (f {| sum_bio_age_5_17 := bio_bio_age_5_17 r;
                 sum_bio_age_17_ := bio_bio_age_17_ r;
                 sum_total_bio_updates := bio_total_bio_updates r |})) ->
  F64.is_finite (fillna0 (option_map f (lookup k (bio_features biometric)))) = true.
Proof.
  intros Hf Hin. apply group_cell_finite; [exact Hf |].
  rewrite Forall_forall. intros kv Hkv. apply in_map_iff in Hkv.
  destruct Hkv as [r0 [<- Hr0]]. now apply Hin.
Qed.

Lemma demo_cell_finite (demographic : list DemographicRec) (k : string) :
  Forall (fun r => int64 (demo_total_demo_updates r)) demographic ->
  F64.is_finite (fillna0 (lookup k (demo_features demographic))) = true.
Proof.
  intros Hd. unfold demo_features. rewrite lookup_groupby_sum64, filter_map_key.
  apply fillna0_finite. intros z Hz.
  pose proof (Forall_map_filter int64 demo_total_demo_updates
                (fun r => String.eqb k (demo_state r)) demographic Hd) as Hcells.
  destruct (map demo_total_demo_updates _) as [| x cells]; [discriminate |].
  inversion Hcells; subst. cbn [sum64] in Hz. inversion Hz; subst.
  now apply fold_add64_int64.
Qed.

Lemma merged_cells_finite (enrolment : list EnrolmentRec)
    (biometric : list BiometricRec) (demographic : list DemographicRec) (r : MergedRow) :
  int64_tables enrolment biometric demographic ->
  In r (merged_features enrolment biometric demographic) ->
  Forall (fun c => F64.is_finite c = true) (count_cells r).
Proof.
  intros [He [Hb Hd]] Hr. rewrite (merged_cells _ _ _ _ Hr).
  rewrite Forall_forall in He, Hb.
  repeat constructor.
  - apply enrol_cell_finite; [reflexivity | intros r0 Hr0; apply (He r0 Hr0)].
  - apply enrol_cell_finite; [reflexivity | intros r0 Hr0; apply (He r0 Hr0)].
  - apply enrol_cell_finite; [reflexivity | intros r0 Hr0; apply (He r0 Hr0)].
  - apply enrol_cell_finite; [reflexivity | intros r0 Hr0; apply (He r0 Hr0)].
  - apply bio_cell_finite; [reflexivity | intros r0 Hr0; apply (Hb r0 Hr0)].
  - apply bio_cell_finite; [reflexivity | intros r0 Hr0; apply (Hb r0 Hr0)].
  - apply bio_cell_finite; [reflexivity | intros r0 Hr0; apply (Hb r0 Hr0)].
  - now apply demo_cell_finite.
Qed.

Lemma int64_tables_totals enrolment biometric demographic :
  int64_tables enrolment biometric demographic ->
  Forall (fun r => int64 (enr_total_enrolments r)) enrolment
  /\ Forall (fun r => int64 (bio_total_bio_updates r)) biometric
  /\ Forall (fun r => int64 (demo_total_demo_updates r)) demographic.
Proof.
  intros [He [Hb Hd]]. split; [| split; [| exact Hd]].
  - rewrite Forall_forall in *. intros r Hr. apply He in Hr. tauto.
  - rewrite Forall_forall in *. intros r Hr. apply Hb in Hr. tauto.
Qed.

(** X3.  Merge and [fillna(0)] together: in the row of a state each
    total is the float of the state's int64 sum in the table concerned,
    and 0 when the state has no row in that table. *)
Theorem merged_totals_are_state_sums
    (enrolment : list EnrolmentRec) (biometric : list BiometricRec)
    (demographic : list DemographicRec) (r : MergedRow) :
  int64_tables enrolment biometric demographic ->
  In r (merged_features enrolment biometric demographic) ->
  total_enrolments r = fillna0 (state_total (enrol_cells (state r) enrolment))
  /\ total_bio_updates r = fillna0 (state_total (bio_cells (state r) biometric))
  /\ total_demo_updates r = fillna0 (state_total (demo_cells (state r) demographic))
  /\ (~ In (state r) (map enr_state enrolment) ->
      age_0_5 r = F64.zero /\ age_5_17 r = F64.zero /\ age_18_greater r = F64.zero
      /\ total_enrolments r = F64.zero)
  /\ (~ In (state r) (map bio_state biometric) ->
      bio_age_5_17 r = F64.zero /\ bio_age_17_ r = F64.zero
      /\ total_bio_updates r = F64.zero)
  /\ (~ In (state r) (map demo_state demographic) -> total_demo_updates r = F64.zero).
Proof.
  intros Hint Hr.
  destruct (int64_tables_totals _ _ _ Hint) as [He [Hb Hd]].
  assert (Te : option_map sum_total_enrolments (lookup (state r) (enrol_features enrolment))
               = state_total (enrol_cells (state r) enrolment)).
  { unfold enrol_features.
    rewrite (lookup_groupby_project enrol_plus sum_total_enrolments) by reflexivity.
    rewrite (filter_map_key_rec enr_state _ sum_total_enrolments).
    cbn [sum_total_enrolments].
    apply sum64_state_total. now apply Forall_map_filter. }
  assert (Tb : option_map sum_total_bio_updates (lookup (state r) (bio_features biometric))
               = state_total (bio_cells (state r) biometric)).
  { unfold bio_features.
    rewrite (lookup_groupby_project bio_plus sum_total_bio_updates) by reflexivity.
    rewrite (filter_map_key_rec bio_state _ sum_total_bio_updates).
    cbn [sum_total_bio_updates].
    apply sum64_state_total. now apply Forall_map_filter. }
  assert (Td : lookup (state r) (demo_features demographic)
               = state_total (demo_cells (state r) demographic)).
  { unfold demo_features. rewrite lookup_groupby_sum64, filter_map_key.
    apply sum64_state_total. now apply Forall_map_filter. }
  pose proof (merged_cells _ _ _ _ Hr) as Hc. cbn zeta in Hc.
  unfold count_cells in Hc. injection Hc as H1 H2 H3 H4 H5 H6 H7 H8.
  split; [now rewrite H4, Te |]. split; [now rewrite H7, Tb |].
  split; [now rewrite H8, Td |].
  rewrite H1, H2, H3, H4, H5, H6, H7, H8.
  split; [| split].
  - intros Hn. rewrite <- enrol_features_states in Hn. apply lookup_None in Hn.
    rewrite Hn. repeat split.
  - intros Hn. rewrite <- bio_features_states in Hn. apply lookup_None in Hn.
    rewrite Hn. repeat split.
  - intros Hn. rewrite <- demo_features_states in Hn. apply lookup_None in Hn.
    rewrite Hn. reflexivity.
Qed.

(** X4.  With int64 counts in the tables every count cell of the merged
    frame is a finite number, no derived feature is infinite, and a
    derived feature is NaN exactly when its numerator and the enrolment
    total are both 0. *)
Theorem features_of_int64_tables
    (enrolment : list EnrolmentRec) (biometric : list BiometricRec)
    (demographic : list DemographicRec) (f : FeatureRow) :
  int64_tables enrolment biometric demographic ->
  In f (feature_matrix enrolment biometric demographic) ->
  Forall (fun c => F64.is_finite c = true) (count_cells (base f))
  /\ Forall (fun x => F64.is_inf x = false) (derived_features f)
  /\ map F64.is_nan (derived_features f)
     = map (fun n => F64.is_zero n && F64.is_zero (total_enrolments (base f)))
           (numerators (base f)).
Proof.
  intros Hint Hf. unfold feature_matrix in Hf. apply in_map_iff in Hf.
  destruct Hf as [r [<- Hr]]. cbn [base derive_features].
  pose proof (merged_cells_finite _ _ _ _ Hint Hr) as Hfin.
  split; [exact Hfin |].
  unfold count_cells in Hfin.
  repeat match goal with
         | H : Forall _ (_ :: _) |- _ => inversion H; subst; clear H
         end.
  unfold derived_features, numerators.
  cbn [bio_update_rate demo_update_rate child_enrol_pct youth_enrol_pct adult_enrol_pct
       derive_features map].
  split.
  - rewrite Forall_forall. intros x Hx. simpl in Hx.
    repeat (destruct Hx as [<- | Hx]; [unfold rate_pct;
      match goal with |- F64.is_inf (replace_inf ?x) = false => destruct x; reflexivity end |]).
    destruct Hx.
  - unfold rate_pct.
    assert (Hnan : forall x, F64.is_nan (replace_inf x) = F64.is_nan x)
      by (intros []; reflexivity).
    rewrite !Hnan, !mul_100_nan, !div_finite_nan by assumption. reflexivity.
Qed.

(** ** More on the Temporal Spike Detector *)

Lemma series_changes_cases prev rows ev :
  In ev (series_changes prev rows) ->
  (exists r rest, rows = r :: rest /\ ev = monthly_row r (pct_change1 prev (snd r)))
  \/ (exists l1 a b l2, rows = l1 ++ a :: b :: l2
                        /\ ev = monthly_row b (pct_change1 (Some (snd a)) (snd b))).
Proof.
  revert prev. induction rows as [| r rows IH]; intros prev; [intros [] |].
  rewrite series_changes_cons. intros [<- | H].
  - left. exists r, rows. split; reflexivity.
  - right. destruct (IH _ H) as [[r' [rest [-> ->]]] | [l1 [a [b [l2 [-> ->]]]]]].
    + exists [], r, r', rest. split; reflexivity.
    + exists (r :: l1), a, b, l2. split; reflexivity.
Qed.

Lemma events_of_state enrolment s ev :
  In ev (temporal_anomalies enrolment) /\ m_state ev = s
  <-> In ev (series_changes None (series s (monthly_enrol enrolment)))
      /\ m_temporal_anomaly ev = true.
Proof.
  unfold temporal_anomalies. rewrite filter_In.
  change None with (@lookup Z s []).
  rewrite <- filter_changes_from, <- monthly_changes_eq, filter_In. split.
  - intros [[Hin Hflag] Hst]. repeat split; try assumption.
    rewrite Hst. apply String.eqb_refl.
  - intros [[Hin Hst] Hflag]. apply String.eqb_eq in Hst. auto.
Qed.

(** X5.  The Temporal Anomaly Events of a region are exactly the
    flagged steps between two consecutive periods of its series: each
    event is the row of the later period, with the change computed from
    the value of the period just before it. *)
Theorem events_are_flagged_consecutive_steps
    (enrolment : list EnrolmentRec) (s : string) (ev : MonthlyRow) :
  In ev (temporal_anomalies enrolment) /\ m_state ev = s
  <-> exists l1 a b l2,
        series s (monthly_enrol enrolment) = l1 ++ a :: b :: l2
        /\ ev = monthly_row b (pct_change1 (Some (snd a)) (snd b))
        /\ F64.gtb (F64.abs (mom_change ev)) spike_threshold = true.
Proof.
  rewrite events_of_state. split.
  - intros [Hin Hflag].
    destruct (series_changes_cases _ _ _ Hin)
      as [[r [rest [_ ->]]] | [l1 [a [b [l2 [Hs ->]]]]]].
    + rewrite first_cell_not_flagged in Hflag. discriminate.
    + exists l1, a, b, l2. repeat split; assumption.
  - intros [l1 [a [b [l2 [Hs [-> Hflag]]]]]]. split; [| exact Hflag].
    rewrite Hs. apply series_changes_mid.
Qed.

Lemma of_Z_nonzero_shape z :
  z <> 0 ->
  exists s, (exists m e, F64.of_Z z = S754_finite s m e) \/ F64.of_Z z = S754_infinity s.
Proof.
  intros Hz. pose proof (of_Z_nonzero z Hz) as H.
  destruct (F64.of_Z z) as [s | s | | s m e]; try discriminate.
  - exists s. now right.
  - exists s. left. now exists m, e.
Qed.

(** A step from a non-zero value to 0 is a change of -100 percent. *)
Lemma drop_to_zero_change (prev : Z) (r : (string * Z) * Z) :
  prev <> 0 -> snd r = 0 ->
  mom_change (monthly_row r (pct_change1 (Some prev) (snd r))) = F64.of_Z (-100)
  /\ m_temporal_anomaly (monthly_row r (pct_change1 (Some prev) (snd r))) = true.
Proof.
  intros Hp Hr. rewrite Hr. cbn [mom_change m_temporal_anomaly monthly_row pct_change1].
  rewrite of_Z_0.
  destruct (of_Z_nonzero_shape prev Hp) as [s [[m [e ->]] | ->]];
    destruct s; split; vm_compute; reflexivity.
Qed.

(** X6.  Whenever a region falls from a non-zero monthly total to 0, the
    later period is a Temporal Anomaly Event with a change of exactly
    -100 percent, and the region is temporally flagged. *)
Theorem drop_to_zero_is_temporal_event
    (enrolment : list EnrolmentRec) (s : string)
    (l1 l2 : list ((string * Z) * Z)) (a b : (string * Z) * Z) :
  series s (monthly_enrol enrolment) = l1 ++ a :: b :: l2 ->
  snd a <> 0 -> snd b = 0 ->
  (exists ev, In ev (temporal_anomalies enrolment)
              /\ m_state ev = s
              /\ year_month ev = snd (fst b)
              /\ mom_change ev = F64.of_Z (-100))
  /\ mem_string s (states_with_temporal enrolment) = true.
Proof.
  intros Hser Ha Hb.
  destruct (drop_to_zero_change (snd a) b Ha Hb) as [Hmom Hflag].
  assert (Hev : In (monthly_row b (pct_change1 (Some (snd a)) (snd b)))
                   (temporal_anomalies enrolment)
                /\ m_state (monthly_row b (pct_change1 (Some (snd a)) (snd b))) = s).
  { apply events_of_state. split; [| exact Hflag].
    rewrite Hser. apply series_changes_mid. }
  destruct Hev as [Hin Hst]. split.
  - eexists. split; [exact Hin |]. split; [exact Hst |]. split; [reflexivity | exact Hmom].
  - apply mem_string_In. unfold states_with_temporal.
    apply unique_In, in_map_iff. eexists. split; [exact Hst | exact Hin].
Qed.

(** X7.  A region whose monthly totals are all 0 is never temporally
    flagged: every step is 0/0, the change is NaN and NaN exceeds no
    threshold. *)
Theorem all_zero_series_is_never_flagged
    (enrolment : list EnrolmentRec) (s : string) :
  (forall r, In r (series s (monthly_enrol enrolment)) -> snd r = 0) ->
  (forall ev, In ev (temporal_anomalies enrolment) -> m_state ev <> s)
  /\ mem_string s (states_with_temporal enrolment) = false.
Proof.
  intros Hzero.
  assert (Hno : forall ev, In ev (temporal_anomalies enrolment) -> m_state ev <> s).
  { intros ev Hin Hst.
    destruct (proj1 (events_of_state enrolment s ev) (conj Hin Hst)) as [Hch Hflag].
    destruct (series_changes_cases _ _ _ Hch)
      as [[r [rest [_ Hev]]] | [l1 [a [b [l2 [Hs Hev]]]]]]; subst ev.
    { rewrite first_cell_not_flagged in Hflag. discriminate. }
    assert (Ha : snd a = 0).
    { apply Hzero. rewrite Hs. apply in_or_app. right. now left. }
    assert (Hb : snd b = 0).
    { apply Hzero. rewrite Hs. apply in_or_app. right. right. now left. }
    rewrite Ha, Hb in Hflag. vm_compute in Hflag. discriminate. }
  split; [exact Hno |].
  destruct (mem_string s (states_with_temporal enrolment)) eqn:E; [| reflexivity].
  apply mem_string_In in E. unfold states_with_temporal in E.
  apply unique_In, in_map_iff in E. destruct E as [ev [Hst Hin]].
  exfalso. exact (Hno ev Hin Hst).
Qed.

Lemma merged_totals_witness :
  int64_tables enrolment_two_months biometric_kerala demographic_goa
  /\ In merged_goa (merged_features enrolment_two_months biometric_kerala demographic_goa)
  /\ total_enrolments merged_goa
     = fillna0 (state_total (enrol_cells (state merged_goa) enrolment_two_months))
  /\ total_bio_updates merged_goa = F64.zero.
Proof.
  split; [exact int64_sample_tables |]. split; [exact merged_goa_In |].
  pose proof (merged_totals_are_state_sums enrolment_two_months biometric_kerala
                demographic_goa merged_goa int64_sample_tables merged_goa_In) as H.
  split; [exact (proj1 H) | reflexivity].
Defined.

Lemma features_witness :
  int64_tables enrolment_two_months biometric_kerala demographic_goa
  /\ In (derive_features merged_goa)
        (feature_matrix enrolment_two_months biometric_kerala demographic_goa)
  /\ Forall (fun x => F64.is_inf x = false) (derived_features (derive_features merged_goa)).
Proof.
  assert (Hin : In (derive_features merged_goa)
                   (feature_matrix enrolment_two_months biometric_kerala demographic_goa)).
  { unfold feature_matrix. apply in_map. exact merged_goa_In. }
  split; [exact int64_sample_tables |]. split; [exact Hin |].
  exact (proj1 (proj2 (features_of_int64_tables enrolment_two_months biometric_kerala
                         demographic_goa (derive_features merged_goa)
                         int64_sample_tables Hin))).
Defined.

Lemma drop_to_zero_witness :
  series "goa" (monthly_enrol enrolment_drop)
  = [] ++ ("goa"%string, to_period_M march, 6) :: ("goa"%string, to_period_M april, 0) :: []
  /\ mem_string "goa" (states_with_temporal enrolment_drop) = true.
Proof.
  assert (Hs : series "goa" (monthly_enrol enrolment_drop)
               = [] ++ ("goa"%string, to_period_M march, 6) :: ("goa"%string, to_period_M april, 0) :: [])
    by (vm_compute; reflexivity).
  split; [exact Hs |].
  refine (proj2 (drop_to_zero_is_temporal_event enrolment_drop "goa" [] []
                   ("goa"%string, to_period_M march, 6) ("goa"%string, to_period_M april, 0) Hs _ _)).
  - cbn. lia.
  - reflexivity.
Defined.

Lemma all_zero_series_witness :
  (forall r, In r (series "goa" (monthly_enrol enrolment_idle)) -> snd r = 0)
  /\ mem_string "goa" (states_with_temporal enrolment_idle) = false.
Proof.
  assert (Hz : forall r, In r (series "goa" (monthly_enrol enrolment_idle)) -> snd r = 0).
  { intros r Hr. vm_compute in Hr.
    destruct Hr as [<- | [<- | []]]; reflexivity. }
  split; [exact Hz |].
  exact (proj2 (all_zero_series_is_never_flagged enrolment_idle "goa" Hz)).
Defined.

(** ** The order of floats *)

Lemma SFcompare_refl (x : float) :
  F64.is_nan x = false -> SFcompare x x = Some Eq.
Proof.
  destruct x as [s | s | | s m e]; simpl; try discriminate; intros _;
    try (destruct s; reflexivity).
  destruct s; rewrite Z.compare_refl, Pos.compare_cont_refl; reflexivity.
Qed.

Lemma ltb_irrefl (x : float) : F64.ltb x x = false.
Proof.
  unfold F64.ltb, SFltb. destruct (F64.is_nan x) eqn:E.
  - destruct x; try discriminate. reflexivity.
  - now rewrite SFcompare_refl.
Qed.

Lemma finite_compare_lt_trans (e1 e2 e3 : Z) (m1 m2 m3 : positive) :
  match e1 ?= e2 with Lt => Lt | Gt => Gt | Eq => Pos.compare_cont Eq m1 m2 end = Lt ->
  match e2 ?= e3 with Lt => Lt | Gt => Gt | Eq => Pos.compare_cont Eq m2 m3 end = Lt ->
  match e1 ?= e3 with Lt => Lt | Gt => Gt | Eq => Pos.compare_cont Eq m1 m3 end = Lt.
Proof.
  change (Pos.compare_cont Eq m1 m2) with (Pos.compare m1 m2).
  change (Pos.compare_cont Eq m2 m3) with (Pos.compare m2 m3).
  change (Pos.compare_cont Eq m1 m3) with (Pos.compare m1 m3).
  destruct (Z.compare_spec e1 e2), (Z.compare_spec e2 e3), (Z.compare_spec e1 e3);
    try discriminate; try lia; try reflexivity;
    rewrite ?Pos.compare_lt_iff; intros; lia.
Qed.

Lemma finite_compare_gt_trans (e1 e2 e3 : Z) (m1 m2 m3 : positive) :
  match e1 ?= e2 with
  | Lt => Gt | Gt => Lt | Eq => CompOpp (Pos.compare_cont Eq m1 m2)
  end = Lt ->
  match e2 ?= e3 with
  | Lt => Gt | Gt => Lt | Eq => CompOpp (Pos.compare_cont Eq m2 m3)
  end = Lt ->
  match e1 ?= e3 with
  | Lt => Gt | Gt => Lt | Eq => CompOpp (Pos.compare_cont Eq m1 m3)
  end = Lt.
Proof.
  change (Pos.compare_cont Eq m1 m2) with (Pos.compare m1 m2).
  change (Pos.compare_cont Eq m2 m3) with (Pos.compare m2 m3).
  change (Pos.compare_cont Eq m1 m3) with (Pos.compare m1 m3).
  destruct (Z.compare_spec e1 e2), (Z.compare_spec e2 e3), (Z.compare_spec e1 e3);
    try discriminate; try lia; try reflexivity;
    destruct (Pos.compare_spec m1 m2), (Pos.compare_spec m2 m3),
             (Pos.compare_spec m1 m3);
    simpl; try discriminate; try reflexivity; intros; lia.
Qed.

Lemma ltb_trans (a b c : float) :
  F64.ltb a b = true -> F64.ltb b c = true -> F64.ltb a c = true.
Proof.
  unfold F64.ltb, SFltb.
  destruct a as [sa | sa | | sa ma ea], b as [sb | sb | | sb mb eb],
           c as [sc | sc | | sc mc ec]; simpl;
    repeat match goal with s : bool |- _ => destruct s end; simpl;
    try discriminate; try reflexivity.
  - destruct (match ea ?= eb with
              | Lt => Gt | Gt => Lt | Eq => CompOpp (Pos.compare_cont Eq ma mb)
              end) eqn:E1; try discriminate.
    destruct (match eb ?= ec with
              | Lt => Gt | Gt => Lt | Eq => CompOpp (Pos.compare_cont Eq mb mc)
              end) eqn:E2; try discriminate.
    intros _ _. now rewrite (finite_compare_gt_trans _ _ _ _ _ _ E1 E2).
  - destruct (match ea ?= eb with
              | Lt => Lt | Gt => Gt | Eq => Pos.compare_cont Eq ma mb
              end) eqn:E1; try discriminate.
    destruct (match eb ?= ec with
              | Lt => Lt | Gt => Gt | Eq => Pos.compare_cont Eq mb mc
              end) eqn:E2; try discriminate.
    intros _ _. now rewrite (finite_compare_lt_trans _ _ _ _ _ _ E1 E2).
Qed.

Lemma finite_compare_eq (e1 e2 : Z) (m1 m2 : positive) :
  SFcompare (S754_finite false m1 e1) (S754_finite false m2 e2) = Some Eq ->
  e1 = e2 /\ m1 = m2.
Proof.
  simpl. destruct (Z.compare_spec e1 e2) as [E | E | E]; try discriminate.
  intros H. injection H as H. apply Pos.compare_eq in H. auto.
Qed.

Lemma finite_compare_eq_neg (e1 e2 : Z) (m1 m2 : positive) :
  SFcompare (S754_finite true m1 e1) (S754_finite true m2 e2) = Some Eq ->
  e1 = e2 /\ m1 = m2.
Proof.
  simpl. destruct (Z.compare_spec e1 e2) as [E | E | E]; try discriminate.
  intros H. injection H as H.
  destruct (Pos.compare_cont Eq m1 m2) eqn:Em; try discriminate.
  apply Pos.compare_eq in Em. auto.
Qed.

(** Floats that compare equal compare alike with any third float. *)
Lemma SFcompare_eq_r (a b c : float) :
  SFcompare b c = Some Eq -> SFcompare a c = SFcompare a b.
Proof.
  intros H.
  destruct b as [sb | sb | | sb mb eb], c as [sc | sc | | sc mc ec];
    try (simpl in H; discriminate H);
    try (destruct sb; simpl in H; discriminate H);
    try (destruct sc; simpl in H; discriminate H).
  - destruct a as [sa | sa | | sa ma ea]; try reflexivity; destruct sa; reflexivity.
  - destruct sb, sc; simpl in H; try discriminate H;
      destruct a as [sa | sa | | sa ma ea]; try reflexivity; destruct sa; reflexivity.
  - destruct sb, sc; try (simpl in H; discriminate H).
    + destruct (finite_compare_eq_neg _ _ _ _ H); subst. reflexivity.
    + destruct (finite_compare_eq _ _ _ _ H); subst. reflexivity.
Qed.

Lemma ltb_leb_trans (a b c : float) :
  F64.ltb a b = true -> F64.leb b c = true -> F64.ltb a c = true.
Proof.
  intros Hab Hbc. unfold F64.leb, SFleb in Hbc.
  destruct (SFcompare b c) as [[| |] |] eqn:E; try discriminate.
  - unfold F64.ltb, SFltb in *. now rewrite (SFcompare_eq_r a b c E).
  - apply (ltb_trans a b c Hab). unfold F64.ltb, SFltb. now rewrite E.
Qed.

(** ** NaN cells and the z-score detectors *)

Lemma add_nan_l (y : float) : F64.add F64.nan y = F64.nan.
Proof. reflexivity. Qed.

Lemma add_nan_r (x : float) : F64.add x F64.nan = F64.nan.
Proof. destruct x; reflexivity. Qed.

Lemma fold_add_nan (l : list float) : fold_left F64.add l F64.nan = F64.nan.
Proof. induction l as [| x l IH]; [reflexivity |]. simpl. exact IH. Qed.

Lemma fold_add_In_nan (l : list float) (acc : float) :
  In F64.nan l -> fold_left F64.add l acc = F64.nan.
Proof.
  revert acc. induction l as [| x l IH]; intros acc; [intros [] |].
  intros [-> | H]; simpl.
  - rewrite add_nan_r. apply fold_add_nan.
  - now apply IH.
Qed.

Lemma add_cells_nan (r block : list float) :
  List.length r = List.length block ->
  In F64.nan r \/ In F64.nan block -> In F64.nan (add_cells r block).
Proof.
  unfold add_cells. revert block.
  induction r as [| x r IH]; intros [| y block] Hlen; try discriminate Hlen.
  - intros [[] | []].
  - injection Hlen as Hlen. cbn [combine map fst snd In].
    intros [[-> | H] | [-> | H]].
    + left. reflexivity.
    + right. apply IH; auto.
    + left. apply add_nan_r.
    + right. apply IH; auto.
Qed.

Lemma add_cells_length (r block : list float) :
  List.length r = List.length block -> List.length (add_cells r block) = List.length r.
Proof.
  intros H. unfold add_cells. rewrite length_map, length_combine. lia.
Qed.

Lemma unrolled_nan (k : nat) : forall r a,
  List.length r = 8%nat -> (8 * k <= List.length a)%nat ->
  In F64.nan r \/ In F64.nan a ->
  List.length (fst (unrolled k r a)) = 8%nat
  /\ (In F64.nan (fst (unrolled k r a)) \/ In F64.nan (snd (unrolled k r a))).
Proof.
  induction k as [| k IH]; intros r a Hr Ha Hnan; [cbn; auto |].
  cbn [unrolled].
  assert (H8 : List.length (firstn 8 a) = 8%nat) by (rewrite length_firstn; lia).
  apply IH.
  - rewrite add_cells_length; congruence.
  - rewrite length_skipn. lia.
  - destruct Hnan as [H | H].
    + left. apply add_cells_nan; [congruence | now left].
    + rewrite <- (firstn_skipn 8 a) in H. apply in_app_or in H.
      destruct H as [H | H]; [| now right].
      left. apply add_cells_nan; [congruence | now right].
Qed.

Lemma combine8_nan (r : list float) :
  List.length r = 8%nat -> In F64.nan r -> combine8 r = F64.nan.
Proof.
  intros Hr Hin.
  do 8 (destruct r as [| ? r]; [discriminate Hr |]).
  destruct r; [| discriminate Hr].
  cbn [combine8].
  repeat (destruct Hin as [-> | Hin];
          [repeat (rewrite ?add_nan_l, ?add_nan_r); reflexivity |]).
  destruct Hin.
Qed.

Lemma block_sum_nan (a : list float) :
  (8 <= List.length a)%nat -> In F64.nan a -> block_sum a = F64.nan.
Proof.
  intros Hn Hin. unfold block_sum.
  assert (H8 : List.length (firstn 8 a) = 8%nat) by (rewrite length_firstn; lia).
  assert (Hk : (8 * (List.length a / 8 - 1) <= List.length (skipn 8 a))%nat).
  { rewrite length_skipn. pose proof (Nat.Div0.mul_div_le (List.length a) 8). lia. }
  assert (Hsplit : In F64.nan (firstn 8 a) \/ In F64.nan (skipn 8 a)).
  { rewrite <- (firstn_skipn 8 a) in Hin. now apply in_app_or in Hin. }
  destruct (unrolled_nan _ _ _ H8 Hk Hsplit) as [Hlen Hnan].
  destruct (unrolled (List.length a / 8 - 1) (firstn 8 a) (skipn 8 a)) as [r rest].
  cbn [fst snd] in *. destruct Hnan as [H | H].
  - rewrite (combine8_nan r Hlen H). apply fold_add_nan.
  - now apply fold_add_In_nan.
Qed.

Lemma pairwise_sum_rec_nan (fuel : nat) : forall a,
  In F64.nan a -> pairwise_sum_rec fuel a = F64.nan.
Proof.
  induction fuel as [| fuel IH]; intros a Hin; rewrite pairwise_sum_rec_eq;
    destruct (List.length a <? 8)%nat eqn:E8;
    try (now apply fold_add_In_nan);
    apply Nat.ltb_ge in E8;
    destruct (List.length a <=? 128)%nat; try (now apply block_sum_nan).
  rewrite <- (firstn_skipn (List.length a / 2 - (List.length a / 2) mod 8) a) in Hin.
  apply in_app_or in Hin. destruct Hin as [H | H].
  - rewrite (IH _ H). reflexivity.
  - rewrite (IH _ H). apply add_nan_r.
Qed.

(** The sum of a column with a NaN cell is NaN, in whatever order the
    cells are added. *)
Lemma np_sum_nan (a : list float) : In F64.nan a -> np_sum a = F64.nan.
Proof.
  intros H. unfold np_sum, pairwise_sum. now rewrite pairwise_sum_rec_nan.
Qed.

Lemma stats_zscore_nan (a : list float) :
  In F64.nan a -> Forall (fun z => z = F64.nan) (abs_zscore a).
Proof.
  intros Hnan. unfold abs_zscore, stats_zscore.
  rewrite Forall_forall. intros z Hz. apply in_map_iff in Hz.
  destruct Hz as [y [<- Hy]].
  apply in_map_iff in Hy. destruct Hy as [x [<- _]].
  destruct (F64.leb _ _); [reflexivity |].
  unfold np_mean. rewrite (np_sum_nan a Hnan).
  destruct x; reflexivity.
Qed.

(** X8.  In the z-score step of STEP9 a single NaN cell in a tracked
    column makes the deviation of every region on that feature NaN: no
    region is flagged on that feature. *)
Theorem nan_cell_silences_the_feature (t : Tracked) (df : list FeatureRow) :
  In F64.nan (map (tracked_feature t) df) ->
  forall preds scores with_temporal d,
    In d (add_verdicts preds scores with_temporal df) ->
    tracked_deviation t (zscores d) = F64.nan
    /\ F64.gtb (tracked_deviation t (zscores d)) threshold = false.
Proof.
  intros Hnan preds scores with_temporal d Hd.
  assert (H : tracked_deviation t (zscores d) = F64.nan).
  { destruct (add_verdicts_zscores_In _ _ _ _ _ Hd) as [_ [Hin | Hall]]; [| apply Hall].
    destruct (zscore_table_In df _ Hin) as [i Hi]. rewrite Hi.
    apply (nth_Forall (fun z => z = F64.nan)); [now apply stats_zscore_nan | reflexivity]. }
  rewrite H. split; reflexivity.
Qed.

Lemma dropna_app (l1 l2 : list float) : dropna (l1 ++ l2) = dropna l1 ++ dropna l2.
Proof. unfold dropna. apply filter_app. Qed.

(** ** The sequential sum and cells that are 0 *)

Lemma binary64_above_emin (x : float) : binary64 x -> above_emin x.
Proof.
  destruct x as [| | | s m e]; cbn; trivial.
  unfold binary64, valid_binary, bounded, canonical_mantissa.
  intros H. apply andb_true_iff in H. destruct H as [H _].
  apply Z.eqb_eq in H. unfold fexp, emin, F64.prec, F64.emax in H. lia.
Qed.

Lemma shr_fexp_snd_lb m e l : -1074 <= snd (shr_fexp 53 1024 m e l).
Proof. unfold shr_fexp. rewrite shr_snd. unfold fexp, emin. lia. Qed.

(** Rounding never leaves an exponent below that of the subnormals. *)
Lemma binary_round_aux_above_emin s m e l :
  above_emin (binary_round_aux 53 1024 s m e l).
Proof.
  unfold binary_round_aux.
  destruct (shr_fexp 53 1024 m e l) as [mrs' e'].
  pose proof (shr_fexp_snd_lb
                (round_nearest_even (shr_m mrs') (loc_of_shr_record mrs')) e' loc_Exact)
    as H.
  destruct (shr_fexp 53 1024
              (round_nearest_even (shr_m mrs') (loc_of_shr_record mrs')) e' loc_Exact)
    as [mrs'' e''].
  cbn [snd] in H.
  destruct (shr_m mrs'') as [| q | q]; cbn [above_emin]; trivial.
  destruct (e'' <=? 1024 - 53); cbn [above_emin]; trivial.
Qed.

Lemma binary_round_above_emin s p e : above_emin (binary_round 53 1024 s p e).
Proof.
  unfold binary_round.
  destruct (shl_align p e (fexp 53 1024 (Z.pos (digits2_pos p) + e))) as [mz ez].
  apply binary_round_aux_above_emin.
Qed.

Lemma binary_round_keeps s p e :
  -1074 <= e -> F64.is_nonzero (binary_round 53 1024 s p e) = true.
Proof.
  intros He. unfold binary_round, shl_align.
  pose proof (Pos2Z.is_pos (digits2_pos p)) as Hd.
  destruct (fexp 53 1024 (Z.pos (digits2_pos p) + e) - e) as [| d | d] eqn:Ed;
    cbv beta iota; apply binary_round_aux_nonzero; cbn [Zdigits2];
    unfold shift_pos; rewrite ?digits2_iter_xO; lia.
Qed.

Lemma add_keeps (a x : float) :
  above_emin a -> above_emin x -> a <> negative_zero ->
  above_emin (F64.add a x) /\ F64.add a x <> negative_zero.
Proof.
  unfold negative_zero.
  destruct a as [sa | sa | | sa ma ea], x as [sx | sx | | sx mx ex];
    intros Ha Hx Hn;
    try (destruct sa, sx; cbn; split; trivial; congruence);
    try (destruct sa; cbn; split; trivial; congruence);
    try (destruct sx; cbn; split; trivial; congruence);
    try (cbn; split; trivial; congruence).
  cbn in Ha, Hx. unfold F64.add, SFadd. cbv zeta.
  match goal with
  | |- context [binary_normalize _ _ _ ?e0 _] =>
      assert (He : -1074 <= e0) by (apply Z.min_glb; assumption);
      remember e0 as e eqn:Ee
  end.
  clear Ee.
  match goal with
  | |- context [binary_normalize _ _ ?m0 _ _] => generalize m0
  end.
  intros m. unfold binary_normalize, F64.prec, F64.emax.
  destruct m as [| p | p].
  - split; [exact I | discriminate].
  - split; [apply binary_round_above_emin |].
    pose proof (binary_round_keeps false p e He) as H.
    destruct (binary_round 53 1024 false p e); try discriminate H; discriminate.
  - split; [apply binary_round_above_emin |].
    pose proof (binary_round_keeps true p e He) as H.
    destruct (binary_round 53 1024 true p e); try discriminate H; discriminate.
Qed.

Lemma mul_above_emin (x y : float) : above_emin (F64.mul x y).
Proof.
  destruct x as [sx | sx | | sx mx ex], y as [sy | sy | | sy my ey]; cbn; trivial.
  apply binary_round_aux_above_emin.
Qed.

Lemma fold_add_keeps (l : list float) : forall acc,
  Forall above_emin l -> above_emin acc -> acc <> negative_zero ->
  above_emin (fold_left F64.add l acc) /\ fold_left F64.add l acc <> negative_zero.
Proof.
  induction l as [| x l IH]; intros acc Hl Ha Hn; [auto |].
  inversion Hl as [| ? ? Hx Hl']; subst. cbn [fold_left].
  destruct (add_keeps acc x Ha Hx Hn) as [H1 H2]. now apply IH.
Qed.

Lemma add_zero_id (a : float) : a <> negative_zero -> F64.add a F64.zero = a.
Proof.
  unfold negative_zero. destruct a as [[] | [] | | s m e]; intros H;
    try reflexivity. congruence.
Qed.

(** A cell that is 0 does not change a sequential sum that starts
    from 0. *)
Lemma fold_skip_zero (A B : list float) :
  Forall above_emin A ->
  fold_left F64.add (A ++ F64.zero :: B) F64.zero
  = fold_left F64.add (A ++ B) F64.zero.
Proof.
  intros HA. rewrite !fold_left_app. cbn [fold_left].
  destruct (fold_add_keeps A F64.zero HA I) as [_ Hn]; [discriminate |].
  now rewrite add_zero_id.
Qed.

Lemma np_sum_skip_zero (A B : list float) :
  (List.length (A ++ F64.zero :: B) < 8)%nat -> Forall above_emin A ->
  np_sum (A ++ F64.zero :: B) = np_sum (A ++ B).
Proof.
  intros Hlen HA.
  assert (Hlen' : (List.length (A ++ B) < 8)%nat).
  { rewrite length_app in *. cbn [List.length] in Hlen. lia. }
  rewrite !np_sum_small by assumption. now rewrite fold_skip_zero.
Qed.

(** ** NaN cells in [detect_zscore_anomalies] *)

Lemma zero_fill_above_emin (l : list float) :
  Forall binary64 l -> Forall above_emin (Step4.zero_fill l).
Proof.
  intros H. unfold Step4.zero_fill. rewrite Forall_forall in *. intros y Hy.
  apply in_map_iff in Hy. destruct Hy as [x [<- Hx]].
  destruct (F64.is_nan x); [exact I |]. apply binary64_above_emin. now apply H.
Qed.

Lemma count_skips_nan (l1 l2 : list float) :
  Step4.count (l1 ++ F64.nan :: l2) = Step4.count (l1 ++ l2).
Proof. unfold Step4.count. now rewrite !dropna_app. Qed.

Lemma zero_fill_nan (l1 l2 : list float) :
  Step4.zero_fill (l1 ++ F64.nan :: l2)
  = Step4.zero_fill l1 ++ F64.zero :: Step4.zero_fill l2.
Proof. unfold Step4.zero_fill. now rewrite map_app. Qed.

Lemma step4_small_column_skips_nan (l1 l2 : list float) :
  (List.length (l1 ++ F64.nan :: l2) < 8)%nat -> Forall binary64 l1 ->
  Step4.pd_mean (l1 ++ F64.nan :: l2) = Step4.pd_mean (l1 ++ l2)
  /\ Step4.pd_std (l1 ++ F64.nan :: l2) = Step4.pd_std (l1 ++ l2).
Proof.
  intros Hlen Hv.
  assert (Hsum : np_sum (Step4.zero_fill (l1 ++ F64.nan :: l2))
                 = np_sum (Step4.zero_fill (l1 ++ l2))).
  { rewrite zero_fill_nan.
    replace (Step4.zero_fill (l1 ++ l2))
      with (Step4.zero_fill l1 ++ Step4.zero_fill l2)
      by (unfold Step4.zero_fill; now rewrite map_app).
    apply np_sum_skip_zero.
    - rewrite length_app in *. cbn [List.length] in *.
      unfold Step4.zero_fill. now rewrite !length_map.
    - now apply zero_fill_above_emin. }
  unfold Step4.pd_mean, Step4.pd_std. rewrite count_skips_nan, Hsum.
  split; [reflexivity |].
  destruct (Step4.count (l1 ++ l2) <=? 1); [reflexivity |].
  do 2 f_equal.
  set (avg := F64.div (np_sum (Step4.zero_fill (l1 ++ l2)))
                      (F64.of_Z (Step4.count (l1 ++ l2)))).
  rewrite !map_app. cbn [map F64.is_nan F64.nan].
  apply np_sum_skip_zero.
  - rewrite length_app in *. cbn [List.length] in *. now rewrite !length_map.
  - rewrite Forall_forall. intros y Hy. apply in_map_iff in Hy.
    destruct Hy as [x [<- _]].
    destruct (F64.is_nan x); [exact I | apply mul_above_emin].
Qed.

(** X9.  NaN cells in [detect_zscore_anomalies].  A NaN cell gets a NaN
    score and no flag.  A column with fewer than two cells that are not
    NaN has NaN scores throughout, so nobody is flagged on it.  In a
    column of fewer than eight cells, which numpy adds one after the
    other, the scores and flags of the other states are exactly those
    of the column without the NaN cell. *)
Theorem step4_zscore_nan_cells (l1 l2 : list float) :
  let col := l1 ++ F64.nan :: l2 in
  nth (List.length l1) (Step4.z_scores col) F64.zero = F64.nan
  /\ nth (List.length l1) (Step4.anomaly_flags col) true = false
  /\ (Step4.count col <= 1 ->
      Forall (fun z => z = F64.nan) (Step4.z_scores col)
      /\ Forall (fun flag => flag = false) (Step4.anomaly_flags col))
  /\ ((List.length col < 8)%nat -> Forall binary64 l1 ->
      Step4.z_scores col
      = firstn (List.length l1) (Step4.z_scores (l1 ++ l2))
        ++ F64.nan :: skipn (List.length l1) (Step4.z_scores (l1 ++ l2))
      /\ Step4.anomaly_flags col
         = firstn (List.length l1) (Step4.anomaly_flags (l1 ++ l2))
           ++ false :: skipn (List.length l1) (Step4.anomaly_flags (l1 ++ l2))).
Proof.
  cbv zeta.
  assert (Hcell : nth (List.length l1) (Step4.z_scores (l1 ++ F64.nan :: l2)) F64.zero
                  = F64.nan).
  { unfold Step4.z_scores. rewrite map_app. cbn [map].
    rewrite app_nth2 by (rewrite length_map; lia).
    rewrite length_map, Nat.sub_diag. reflexivity. }
  split; [exact Hcell |]. split.
  { unfold Step4.anomaly_flags, Step4.z_scores. rewrite !map_app. cbn [map].
    rewrite app_nth2 by (rewrite !length_map; lia).
    rewrite !length_map, Nat.sub_diag. reflexivity. }
  split.
  - intros Hc.
    assert (Hstd : Step4.pd_std (l1 ++ F64.nan :: l2) = F64.nan).
    { unfold Step4.pd_std.
      replace (Step4.count (l1 ++ F64.nan :: l2) <=? 1) with true
        by (symmetry; now apply Z.leb_le).
      reflexivity. }
    assert (Hz : Forall (fun z => z = F64.nan) (Step4.z_scores (l1 ++ F64.nan :: l2))).
    { unfold Step4.z_scores. rewrite Hstd, Forall_forall. intros z Hz.
      apply in_map_iff in Hz. destruct Hz as [x [<- _]].
      destruct (F64.sub x (Step4.pd_mean (l1 ++ F64.nan :: l2))); reflexivity. }
    split; [exact Hz |].
    unfold Step4.anomaly_flags. rewrite Forall_forall in *. intros flag Hf.
    apply in_map_iff in Hf. destruct Hf as [z [<- Hin]].
    now rewrite (Hz z Hin).
  - intros Hlen Hv.
    destruct (step4_small_column_skips_nan l1 l2 Hlen Hv) as [Hm Hs].
    assert (Hz : Step4.z_scores (l1 ++ F64.nan :: l2)
                 = firstn (List.length l1) (Step4.z_scores (l1 ++ l2))
                   ++ F64.nan :: skipn (List.length l1) (Step4.z_scores (l1 ++ l2))).
    { unfold Step4.z_scores. rewrite Hm, Hs.
      set (f := fun x => F64.abs (F64.div (F64.sub x (Step4.pd_mean (l1 ++ l2)))
                                          (Step4.pd_std (l1 ++ l2)))).
      rewrite !map_app. cbn [map].
      rewrite <- (length_map f l1) at 1 2.
      rewrite firstn_app, Nat.sub_diag, firstn_all, firstn_O, app_nil_r.
      rewrite skipn_app, Nat.sub_diag, skipn_all, skipn_O. cbn [app].
      unfold f at 2. reflexivity. }
    split; [exact Hz |].
    unfold Step4.anomaly_flags. rewrite Hz, map_app. cbn [map].
    rewrite firstn_map, skipn_map. reflexivity.
Qed.

Lemma step4_nan_cells_witness :
  (List.length (tenths [2; 8]%Z ++ F64.nan :: tenths [5]%Z) < 8)%nat
  /\ Forall binary64 (tenths [2; 8])
  /\ Step4.z_scores (tenths [2; 8] ++ F64.nan :: tenths [5])
     = firstn (List.length (tenths [2; 8]))
              (Step4.z_scores (tenths [2; 8] ++ tenths [5]))
       ++ F64.nan :: skipn (List.length (tenths [2; 8]))
                           (Step4.z_scores (tenths [2; 8] ++ tenths [5])).
Proof.
  assert (Hlen : (List.length (tenths [2; 8]%Z ++ F64.nan :: tenths [5]%Z) < 8)%nat)
    by (cbn; lia).
  assert (Hv : Forall binary64 (tenths [2; 8]))
    by (unfold tenths; cbn [map]; repeat constructor).
  split; [exact Hlen |]. split; [exact Hv |].
  exact (proj1 (proj2 (proj2 (proj2 (step4_zscore_nan_cells (tenths [2; 8]) (tenths [5]))))
                      Hlen Hv)).
Defined.

(** From eight cells on numpy adds in blocks, and a NaN cell moves the
    cells after it into other partial sums: here the first score
    changes in its last place. *)
Example step4_nan_cell_in_long_column :
  nth 0 (Step4.z_scores (tenths [2; 8; 1] ++ F64.nan :: tenths [7; 7; 1; 8; 5])) F64.nan
  = S754_finite false 8378084604910006 (-53)
  /\ nth 0 (Step4.z_scores (tenths [2; 8; 1] ++ tenths [7; 7; 1; 8; 5])) F64.nan
     = S754_finite false 8378084604910004 (-53).
Proof. split; vm_compute; reflexivity. Qed.

Lemma nan_cell_witness :
  In F64.nan (map (tracked_feature TBio)
                  (feature_matrix enrolment_kerala biometric_kerala demographic_goa))
  /\ forall preds scores with_temporal d,
       In d (add_verdicts preds scores with_temporal
               (feature_matrix enrolment_kerala biometric_kerala demographic_goa)) ->
       tracked_deviation TBio (zscores d) = F64.nan
       /\ F64.gtb (tracked_deviation TBio (zscores d)) threshold = false.
Proof.
  assert (H : In F64.nan
                (map (tracked_feature TBio)
                     (feature_matrix enrolment_kerala biometric_kerala demographic_goa)))
    by (vm_compute; left; reflexivity).
  split; [exact H |].
  exact (nan_cell_silences_the_feature TBio
           (feature_matrix enrolment_kerala biometric_kerala demographic_goa) H).
Defined.

(** ** Anomaly patterns of PHASE3_STEP4 *)

Lemma patterns_In (row : Step4.Ratios) (s : string) :
  In s (patterns row) <->
  (s = low_early_child /\ F64.ltb (Step4.child_0_5_pct row) (F64.of_Z 5) = true)
  \/ (s = high_child_adult
      /\ F64.gtb (Step4.child_adult_enrol_ratio row) one_and_a_half = true)
  \/ (s = low_child_bio /\ F64.ltb (Step4.child_bio_ratio row) three_tenths = true)
  \/ (s = high_activity /\ F64.gtb (Step4.bio_intensity row) (F64.of_Z 50) = true)
  \/ (s = low_activity /\ F64.ltb (Step4.bio_intensity row) (F64.of_Z 1) = true).
Proof.
  unfold patterns. rewrite !in_app_iff.
  destruct (F64.ltb (Step4.child_0_5_pct row) (F64.of_Z 5));
  destruct (F64.gtb (Step4.child_adult_enrol_ratio row) one_and_a_half);
  destruct (F64.ltb (Step4.child_bio_ratio row) three_tenths);
  destruct (F64.gtb (Step4.bio_intensity row) (F64.of_Z 50));
  destruct (F64.ltb (Step4.bio_intensity row) (F64.of_Z 1));
  cbn [In]; intuition (try discriminate; auto).
Qed.

Lemma high_low_exclusive (x : float) :
  F64.gtb x (F64.of_Z 50) = true -> F64.ltb x (F64.of_Z 1) = true -> False.
Proof.
  unfold F64.gtb. intros H50 H1.
  assert (H : F64.ltb (F64.of_Z 50) (F64.of_Z 1) = true)
    by (apply (ltb_trans _ x); assumption).
  vm_compute in H. discriminate.
Qed.

Lemma concat_sep_nonempty (p : string) (ps : list string) :
  p <> EmptyString -> String.concat "; " (p :: ps) <> EmptyString.
Proof.
  intros Hp. destruct ps as [| q ps]; cbn [String.concat]; [exact Hp |].
  destruct p; [congruence | discriminate].
Qed.

(** X10.  [identify_anomaly_type] always returns a label; it never
    reports high and low update activity together, so it gives at most
    four patterns; and a state whose five tested ratios are all NaN
    gets the fallback label. *)
Theorem identify_anomaly_type_labels (row : Step4.Ratios) :
  identify_anomaly_type row <> EmptyString
  /\ ~ (In high_activity (patterns row) /\ In low_activity (patterns row))
  /\ (List.length (patterns row) <= 4)%nat
  /\ (F64.is_nan (Step4.child_0_5_pct row) = true ->
      F64.is_nan (Step4.child_adult_enrol_ratio row) = true ->
      F64.is_nan (Step4.child_bio_ratio row) = true ->
      F64.is_nan (Step4.bio_intensity row) = true ->
      identify_anomaly_type row = "Other irregular pattern"%string).
Proof.
  assert (Hex : ~ (In high_activity (patterns row) /\ In low_activity (patterns row))).
  { rewrite !patterns_In. intros [Hh Hl].
    assert (H50 : F64.gtb (Step4.bio_intensity row) (F64.of_Z 50) = true).
    { destruct Hh as [[E _] | [[E _] | [[E _] | [[_ H] | [E _]]]]];
        try discriminate E; exact H. }
    assert (H1 : F64.ltb (Step4.bio_intensity row) (F64.of_Z 1) = true).
    { destruct Hl as [[E _] | [[E _] | [[E _] | [[E _] | [_ H]]]]];
        try discriminate E; exact H. }
    exact (high_low_exclusive _ H50 H1). }
  split; [| split; [exact Hex | split]].
  - unfold identify_anomaly_type.
    remember (patterns row) as ps eqn:E. destruct ps as [| p ps]; [discriminate |].
    apply concat_sep_nonempty.
    assert (Hin : In p (patterns row)) by (rewrite <- E; left; reflexivity).
    apply patterns_In in Hin.
    destruct Hin as [[-> _] | [[-> _] | [[-> _] | [[-> _] | [-> _]]]]]; discriminate.
  - unfold patterns in *.
    destruct (F64.gtb (Step4.bio_intensity row) (F64.of_Z 50)) eqn:H50;
    destruct (F64.ltb (Step4.bio_intensity row) (F64.of_Z 1)) eqn:H1.
    + exfalso. exact (high_low_exclusive _ H50 H1).
    + destruct (F64.ltb (Step4.child_0_5_pct row) (F64.of_Z 5));
      destruct (F64.gtb (Step4.child_adult_enrol_ratio row) one_and_a_half);
      destruct (F64.ltb (Step4.child_bio_ratio row) three_tenths); cbn; lia.
    + destruct (F64.ltb (Step4.child_0_5_pct row) (F64.of_Z 5));
      destruct (F64.gtb (Step4.child_adult_enrol_ratio row) one_and_a_half);
      destruct (F64.ltb (Step4.child_bio_ratio row) three_tenths); cbn; lia.
    + destruct (F64.ltb (Step4.child_0_5_pct row) (F64.of_Z 5));
      destruct (F64.gtb (Step4.child_adult_enrol_ratio row) one_and_a_half);
      destruct (F64.ltb (Step4.child_bio_ratio row) three_tenths); cbn; lia.
  - intros H1 H2 H3 H4. unfold identify_anomaly_type, patterns.
    destruct (Step4.child_0_5_pct row); try discriminate H1.
    destruct (Step4.child_adult_enrol_ratio row); try discriminate H2.
    destruct (Step4.child_bio_ratio row); try discriminate H3.
    destruct (Step4.bio_intensity row); try discriminate H4.
    reflexivity.
Qed.

Lemma ratio_zero_den (num den : float) :
  F64.is_zero den = true ->
  Step4.ratio num den = F64.nan \/ Step4.ratio num den = F64.zero.
Proof.
  intros Hd. unfold Step4.ratio.
  destruct den; try discriminate Hd. destruct num as [| [] | | [] ? ?], s; cbn; auto.
Qed.

(** X11.  A state without adult registrations is never reported with an
    unusually high child-adult ratio, whatever its child registrations:
    the division by zero is stored as 0 (or NaN), not as a large ratio. *)
Theorem no_adults_is_never_a_high_child_adult_ratio (r : Step4.AggRow) :
  F64.is_zero (Step4.registrations_18_and_above r) = true ->
  ~ In high_child_adult (patterns (Step4.feature_ratios r)).
Proof.
  intros Hz Hin. apply patterns_In in Hin.
  destruct Hin as [[E _] | [[_ H] | [[E _] | [[E _] | [E _]]]]]; try discriminate E.
  cbn [Step4.feature_ratios Step4.child_adult_enrol_ratio] in H.
  destruct (ratio_zero_den
              (F64.add (Step4.registrations_0_to_5 r) (Step4.registrations_5_to_17 r))
              _ Hz) as [E | E]; rewrite E in H; vm_compute in H; discriminate.
Qed.

Lemma no_adults_witness :
  F64.is_zero (Step4.registrations_18_and_above children_only) = true
  /\ ~ In high_child_adult (patterns (Step4.feature_ratios children_only)).
Proof.
  split; [reflexivity |].
  exact (no_adults_is_never_a_high_child_adult_ratio children_only eq_refl).
Defined.

(** X12.  A state whose biometric updates all come from children (no
    adult update, some child updates) is reported with "Low child
    biometric updates": the infinite ratio has been replaced by 0. *)
Theorem children_only_updates_are_reported_low (r : Step4.AggRow) :
  F64.is_zero (Step4.biometric_updates_18_and_above r) = true ->
  F64.is_nonzero (Step4.biometric_updates_5_to_17 r) = true ->
  Step4.child_bio_ratio (Step4.feature_ratios r) = F64.zero
  /\ In low_child_bio (patterns (Step4.feature_ratios r)).
Proof.
  intros Hz Hn.
  assert (E : Step4.child_bio_ratio (Step4.feature_ratios r) = F64.zero).
  { cbn [Step4.feature_ratios Step4.child_bio_ratio]. unfold Step4.ratio.
    pose proof (div_by_zero_inf _ _ Hn Hz) as Hinf.
    destruct (F64.div (Step4.biometric_updates_5_to_17 r)
                      (Step4.biometric_updates_18_and_above r));
      try discriminate Hinf. reflexivity. }
  split; [exact E |].
  apply patterns_In. right; right; left. split; [reflexivity |].
  rewrite E. vm_compute. reflexivity.
Qed.

Lemma children_only_witness :
  F64.is_zero (Step4.biometric_updates_18_and_above children_only) = true
  /\ F64.is_nonzero (Step4.biometric_updates_5_to_17 children_only) = true
  /\ Step4.child_bio_ratio (Step4.feature_ratios children_only) = F64.zero
  /\ In low_child_bio (patterns (Step4.feature_ratios children_only)).
Proof.
  assert (Hz : F64.is_zero (Step4.biometric_updates_18_and_above children_only) = true)
    by reflexivity.
  assert (Hn : F64.is_nonzero (Step4.biometric_updates_5_to_17 children_only) = true)
    by (vm_compute; reflexivity).
  split; [exact Hz |]. split; [exact Hn |].
  exact (children_only_updates_are_reported_low children_only Hz Hn).
Defined.

(** ** Characterization of a table without spread *)

Lemma sort_insert_const {A : Type} (leb : A -> A -> bool) (v : A) (l : list A) :
  Forall (fun x => x = v) l -> sort_insert leb v l = v :: l.
Proof.
  induction 1 as [| y l Hy _ IH]; [reflexivity |].
  subst y. cbn [sort_insert]. destruct (leb v v); [reflexivity |].
  now rewrite IH.
Qed.

Lemma sort_values_const {A : Type} (leb : A -> A -> bool) (v : A) (l : list A) :
  Forall (fun x => x = v) l -> sort_values leb l = l.
Proof.
  induction 1 as [| y l Hy Hl IH]; [reflexivity |].
  subst y. unfold sort_values in *. cbn [fold_right]. rewrite IH.
  now apply sort_insert_const.
Qed.

Lemma nth_const {A : Type} (v : A) (l : list A) (i : nat) :
  Forall (fun x => x = v) l -> nth i l v = v.
Proof.
  intros H. revert i. induction H as [| y l Hy _ IH]; intros [| i]; cbn; auto.
Qed.

Lemma sub_diag (v : float) :
  F64.sub v v = F64.nan \/ F64.sub v v = S754_zero false.
Proof.
  destruct v as [[] | [] | | s m e]; cbn; auto.
  right. unfold F64.sub, SFsub. cbv beta iota.
  rewrite Z.sub_diag. reflexivity.
Qed.

Lemma mul_zero_l (y : float) :
  F64.mul (S754_zero false) y = F64.nan
  \/ F64.is_zero (F64.mul (S754_zero false) y) = true.
Proof. destruct y as [[] | [] | | [] ? ?]; cbn; auto. Qed.

Lemma sub_zero_r (v z : float) :
  F64.is_zero z = true -> F64.is_nan v = false ->
  SFcompare v (F64.sub v z) = Some Eq.
Proof.
  destruct z; try discriminate. intros _.
  destruct v as [[] | [] | | [] m e], s; try discriminate; intros _; cbn;
    try reflexivity; rewrite ?Z.compare_refl, ?Pos.compare_refl; reflexivity.
Qed.

Lemma add_zero_r (v z : float) :
  F64.is_zero z = true -> F64.is_nan v = false ->
  SFcompare v (F64.add v z) = Some Eq.
Proof.
  destruct z; try discriminate. intros _.
  destruct v as [[] | [] | | [] m e], s; try discriminate; intros _; cbn;
    try reflexivity; rewrite ?Z.compare_refl, ?Pos.compare_refl; reflexivity.
Qed.

(** Interpolating between a value and itself gives that value or NaN:
    nothing is strictly above or below it. *)
Lemma lerp_same (v t : float) :
  F64.gtb v (lerp v v t) = false /\ F64.ltb v (lerp v v t) = false.
Proof.
  assert (Hcmp : forall r, r = F64.nan \/ SFcompare v r = Some Eq ->
                           F64.gtb v r = false /\ F64.ltb v r = false).
  { intros r [-> | H].
    - split; [reflexivity | destruct v; reflexivity].
    - unfold F64.gtb, F64.ltb, SFltb. rewrite (SFcompare_antisym v r), H.
      split; reflexivity. }
  apply Hcmp.
  destruct (F64.is_nan v) eqn:Hv.
  { left. destruct v; try discriminate Hv. unfold lerp.
    destruct (F64.leb _ t); reflexivity. }
  unfold lerp. cbv zeta.
  destruct (sub_diag v) as [E | E]; rewrite E.
  - left. destruct (F64.leb _ t); [| cbn [F64.mul SFmul]; apply add_nan_r].
    cbn [F64.mul SFmul]. destruct v; reflexivity.
  - destruct (F64.leb _ t).
    + destruct (mul_zero_l (F64.sub (F64.of_Z 1) t)) as [En | Ez].
      * left. rewrite En. destruct v; reflexivity.
      * right. now apply sub_zero_r.
    + destruct (mul_zero_l t) as [En | Ez].
      * left. rewrite En. apply add_nan_r.
      * right. now apply add_zero_r.
Qed.

Lemma quantile_const (v : float) (col : list float) (q : float) :
  Forall (fun x => x = v) col ->
  F64.gtb v (quantile col q) = false /\ F64.ltb v (quantile col q) = false.
Proof.
  intros Hall.
  destruct (F64.is_nan v) eqn:Hv.
  { destruct v; try discriminate Hv. split; [| reflexivity].
    unfold F64.gtb, SFltb. now destruct (quantile col q). }
  assert (Hd : dropna col = col).
  { unfold dropna. apply forallb_filter_id. apply forallb_forall.
    rewrite Forall_forall in Hall. intros x Hx. rewrite (Hall x Hx), Hv. reflexivity. }
  unfold quantile. rewrite Hd, (sort_values_const _ v col Hall).
  destruct col as [| v0 rest].
  { split; [| destruct v; reflexivity].
    unfold F64.gtb. reflexivity. }
  cbv zeta.
  assert (E0 : v0 = v) by (inversion Hall; assumption). subst v0.
  rewrite !(nth_const v (v :: rest) _ Hall).
  apply lerp_same.
Qed.

Lemma reason_const (x : float) (col : list float) (high low : string) :
  Forall (fun y => y = x) col -> reason x col high low = [].
Proof.
  intros Hall. unfold reason.
  destruct (quantile_const x col q95 Hall) as [-> _].
  destruct (quantile_const x col q05 Hall) as [_ ->]. reflexivity.
Qed.

Lemma constant_column (t : Tracked) (df : list ConsensusRow) (row : ConsensusRow) :
  constant_tracked df -> In row df ->
  Forall (fun y => y = tracked_feature t (feat (det row)))
         (map (fun r => tracked_feature t (feat (det r))) df).
Proof.
  intros Hc Hrow. rewrite Forall_forall. intros y Hy.
  apply in_map_iff in Hy. destruct Hy as [r [<- Hr]]. now apply Hc.
Qed.

(** X13.  When all regions of the master table agree on the four
    tracked features (a table with a single region is the smallest
    case), no percentile test fires and every region is characterized
    by the fallback label. *)
Theorem table_without_spread_gets_the_fallback (df : list ConsensusRow) :
  constant_tracked df ->
  forall o, In o (add_characterization df) ->
    anomaly_characterization o = "Complex multivariate pattern"%string.
Proof.
  intros Hc o Ho. unfold add_characterization in Ho.
  apply in_map_iff in Ho. destruct Ho as [row [<- Hrow]].
  cbn [anomaly_characterization]. unfold characterize_anomaly, reasons_of.
  rewrite (reason_const _ _ _ _ (constant_column TBio df row Hc Hrow)).
  rewrite (reason_const _ _ _ _ (constant_column TDemo df row Hc Hrow)).
  rewrite (reason_const _ _ _ _ (constant_column TChild df row Hc Hrow)).
  rewrite (reason_const _ _ _ _ (constant_column TEnrol df row Hc Hrow)).
  reflexivity.
Qed.

Lemma constant_tracked_map (df : list DetectedRow) :
  (forall d1 d2, In d1 df -> In d2 df ->
     derived_features (feat d1) = derived_features (feat d2)
     /\ total_enrolments (base (feat d1)) = total_enrolments (base (feat d2))) ->
  constant_tracked (add_consensus df).
Proof.
  intros H t r1 r2 H1 H2. unfold add_consensus in *.
  apply in_map_iff in H1. destruct H1 as [d1 [<- H1]].
  apply in_map_iff in H2. destruct H2 as [d2 [<- H2]].
  destruct (H d1 d2 H1 H2) as [Hd He].
  cbn [det consensus_row]. unfold derived_features in Hd.
  destruct t; cbn [tracked_feature]; congruence.
Qed.

Lemma table_without_spread_witness :
  constant_tracked master_four
  /\ forall o, In o (add_characterization master_four) ->
       anomaly_characterization o = "Complex multivariate pattern"%string.
Proof.
  assert (Hc : constant_tracked master_four).
  { apply constant_tracked_map. intros d1 d2 H1 H2.
    cbn [In] in H1, H2.
    repeat (destruct H1 as [<- | H1]); try contradiction;
      repeat (destruct H2 as [<- | H2]); try contradiction;
      split; reflexivity. }
  split; [exact Hc |].
  exact (table_without_spread_gets_the_fallback master_four Hc).
Defined.

(** ** Verdicts, consensus and display *)

Lemma unique_NoDup (l : list string) : NoDup (unique l).
Proof.
  induction l as [| x l IH]; cbn [unique]; constructor.
  - rewrite filter_In. intros [_ H]. rewrite String.eqb_refl in H. discriminate.
  - now apply NoDup_filter.
Qed.

(** X14.  The list of temporally flagged states names each state once,
    and the temporal verdict of a region in the master table is true
    exactly when the region has at least one Temporal Anomaly Event. *)
Theorem temporal_verdict_iff_some_event
    (enrolment : list EnrolmentRec) (preds : list Z) (scores : list float)
    (df : list FeatureRow) :
  NoDup (states_with_temporal enrolment)
  /\ Forall (fun d =>
       temporal_anomaly d = true
       <-> exists ev, In ev (temporal_anomalies enrolment)
                      /\ m_state ev = state (base (feat d)))
     (add_verdicts preds scores (states_with_temporal enrolment) df).
Proof.
  split; [apply unique_NoDup |].
  rewrite Forall_forall. intros d Hd.
  rewrite (add_verdicts_temporal _ _ _ _ _ Hd), mem_string_In.
  unfold states_with_temporal. rewrite unique_In, in_map_iff.
  split; intros [ev H]; exists ev; tauto.
Qed.

Lemma techniques_length (d : DetectedRow) :
  Z.of_nat (List.length (techniques d)) = count_anomalies d.
Proof.
  unfold techniques, count_anomalies.
  destruct (iso_forest_anomaly d), (zscore_anomaly d), (temporal_anomaly d); reflexivity.
Qed.

(** X15.  Every entry the consensus display prints carries as many
    technique names as its anomaly count, which is 2 or 3, and a name
    is listed exactly when that detector flagged the region. *)
Theorem displayed_techniques_match_the_count (df : list DetectedRow) :
  Forall (fun entry =>
            let '(_, n, techs) := entry in
            Z.of_nat (List.length techs) = n /\ 2 <= n <= 3)
         (consensus_display (add_consensus df))
  /\ forall d, (In "Isolation Forest"%string (techniques d) <-> iso_forest_anomaly d = true)
            /\ (In "Z-Score"%string (techniques d) <-> zscore_anomaly d = true)
            /\ (In "Time-Series"%string (techniques d) <-> temporal_anomaly d = true).
Proof.
  split.
  - rewrite consensus_display_order, Forall_forall. intros [[s n] techs] H.
    apply in_map_iff in H. destruct H as [d [E Hd]]. inversion E; subst.
    apply filter_In in Hd. destruct Hd as [_ Hd]. apply Z.leb_le in Hd.
    split; [apply techniques_length |].
    split; [exact Hd |]. rewrite count_anomalies_sum.
    destruct (iso_forest_anomaly d), (zscore_anomaly d), (temporal_anomaly d);
      cbn; lia.
  - intros d. unfold techniques.
    destruct (iso_forest_anomaly d), (zscore_anomaly d), (temporal_anomaly d);
      cbn [app In]; repeat split; intros H; try reflexivity; auto;
      repeat (destruct H as [H | H]; try discriminate H); try discriminate H;
      try contradiction.
Qed.

Lemma StronglySorted_map_filter {A B} (f : A -> B) (g : A -> bool)
    (R : B -> B -> Prop) (l : list A) :
  StronglySorted R (map f l) -> StronglySorted R (map f (filter g l)).
Proof.
  induction l as [| x l IH]; cbn [map filter]; intros H; [constructor |].
  inversion H as [| ? ? Hl Hall]; subst.
  destruct (g x); [| now apply IH].
  cbn [map]. constructor; [now apply IH |].
  rewrite Forall_forall in *. intros y Hy. apply Hall.
  apply in_map_iff in Hy. destruct Hy as [z [<- Hz]].
  apply in_map. apply filter_In in Hz. tauto.
Qed.

Section PipelineOrder.
Variable RandomState : Type.
Variable seed_state : Z -> RandomState.
Variable Forest : Type.
Variable forest_fit : RandomState -> float -> Z -> list (list float) -> Forest.
Variable forest_predict : Forest -> list (list float) -> list Z.
Variable forest_score_samples : Forest -> list (list float) -> list float.
Variable fit_transform : list (list float) -> list (list float).
Variable global : RandomState.
Variable enrolment : list EnrolmentRec.
Variable biometric : list BiometricRec.
Variable demographic : list DemographicRec.

(** X16.  Whatever the forest answers, the high-priority list of a run
    comes out in alphabetical order of the states, each state at most
    once, and so does the master table. *)
Theorem consensus_list_is_alphabetical :
  let results := run RandomState seed_state Forest forest_fit forest_predict
                     forest_score_samples fit_transform global
                     enrolment biometric demographic in
  StronglySorted (fun a b => String.compare a b = Lt)
                 (map state_of (consensus_high_priority results))
  /\ StronglySorted (fun a b => String.compare a b = Lt)
                    (map (fun o => state_of (cons o)) (complete results))
  /\ NoDup (map state_of (consensus_high_priority results)).
Proof.
  cbv zeta.
  assert (Hm : StronglySorted (fun a b => String.compare a b = Lt)
                 (map (fun o => state_of (cons o))
                      (complete (run RandomState seed_state Forest forest_fit
                                   forest_predict forest_score_samples fit_transform
                                   global enrolment biometric demographic)))).
  { rewrite <- (map_map (fun o => feat (det (cons o))) (fun r => state (base r))).
    rewrite complete_covers_every_region. apply feature_matrix_states_sorted. }
  assert (Hc : StronglySorted (fun a b => String.compare a b = Lt)
                 (map state_of
                    (consensus_high_priority
                       (run RandomState seed_state Forest forest_fit
                          forest_predict forest_score_samples fit_transform
                          global enrolment biometric demographic)))).
  { rewrite consensus_is_projection_of_master.
    unfold consensus_anomalies. apply StronglySorted_map_filter.
    rewrite map_map. exact Hm. }
  split; [exact Hc |]. split; [exact Hm |].
  apply StronglySorted_lt_NoDup. exact Hc.
Qed.
End PipelineOrder.

Lemma step4_count_sum (r : Step4.MethodRow) :
  Step4.anomaly_method_count r
  = astype_int (Step4.iso_is_anomaly r) + astype_int (Step4.zscore_is_anomaly r)
    + astype_int (Step4.dbscan_is_anomaly r).
Proof.
  unfold Step4.anomaly_method_count.
  destruct (Step4.iso_is_anomaly r), (Step4.zscore_is_anomaly r),
           (Step4.dbscan_is_anomaly r); reflexivity.
Qed.

(** X17.  PHASE3_STEP4: a state is a consensus anomaly exactly when at
    least two of Isolation Forest, z-score and DBSCAN flag it; the
    sorted list holds the same states, those flagged by all three
    methods before those flagged by two. *)
Theorem step4_consensus_needs_two_methods (df : list Step4.MethodRow) :
  (forall r, In r (Step4.consensus_anomalies df)
             <-> In r df
                 /\ (Step4.iso_is_anomaly r && Step4.zscore_is_anomaly r
                     || Step4.iso_is_anomaly r && Step4.dbscan_is_anomaly r
                     || Step4.zscore_is_anomaly r && Step4.dbscan_is_anomaly r) = true)
  /\ Permutation (Step4.consensus_anomalies df) (Step4.consensus_sorted df)
  /\ Sorted (fun a b => Step4.anomaly_method_count b <= Step4.anomaly_method_count a)
            (Step4.consensus_sorted df)
  /\ Forall (fun r => Step4.anomaly_method_count r = 2 \/ Step4.anomaly_method_count r = 3)
            (Step4.consensus_sorted df).
Proof.
  assert (Hiff : forall r, In r (Step4.consensus_anomalies df)
             <-> In r df
                 /\ (Step4.iso_is_anomaly r && Step4.zscore_is_anomaly r
                     || Step4.iso_is_anomaly r && Step4.dbscan_is_anomaly r
                     || Step4.zscore_is_anomaly r && Step4.dbscan_is_anomaly r) = true).
  { intros r. unfold Step4.consensus_anomalies, Step4.consensus_anomaly.
    rewrite filter_In, step4_count_sum.
    destruct (Step4.iso_is_anomaly r), (Step4.zscore_is_anomaly r),
             (Step4.dbscan_is_anomaly r); cbn; tauto. }
  assert (Hperm : Permutation (Step4.consensus_anomalies df) (Step4.consensus_sorted df))
    by apply sort_values_perm.
  split; [exact Hiff |]. split; [exact Hperm |]. split.
  - unfold Step4.consensus_sorted.
    eapply Sorted_impl;
      [| apply (sort_values_Sorted _ (fun _ => True))].
    + intros a b H. apply Z.leb_le. exact H.
    + intros a b _ _ H. apply Z.leb_gt in H. apply Z.leb_le. lia.
    + rewrite Forall_forall. auto.
  - rewrite Forall_forall. intros r Hr.
    apply (Permutation_in _ (Permutation_sym Hperm)) in Hr.
    apply Hiff in Hr. destruct Hr as [_ Hr]. rewrite step4_count_sum.
    destruct (Step4.iso_is_anomaly r), (Step4.zscore_is_anomaly r),
             (Step4.dbscan_is_anomaly r); cbn in *; try discriminate; auto.
Qed.

(** ** The summaries of STEP9_SHOW_RESULTS *)

Lemma Z_compare_lt_trans (a b c : Z) :
  (a ?= b) = Lt -> (b ?= c) = Lt -> (a ?= c) = Lt.
Proof. rewrite !Z.compare_lt_iff. lia. Qed.

Lemma Z_compare_gt_lt (a b : Z) : (a ?= b) = Gt -> (b ?= a) = Lt.
Proof. rewrite Z.compare_gt_iff, Z.compare_lt_iff. lia. Qed.

Section Counting.
Context {K : Type}.
Variable cmp : K -> K -> comparison.

Lemma group_insert_total (k : K) (v : Z) (acc : list (K * Z)) :
  fold_right Z.add 0 (map snd (group_insert cmp Z.add k v acc))
  = v + fold_right Z.add 0 (map snd acc).
Proof.
  induction acc as [| [k' v'] rest IH]; simpl; [lia |].
  destruct (cmp k k'); simpl; [lia | lia | rewrite IH; lia].
Qed.

Lemma group_insert_positive (k : K) (v : Z) (acc : list (K * Z)) :
  1 <= v -> Forall (fun kv => 1 <= snd kv) acc ->
  Forall (fun kv => 1 <= snd kv) (group_insert cmp Z.add k v acc).
Proof.
  intros Hv. induction 1 as [| [k' v'] rest Hx Hrest IH]; simpl.
  - repeat constructor. exact Hv.
  - destruct (cmp k k'); constructor; simpl in *; try lia; try assumption.
    constructor; assumption.
Qed.

Lemma count_rows (keys : list K) :
  let counts := groupby_sum cmp Z.add (map (fun k => (k, 1)) keys) in
  fold_right Z.add 0 (map snd counts) = Z.of_nat (List.length keys)
  /\ Forall (fun kv => 1 <= snd kv) counts.
Proof.
  cbv zeta. unfold groupby_sum.
  assert (H : forall acc,
            Forall (fun kv => 1 <= snd kv) acc ->
            fold_right Z.add 0
              (map snd (fold_left (fun acc kv => group_insert cmp Z.add (fst kv) (snd kv) acc)
                                  (map (fun k => (k, 1)) keys) acc))
            = Z.of_nat (List.length keys) + fold_right Z.add 0 (map snd acc)
            /\ Forall (fun kv => 1 <= snd kv)
                 (fold_left (fun acc kv => group_insert cmp Z.add (fst kv) (snd kv) acc)
                            (map (fun k => (k, 1)) keys) acc)).
  { induction keys as [| k keys IH]; intros acc Hacc.
    - simpl. auto.
    - cbn [map fold_left fst snd List.length].
      destruct (IH (group_insert cmp Z.add k 1 acc)) as [H1 H2].
      { apply group_insert_positive; [lia | exact Hacc]. }
      split; [| exact H2]. rewrite H1, group_insert_total. lia. }
  destruct (H [] (Forall_nil _)) as [H1 H2]. split; [| exact H2].
  rewrite H1. simpl. lia.
Qed.
End Counting.

Lemma risk_name_defined (level : Z) :
  risk_name level = None <-> level < 0 \/ 3 < level.
Proof.
  unfold risk_name, risk_names. cbn [assocZ].
  destruct (Z.eqb_spec level 0); [split; [discriminate | lia] |].
  destruct (Z.eqb_spec level 1); [split; [discriminate | lia] |].
  destruct (Z.eqb_spec level 2); [split; [discriminate | lia] |].
  destruct (Z.eqb_spec level 3); [split; [discriminate | lia] |].
  split; [lia | reflexivity].
Qed.

Lemma count_anomalies_range (d : DetectedRow) : 0 <= count_anomalies d <= 3.
Proof.
  rewrite count_anomalies_sum.
  destruct (iso_forest_anomaly d), (zscore_anomaly d), (temporal_anomaly d); cbn; lia.
Qed.

(** X18.  The risk distribution printed from the master table of a run
    never meets a count without a name (no [KeyError]): its levels are
    distinct values of 0..3 in ascending order, every level shown has at
    least one region, and the counts add up to the number of regions.
    Any other level would have no name. *)
Theorem risk_distribution_is_complete (detected : list DetectedRow) :
  let features_df := add_characterization (add_consensus detected) in
  Forall (fun lc => 0 <= fst lc <= 3 /\ risk_name (fst lc) <> None /\ 1 <= snd lc)
         (risk_dist features_df)
  /\ StronglySorted (fun a b => fst a < fst b) (risk_dist features_df)
  /\ fold_right Z.add 0 (map snd (risk_dist features_df))
     = Z.of_nat (List.length detected)
  /\ forall level, risk_name level = None <-> level < 0 \/ 3 < level.
Proof.
  cbv zeta. unfold risk_dist, value_counts.
  set (levels := map (fun o => anomaly_count (cons o))
                     (add_characterization (add_consensus detected))).
  assert (Hlev : forall l, In l levels -> 0 <= l <= 3).
  { intros l Hl. unfold levels, add_characterization, add_consensus in Hl.
    rewrite !map_map in Hl. cbn [cons anomaly_count consensus_row] in Hl.
    apply in_map_iff in Hl. destruct Hl as [d [<- _]]. apply count_anomalies_range. }
  assert (Hlen : List.length levels = List.length detected).
  { unfold levels, add_characterization, add_consensus. now rewrite !length_map. }
  destruct (count_rows Z.compare levels) as [Hsum Hpos]. cbv zeta in Hsum, Hpos.
  split; [| split; [| split]].
  - rewrite Forall_forall in *. intros lc Hlc.
    assert (Hr : 0 <= fst lc <= 3).
    { apply Hlev.
      assert (Hk : In (fst lc) (map fst (groupby_sum Z.compare Z.add
                                           (map (fun v => (v, 1)) levels))))
        by (now apply in_map).
      apply (proj1 (groupby_sum_key_iff Z.compare Z.add Z.compare_eq _ _)) in Hk.
      rewrite map_map in Hk. cbn [fst] in Hk. now rewrite map_id in Hk. }
    split; [exact Hr |]. split; [| now apply Hpos].
    intros Hn. apply risk_name_defined in Hn. lia.
  - pose proof (groupby_sum_sorted Z.compare Z.add Z_compare_lt_trans Z_compare_gt_lt
                  (map (fun v => (v, 1)) levels)) as Hs.
    eapply StronglySorted_ind with (P := StronglySorted (fun a b => fst a < fst b));
      [constructor | | exact Hs].
    intros a l _ IH Hall. constructor; [exact IH |].
    rewrite Forall_forall in *. intros y Hy. specialize (Hall y Hy).
    unfold key_lt in Hall. now apply Z.compare_lt_iff.
  - rewrite Hsum, Hlen. reflexivity.
  - apply risk_name_defined.
Qed.

(** ** The rankings of STEP9_SHOW_RESULTS *)

Lemma outliers_first_shape (l : list bool) :
  Sorted (fun a b : bool => b = true -> a = true) l ->
  exists k m, l = repeat true k ++ repeat false m.
Proof.
  induction 1 as [| x l Hl IH Hhd].
  - exists 0%nat, 0%nat. reflexivity.
  - destruct IH as [k [m ->]]. destruct x.
    + exists (S k), m. reflexivity.
    + destruct k as [| k].
      * exists 0%nat, (S m). reflexivity.
      * cbn [repeat app] in Hhd. inversion Hhd as [| ? ? H]; subst.
        discriminate (H eq_refl).
Qed.

(** X19.  In the table of the ten largest biometric-rate deviations the
    rows marked as outliers (deviation above 3) come first: once a row
    is printed as normal, every row below it is normal too. *)
Theorem outliers_lead_the_zscore_table (features_df : list OutputRow) :
  (List.length (top_10_z features_df) <= 10)%nat
  /\ exists k m, map outlier_status (top_10_z features_df)
                 = repeat true k ++ repeat false m.
Proof.
  split; [apply nlargest_length |].
  apply outliers_first_shape, Sorted_map.
  eapply Sorted_impl; [| apply nlargest_sorted].
  intros a b Hab Hb. unfold outlier_status, F64.gtb in *.
  destruct Hab as [Hnan | Hle].
  - destruct (bio_rate_zscore (zscores (det (cons b)))); try discriminate Hnan.
    vm_compute in Hb. discriminate.
  - exact (ltb_leb_trans _ _ _ Hb Hle).
Qed.

Section NSmallest.
Context {A : Type}.
Variable key : A -> float.

Lemma nsmallest_length n df : (List.length (nsmallest n key df) <= n)%nat.
Proof. unfold nsmallest. apply firstn_le_length. Qed.

Lemma nsmallest_perm n df :
  exists others, Permutation (nsmallest n key df ++ others) df.
Proof.
  unfold nsmallest.
  set (present := filter (fun r => negb (F64.is_nan (key r))) df).
  set (missing := filter (fun r => F64.is_nan (key r)) df).
  exists (skipn n (sort_values (fun a b => F64.leb (key a) (key b)) present ++ missing)).
  rewrite firstn_skipn.
  rewrite <- (sort_values_perm (fun a b => F64.leb (key a) (key b)) present).
  apply filter_split_perm.
Qed.

Lemma nsmallest_sorted n df : Sorted (ranked_up key) (nsmallest n key df).
Proof.
  unfold nsmallest. apply Sorted_firstn, Sorted_app_any.
  - apply Sorted_impl with (R := fun a b => F64.leb (key a) (key b) = true).
    + intros a b H. now right.
    + apply sort_values_Sorted with (P := fun r => F64.is_nan (key r) = false).
      * intros a b Ha Hb H. now apply leb_total.
      * rewrite Forall_forall. intros r Hr. apply filter_In in Hr.
        destruct Hr as [_ Hr]. now apply negb_true_iff in Hr.
  - rewrite Forall_forall. intros b Hb a. apply filter_In in Hb. left. tauto.
Qed.
End NSmallest.

(** X20.  The "most anomalous" table holds at most ten regions of the
    master table, each at most as often as there, from the most
    negative density score upwards; regions without a score come last. *)
Theorem top_10_iso_is_most_negative_first (features_df : list OutputRow) :
  (List.length (top_10_iso features_df) <= 10)%nat
  /\ (exists others, Permutation (top_10_iso features_df ++ others) features_df)
  /\ Sorted (ranked_up (fun o => iso_forest_score (det (cons o))))
            (top_10_iso features_df)
  /\ ((List.length features_df <= 10)%nat ->
      Permutation (top_10_iso features_df) features_df).
Proof.
  split; [apply nsmallest_length |].
  split; [apply nsmallest_perm |].
  split; [apply nsmallest_sorted |].
  intros Hlen. unfold top_10_iso, nsmallest.
  rewrite firstn_all2.
  - rewrite <- (sort_values_perm _ (filter _ features_df)). apply filter_split_perm.
  - apply Nat.le_trans with (List.length features_df); [| exact Hlen].
    apply Nat.eq_le_incl. apply Permutation_length.
    rewrite <- (sort_values_perm _ (filter _ features_df)). apply filter_split_perm.
Qed.

(** ** Events per state (STEP9_SHOW_RESULTS, lines 89-103) *)

Lemma lookup_In_sorted {V} (k : string) (v : V) (l : list (string * V)) :
  StronglySorted (key_lt String.compare) l -> In (k, v) l -> lookup k l = Some v.
Proof.
  induction 1 as [| [k0 v0] l Hl IH Hall]; [intros [] |].
  intros [E | Hin]; cbn [lookup].
  - injection E as -> ->. now rewrite String.eqb_refl.
  - destruct (String.eqb k k0) eqn:Ek; [| now apply IH].
    apply String.eqb_eq in Ek. subst k0.
    rewrite Forall_forall in Hall. specialize (Hall _ Hin).
    unfold key_lt in Hall. cbn [fst] in Hall.
    rewrite string_compare_refl in Hall. discriminate.
Qed.

Lemma event_is_flagged (enrolment : list EnrolmentRec) (ev : MonthlyRow) :
  In ev (temporal_anomalies enrolment) ->
  F64.gtb (F64.abs (mom_change ev)) spike_threshold = true.
Proof.
  unfold temporal_anomalies, monthly_changes. rewrite filter_In, in_map_iff.
  intros [[rp [<- _]] H]. exact H.
Qed.

Lemma flagged_cell (ev : MonthlyRow) :
  F64.gtb (F64.abs (mom_change ev)) spike_threshold = true ->
  summary_cell ev = (1, F64.abs (mom_change ev)).
Proof.
  unfold summary_cell. destruct (mom_change ev); try reflexivity.
  intros H. vm_compute in H. discriminate.
Qed.

Lemma nanmax_above (a b t : float) :
  F64.gtb a t = true -> F64.gtb b t = true -> F64.gtb (nanmax a b) t = true.
Proof.
  intros Ha Hb. unfold nanmax, fmax.
  destruct (F64.is_nan a); [exact Hb |].
  destruct (F64.is_nan b); [exact Ha |].
  destruct (F64.ltb a b); assumption.
Qed.

Lemma fold_summary (cells : list (Z * float)) (acc : Z * float) :
  Forall (fun c => fst c = 1 /\ F64.gtb (snd c) spike_threshold = true) cells ->
  F64.gtb (snd acc) spike_threshold = true ->
  fst (fold_left summary_plus cells acc) = fst acc + Z.of_nat (List.length cells)
  /\ F64.gtb (snd (fold_left summary_plus cells acc)) spike_threshold = true.
Proof.
  intros H. revert acc. induction H as [| c cells [Hc1 Hc2] _ IH]; intros acc Hacc.
  - cbn. split; [lia | exact Hacc].
  - cbn [fold_left List.length].
    destruct (IH (summary_plus acc c)) as [H1 H2].
    { cbn [summary_plus snd]. now apply nanmax_above. }
    split; [| exact H2]. rewrite H1. cbn [summary_plus fst]. lia.
Qed.

Lemma temp_summary_row (enrolment : list EnrolmentRec) (s : string) (v : Z * float) :
  In (s, v) (temp_summary_all (temporal_anomalies enrolment)) ->
  fst v = events_of s (temporal_anomalies enrolment)
  /\ 1 <= fst v
  /\ F64.gtb (snd v) spike_threshold = true.
Proof.
  intros Hin. unfold temp_summary_all in Hin.
  apply lookup_In_sorted in Hin;
    [| apply groupby_sum_sorted;
       [exact string_compare_lt_trans | exact string_compare_gt_lt]].
  unfold groupby_sum in Hin. rewrite lookup_groupby_fold in Hin by constructor.
  cbn [lookup] in Hin.
  assert (E : map snd (filter (fun kv : string * (Z * float) => String.eqb s (fst kv))
                 (map (fun ev => (m_state ev, summary_cell ev))
                      (temporal_anomalies enrolment)))
              = map summary_cell
                    (filter (fun ev => String.eqb s (m_state ev))
                            (temporal_anomalies enrolment))).
  { generalize (temporal_anomalies enrolment). intros l.
    induction l as [| x l IH]; [reflexivity |].
    simpl. destruct (String.eqb s (m_state x)); simpl; now rewrite IH. }
  rewrite E in Hin. unfold events_of.
  assert (Hcells : Forall (fun c => fst c = 1 /\ F64.gtb (snd c) spike_threshold = true)
                     (map summary_cell
                          (filter (fun ev => String.eqb s (m_state ev))
                                  (temporal_anomalies enrolment)))).
  { rewrite Forall_forall. intros c Hc. apply in_map_iff in Hc.
    destruct Hc as [ev [<- Hev]]. apply filter_In in Hev. destruct Hev as [Hev _].
    pose proof (event_is_flagged _ _ Hev) as Hf.
    rewrite (flagged_cell ev Hf). split; [reflexivity | exact Hf]. }
  rewrite <- (length_map summary_cell).
  destruct (map summary_cell _) as [| c cells]; [discriminate Hin |].
  cbn [fold_left] in Hin. rewrite fold_some in Hin. injection Hin as <-.
  inversion Hcells as [| ? ? [Hc1 Hc2] Hrest]; subst.
  destruct (fold_summary cells c Hrest Hc2) as [H1 H2].
  rewrite H1, Hc1. cbn [List.length]. split; [lia |]. split; [lia | exact H2].
Qed.

(** X21.  The frequency table of temporal anomalies: at most ten rows,
    the larger counts first; each row belongs to a temporally flagged
    state, its count is the number of events of that state (no event
    has a missing change) and its largest change is above the 50
    percent threshold.  Before the cut to ten rows the table has one
    row for each flagged state. *)
Theorem temporal_frequency_table (enrolment : list EnrolmentRec) :
  let events := temporal_anomalies enrolment in
  (List.length (temp_summary events) <= 10)%nat
  /\ Sorted (fun a b => fst (snd b) <= fst (snd a)) (temp_summary events)
  /\ Forall (fun row =>
               fst (snd row) = events_of (fst row) events
               /\ 1 <= fst (snd row)
               /\ F64.gtb (snd (snd row)) spike_threshold = true
               /\ mem_string (fst row) (states_with_temporal enrolment) = true)
            (temp_summary events)
  /\ (forall s, In s (map fst (temp_summary_all events))
                <-> In s (states_with_temporal enrolment)).
Proof.
  cbv zeta.
  assert (Hkeys : forall s, In s (map fst (temp_summary_all (temporal_anomalies enrolment)))
                            <-> In s (states_with_temporal enrolment)).
  { intros s. unfold temp_summary_all, states_with_temporal.
    rewrite (groupby_sum_key_iff String.compare summary_plus String.compare_eq_iff).
    rewrite map_map, unique_In. cbn [fst]. reflexivity. }
  split; [apply firstn_le_length |]. split; [| split; [| exact Hkeys]].
  - unfold temp_summary. apply Sorted_firstn.
    eapply Sorted_impl; [| apply (sort_values_Sorted _ (fun _ => True))].
    + intros a b H. apply Z.leb_le. exact H.
    + intros a b _ _ H. apply Z.leb_gt in H. apply Z.leb_le. lia.
    + rewrite Forall_forall. auto.
  - rewrite Forall_forall. intros [s v] Hrow. cbn [fst snd].
    assert (Hall : In (s, v) (temp_summary_all (temporal_anomalies enrolment))).
    { unfold temp_summary in Hrow.
      eapply Permutation_in; [apply Permutation_sym, sort_values_perm |].
      rewrite <- (firstn_skipn 10). apply in_or_app. left. exact Hrow. }
    destruct (temp_summary_row enrolment s v Hall) as [H1 [H2 H3]].
    repeat split; try assumption.
    apply mem_string_In, Hkeys. apply in_map_iff. exists (s, v). auto.
Qed.

(** ** The master script of phase 3 *)

Lemma run_scripts_all_ok returncode todo done :
  Forall (fun entry => returncode (script_name entry) = 0) todo ->
  run_scripts returncode todo done
  = {| launched := launched done ++ map script_name todo;
       results := results done
                  ++ map (fun entry => (fst (fst entry), snd entry, SUCCESS)) todo;
       exit_status := exit_status done |}.
Proof.
  intros H. revert done. induction H as [| [[step name] descr] todo Hx _ IH]; intros done.
  - cbn. rewrite !app_nil_r. now destruct done.
  - cbn [run_scripts]. unfold script_name in Hx. cbn [fst snd] in Hx.
    rewrite Hx. cbn [Z.eqb]. rewrite IH. cbn [launched results exit_status map].
    unfold script_name at 2. cbn [fst snd]. now rewrite <- !app_assoc.
Qed.

Lemma run_scripts_failure returncode l1 entry l2 done :
  Forall (fun e => returncode (script_name e) = 0) l1 ->
  returncode (script_name entry) <> 0 ->
  run_scripts returncode (l1 ++ entry :: l2) done
  = {| launched := launched done ++ map script_name l1 ++ [script_name entry];
       results := results done
                  ++ map (fun e => (fst (fst e), snd e, SUCCESS)) l1
                  ++ [(fst (fst entry), snd entry, FAILED)];
       exit_status := Some 1 |}.
Proof.
  intros H Hbad. revert done. induction H as [| [[step name] descr] l1 Hx _ IH]; intros done.
  - destruct entry as [[step name] descr]. cbn [app run_scripts map].
    unfold script_name in Hbad. cbn [fst snd] in Hbad.
    apply Z.eqb_neq in Hbad. rewrite Hbad. reflexivity.
  - cbn [app run_scripts]. unfold script_name in Hx. cbn [fst snd] in Hx.
    rewrite Hx. cbn [Z.eqb]. rewrite IH. cbn [launched results exit_status map].
    unfold script_name at 2. cbn [fst snd]. now rewrite <- !app_assoc.
Qed.

Lemma first_failure (returncode : string -> Z) (todo : list (string * string * string)) :
  Forall (fun e => returncode (script_name e) = 0) todo
  \/ exists l1 entry l2,
       todo = l1 ++ entry :: l2
       /\ Forall (fun e => returncode (script_name e) = 0) l1
       /\ returncode (script_name entry) <> 0.
Proof.
  induction todo as [| x todo IH]; [left; constructor |].
  destruct (Z.eq_dec (returncode (script_name x)) 0) as [E | E].
  - destruct IH as [H | [l1 [entry [l2 [-> [H1 H2]]]]]].
    + left. now constructor.
    + right. exists (x :: l1), entry, l2. repeat split; [now constructor | exact H2].
  - right. exists [], x, todo. repeat split; [constructor | exact E].
Qed.

Lemma removelast_snoc {A} (l : list A) (x : A) : removelast (l ++ [x]) = l.
Proof. apply removelast_last. Qed.

(** X22.  The master script is fail-fast.  Scripts are launched in list
    order with none skipped, and every launched script except possibly
    the last has succeeded; the run ends with [sys.exit(1)] exactly when
    some script fails, and none is launched after it.  The execution
    summary is printed only when all scripts succeeded, so it never
    shows a failed step. *)
Theorem master_script_is_fail_fast
    (returncode : string -> Z) (todo : list (string * string * string)) :
  let e := run_scripts returncode todo start in
  (exit_status e = None
   <-> Forall (fun entry => returncode (script_name entry) = 0) todo)
  /\ (exit_status e = None \/ exit_status e = Some 1)
  /\ (exists rest, map script_name todo = launched e ++ rest)
  /\ Forall (fun name => returncode name = 0) (removelast (launched e))
  /\ List.length (results e) = List.length (launched e)
  /\ (forall summary, execution_summary e = Some summary ->
        summary = map (fun entry => (fst (fst entry), snd entry, SUCCESS)) todo)
  /\ (In "PHASE3_STEP4_anomaly_detection.py"%string
         (launched (run_scripts returncode scripts start))
      <-> returncode "PHASE3_STEP1_trend_prediction.py"%string = 0
          /\ returncode "PHASE3_STEP2_child_enrolment_gap.py"%string = 0
          /\ returncode "PHASE3_STEP3_biometric_compliance.py"%string = 0).
Proof.
  cbv zeta.
  assert (Hlast : In "PHASE3_STEP4_anomaly_detection.py"%string
                     (launched (run_scripts returncode scripts start))
                  <-> returncode "PHASE3_STEP1_trend_prediction.py"%string = 0
                      /\ returncode "PHASE3_STEP2_child_enrolment_gap.py"%string = 0
                      /\ returncode "PHASE3_STEP3_biometric_compliance.py"%string = 0).
  { unfold scripts. cbn [run_scripts].
    destruct (Z.eqb_spec (returncode "PHASE3_STEP1_trend_prediction.py"%string) 0) as [E1 | E1];
      [| cbn; split; [intros [H | []]; discriminate H | tauto]].
    destruct (Z.eqb_spec (returncode "PHASE3_STEP2_child_enrolment_gap.py"%string) 0) as [E2 | E2];
      [| cbn; split; [intros [H | [H | []]]; discriminate H | tauto]].
    destruct (Z.eqb_spec (returncode "PHASE3_STEP3_biometric_compliance.py"%string) 0) as [E3 | E3];
      [| cbn; split; [intros [H | [H | [H | []]]]; discriminate H | tauto]].
    split; [tauto |]. intros _.
    destruct (returncode "PHASE3_STEP4_anomaly_detection.py"%string =? 0); cbn; tauto. }
  destruct (first_failure returncode todo) as [Hok | [l1 [entry [l2 [-> [H1 H2]]]]]].
  - rewrite (run_scripts_all_ok _ _ _ Hok). cbn [launched results exit_status start app].
    split; [tauto |]. split; [now left |].
    split; [exists []; now rewrite app_nil_r |].
    split.
    + rewrite Forall_forall in *. intros name Hn.
      assert (Hin : In name (map script_name todo)).
      { destruct (map script_name todo) as [| a l] eqn:E; [destruct Hn |].
        destruct (@exists_last _ (a :: l)) as [l' [z Hz]]; [discriminate |].
        rewrite Hz in *. rewrite removelast_snoc in Hn.
        apply in_or_app. now left. }
      apply in_map_iff in Hin. destruct Hin as [x [<- Hx]]. now apply Hok.
    + split; [now rewrite !length_map |]. split; [| exact Hlast].
      intros summary H. unfold execution_summary in H.
      cbn [exit_status results] in H. now injection H as <-.
  - rewrite (run_scripts_failure _ _ _ _ _ H1 H2).
    cbn [launched results exit_status start app].
    split.
    + split; [discriminate |]. intros Hall. exfalso.
      rewrite Forall_forall in Hall. apply H2, Hall. apply in_or_app. right. now left.
    + split; [now right |].
      split; [exists (map script_name l2); rewrite map_app; cbn [map];
              now rewrite <- app_assoc |].
      split.
      * rewrite removelast_snoc. rewrite Forall_forall in *. intros name Hn.
        apply in_map_iff in Hn. destruct Hn as [x [<- Hx]]. now apply H1.
      * split; [now rewrite !length_app, !length_map |]. split; [| exact Hlast].
        intros summary H. discriminate H.
Qed.
